(** * Music analytics platform: event validation, feature derivation and
    windowed aggregation

    A shallow embedding of

    - [src/models/music_events.py]   (the Pydantic event schema),
    - [src/pipeline/music_pipeline.py]   ([ParseMusicEvent],
      [EnrichEventMetadata], [AggregateEventMetrics]) and
    - [src/pipeline/dataflow_pipeline.py]   (the per-platform metrics and
      the per-element transforms),
    - [src/pipeline/music_pipeline_simple.py]   ([SimpleMusicProcessor]) and
    - [src/functions/claude_enrichment.py]
      ([calculate_enrichment_confidence]),

    followed by the properties of the specification that concern them and
    by further properties of the code.

    Modelling conventions.

    - Python [int] is [Z]; Python [float] is IEEE-754 binary64, modelled by
      the [spec_float] of the standard library with [prec = 53] and
      [emax = 1024], every operation rounding to nearest-even as CPython's
      does.  [int / int] is the correctly rounded quotient and raises
      [ZeroDivisionError] or [OverflowError] as in CPython.
    - Python [str] is [string]; a character is a code point below 256.
    - A [raise] is a value of type [result]; [try ... except] is a [match].
    - [uuid4()] and [datetime.utcnow()] read a [World] that is threaded
      through the code that calls them.
    - A dictionary with computed keys is a [gmap]; a dictionary literal with
      a fixed key set is a record, a key that the code may leave out being
      an [option] field.
    - A field annotated with an [Enum] class is recorded as a member of
      the enumeration.  What the Python attribute holds depends on the
      model's [Config]: [MusicEvent] sets [use_enum_values], so that
      [event.event_type] is the plain [str] value of the member, on which
      [.value] raises [AttributeError]; the nested models do not, and
      their attributes hold the members ([enum_field] below).
    - The built-in [sum] adds floats from left to right up to CPython 3.11
      and with a compensation from 3.12 on.  [music_pipeline.py] runs on
      the former, which the pinned apache-beam requires;
      [claude_enrichment.py] may run on either.
    - Pydantic's field validators are modelled type-strictly: a raw value of
      another Python type than the annotation is reported as a type error;
      the coercions Pydantic may attempt on such values (for instance
      [int("12")]) are not modelled. *)

From Stdlib Require Import ZArith String Ascii List Bool SpecFloat Permutation.
From stdpp Require Import gmap strings list pretty.

#[local] Set Warnings "-register-all".
#[local] Open Scope string_scope.
#[local] Open Scope list_scope.
#[local] Open Scope Z_scope.

(* ===================================================================== *)
(** * Python values                                                       *)
(* ===================================================================== *)

Module Py.

(** ** Exceptions and results *)

Inductive exn : Type :=
  | ZeroDivisionError
  | OverflowError
  | TypeError
  | AttributeError
  | UnicodeDecodeError
  | JSONDecodeError.

Inductive result (A : Type) : Type :=
  | OK (a : A)
  | Raise (e : exn).
Arguments OK {A} a.
Arguments Raise {A} e.

#[global] Instance result_ret : MRet result := fun A a => OK a.

#[global] Instance result_bind : MBind result := fun A B k r =>
  match r with
  | OK a => k a
  | Raise e => Raise e
  end.

(** ** binary64 *)

Definition prec : Z := 53.
Definition emax : Z := 1024.

Definition float : Type := spec_float.

#[global] Instance float_eq_dec : EqDecision float.
Proof. unfold float. solve_decision. Defined.

Definition fadd : float -> float -> float := SFadd prec emax.
Definition fsub : float -> float -> float := SFsub prec emax.
Definition fmul : float -> float -> float := SFmul prec emax.
Definition fdiv : float -> float -> float := SFdiv prec emax.

(** [a < b] and [a <= b] on floats. *)
Definition flt : float -> float -> bool := SFltb.
Definition fle : float -> float -> bool := SFleb.

(** The integer [z] as an exact, possibly unnormalised, operand. *)
Definition exact_int (z : Z) : float :=
  match z with
  | Z0 => S754_zero false
  | Zpos p => S754_finite false p 0
  | Zneg p => S754_finite true p 0
  end.

Definition is_infinite (f : float) : bool :=
  match f with
  | S754_infinity _ => true
  | _ => false
  end.

(** [float(z)]: the nearest binary64, [OverflowError] beyond the range. *)
Definition float_of_int (z : Z) : result float :=
  let f := binary_normalize prec emax z 0 false in
  if is_infinite f then Raise OverflowError else OK f.

(** [a / b] on two [int]s: the quotient rounded once. *)
Definition int_truediv (a b : Z) : result float :=
  if b =? 0 then Raise ZeroDivisionError
  else
    let q := fdiv (exact_int a) (exact_int b) in
    if is_infinite q then Raise OverflowError else OK q.

(** The value of the decimal literal [n/d] (for instance [0.3] is
    [literal 3 10]): the binary64 nearest to the fraction. *)
Definition literal (n d : Z) : float := fdiv (exact_int n) (exact_int d).

Definition f0_0 : float := S754_zero false.
Definition f1_0 : float := Eval vm_compute in literal 1 1.
Definition f0_1 : float := Eval vm_compute in literal 1 10.
Definition f0_2 : float := Eval vm_compute in literal 2 10.
Definition f0_3 : float := Eval vm_compute in literal 3 10.
Definition f0_4 : float := Eval vm_compute in literal 4 10.
Definition f0_5 : float := Eval vm_compute in literal 5 10.
Definition f0_8 : float := Eval vm_compute in literal 8 10.
Definition f120 : float := Eval vm_compute in literal 120 1.
Definition f300 : float := Eval vm_compute in literal 300 1.

(** Two-argument [min(a, b)] and [max(a, b)]: the first argument is kept
    unless the second is strictly smaller (resp. larger). *)
Definition min2 (a b : float) : float := if flt b a then b else a.
Definition max2 (a b : float) : float := if flt a b then b else a.

(** [sum(l)] on CPython up to 3.11, the versions that the pinned
    apache-beam 2.54.0 runs on: the accumulator starts from the integer [0]
    and the items are added from left to right, each addition rounding. *)
Definition sum (l : list float) : float := fold_left fadd l f0_0.

Definition fabs (f : float) : float := SFabs f.

Definition is_finite (f : float) : bool :=
  match f with
  | S754_zero _ | S754_finite _ _ _ => true
  | _ => false
  end.

Definition is_zero (f : float) : bool :=
  match f with
  | S754_zero _ => true
  | _ => false
  end.

(** One step of the float loop of [sum] on CPython from 3.12 (Neumaier's
    compensated summation): [t = f + x], the rounding error of that
    addition is added to [c], and [t] becomes the running sum. *)
Definition sum_step (fc : float * float) (x : float) : float * float :=
  let '(f_result, c) := fc in
  let t := fadd f_result x in
  let c :=
    if fle (fabs x) (fabs f_result)
    then fadd c (fadd (fsub f_result t) x)
    else fadd c (fadd (fsub x t) f_result) in
  (t, c).

(** [sum(l)] on CPython from 3.12: the first item is added to the integer
    [0], the others go through the compensated loop, and the compensation
    is added at the end if it is finite and not zero. *)
Definition sum_compensated (l : list float) : float :=
  match l with
  | [] => f0_0
  | first :: rest =>
      let '(f_result, c) := fold_left sum_step rest (fadd f0_0 first, f0_0) in
      if negb (is_zero c) && is_finite c then fadd f_result c else f_result
  end.

(** The interpreters that the package admits ([python_requires='>=3.9']),
    as far as [sum] tells them apart. *)
Inductive interpreter : Type :=
  | CPython_upto_3_11
  | CPython_from_3_12.

Definition sum_on (v : interpreter) (l : list float) : float :=
  match v with
  | CPython_upto_3_11 => sum l
  | CPython_from_3_12 => sum_compensated l
  end.

(** ** Strings *)

(** [c.isspace()] for a code point below 256. *)
Definition isspace (c : ascii) : bool :=
  let n := Z.of_nat (nat_of_ascii c) in
  ((9 <=? n) && (n <=? 13)) || ((28 <=? n) && (n <=? 32))
  || (n =? 133) || (n =? 160).

Fixpoint lstrip (s : string) : string :=
  match s with
  | EmptyString => EmptyString
  | String c s' => if isspace c then lstrip s' else s
  end.

Fixpoint rstrip (s : string) : string :=
  match s with
  | EmptyString => EmptyString
  | String c s' =>
      match rstrip s' with
      | EmptyString => if isspace c then EmptyString else String c EmptyString
      | r => String c r
      end
  end.

(** [s.strip()] *)
Definition strip (s : string) : string := rstrip (lstrip s).

(** [len(s)] *)
Definition len (s : string) : Z := Z.of_nat (String.length s).

(** [x in l] for a list of strings. *)
Definition str_in (x : string) (l : list string) : bool :=
  existsb (String.eqb x) l.

(** ** Naive and aware [datetime] values *)

Record datetime : Type := {
  year : Z;
  month : Z;
  day : Z;
  hour : Z;
  minute : Z;
  second : Z;
  microsecond : Z;
  tzoffset : option Z   (* the UTC offset in minutes; [None] when naive *)
}.

Definition is_leap (y : Z) : bool :=
  (y mod 4 =? 0) && (negb (y mod 100 =? 0) || (y mod 400 =? 0)).

Definition days_before_year (y : Z) : Z :=
  let y1 := y - 1 in y1 * 365 + y1 / 4 - y1 / 100 + y1 / 400.

Definition days_before_month (y m : Z) : Z :=
  nth (Z.to_nat (m - 1))
      [0; 31; 59; 90; 120; 151; 181; 212; 243; 273; 304; 334] 0
  + (if (2 <? m) && is_leap y then 1 else 0).

Definition toordinal (d : datetime) : Z :=
  days_before_year (year d) + days_before_month (year d) (month d) + day d.

(** [d.weekday()]: Monday is 0, Sunday is 6. *)
Definition weekday (d : datetime) : Z := (toordinal d + 6) mod 7.

Definition digit (z : Z) : ascii := ascii_of_nat (48 + Z.to_nat (z mod 10)).

(** [z] written with [n] decimal digits, zero padded. *)
Fixpoint zpad (n : nat) (z : Z) : string :=
  match n with
  | O => EmptyString
  | S n' => zpad n' (z / 10) +:+ String (digit z) EmptyString
  end.

(** [d.isoformat()] *)
Definition isoformat (d : datetime) : string :=
  zpad 4 (year d) +:+ "-" +:+ zpad 2 (month d) +:+ "-" +:+ zpad 2 (day d)
  +:+ "T" +:+ zpad 2 (hour d) +:+ ":" +:+ zpad 2 (minute d) +:+ ":"
  +:+ zpad 2 (second d)
  +:+ (if microsecond d =? 0 then "" else "." +:+ zpad 6 (microsecond d))
  +:+ match tzoffset d with
      | None => ""
      | Some off =>
          (if off <? 0 then "-" else "+")
          +:+ zpad 2 (Z.abs off / 60) +:+ ":" +:+ zpad 2 (Z.abs off mod 60)
      end.

(** ** The world read by [uuid4()] and [datetime.utcnow()] *)

Record World : Type := {
  uuid_source : nat -> string;
  clock : nat -> datetime;
  uuids_drawn : nat;
  clock_reads : nat
}.

Definition uuid4 (w : World) : string * World :=
  (uuid_source w (uuids_drawn w),
   {| uuid_source := uuid_source w; clock := clock w;
      uuids_drawn := S (uuids_drawn w); clock_reads := clock_reads w |}).

Definition utcnow (w : World) : datetime * World :=
  (clock w (clock_reads w),
   {| uuid_source := uuid_source w; clock := clock w;
      uuids_drawn := uuids_drawn w; clock_reads := S (clock_reads w) |}).

(** ** Raw (decoded, untyped) values

    The [float] of a [PFloat] is meant to be a binary64 in normal form
    ([valid_binary prec emax]), as every result of the operations above
    is. *)

Inductive pyval : Type :=
  | PNone
  | PBool (b : bool)
  | PInt (z : Z)
  | PFloat (f : float)
  | PStr (s : string)
  | PDatetime (d : datetime)
  | PList (l : list pyval)
  | PDict (m : gmap string pyval).

End Py.

Import Py.

(* ===================================================================== *)
(** * src/models/music_events.py                                          *)
(* ===================================================================== *)

Module Models.

(** ** Enumerations *)

Inductive EventType : Type :=
  | PLAY | SKIP | LIKE | SHARE | PLAYLIST_ADD | DOWNLOAD | SEARCH.

Inductive Platform : Type :=
  | SPOTIFY | APPLE_MUSIC | YOUTUBE_MUSIC | AMAZON_MUSIC | TIDAL
  | SOUNDCLOUD | PANDORA.

Inductive Genre : Type :=
  | POP | ROCK | HIP_HOP | ELECTRONIC | JAZZ | CLASSICAL | COUNTRY
  | R_AND_B | INDIE | ALTERNATIVE | FOLK | REGGAE | BLUES | METAL | PUNK
  | OTHER.

#[global] Instance EventType_eq_dec : EqDecision EventType.
Proof. solve_decision. Defined.
#[global] Instance Platform_eq_dec : EqDecision Platform.
Proof. solve_decision. Defined.
#[global] Instance Genre_eq_dec : EqDecision Genre.
Proof. solve_decision. Defined.

(** The [.value] of a member. *)
Definition EventType_value (t : EventType) : string :=
  match t with
  | PLAY => "play" | SKIP => "skip" | LIKE => "like" | SHARE => "share"
  | PLAYLIST_ADD => "playlist_add" | DOWNLOAD => "download"
  | SEARCH => "search"
  end.

Definition Platform_value (p : Platform) : string :=
  match p with
  | SPOTIFY => "spotify" | APPLE_MUSIC => "apple_music"
  | YOUTUBE_MUSIC => "youtube_music" | AMAZON_MUSIC => "amazon_music"
  | TIDAL => "tidal" | SOUNDCLOUD => "soundcloud" | PANDORA => "pandora"
  end.

Definition Genre_value (g : Genre) : string :=
  match g with
  | POP => "pop" | ROCK => "rock" | HIP_HOP => "hip_hop"
  | ELECTRONIC => "electronic" | JAZZ => "jazz" | CLASSICAL => "classical"
  | COUNTRY => "country" | R_AND_B => "r_and_b" | INDIE => "indie"
  | ALTERNATIVE => "alternative" | FOLK => "folk" | REGGAE => "reggae"
  | BLUES => "blues" | METAL => "metal" | PUNK => "punk" | OTHER => "other"
  end.

Definition EventType_members : list EventType :=
  [PLAY; SKIP; LIKE; SHARE; PLAYLIST_ADD; DOWNLOAD; SEARCH].
Definition Platform_members : list Platform :=
  [SPOTIFY; APPLE_MUSIC; YOUTUBE_MUSIC; AMAZON_MUSIC; TIDAL; SOUNDCLOUD;
   PANDORA].
Definition Genre_members : list Genre :=
  [POP; ROCK; HIP_HOP; ELECTRONIC; JAZZ; CLASSICAL; COUNTRY; R_AND_B; INDIE;
   ALTERNATIVE; FOLK; REGGAE; BLUES; METAL; PUNK; OTHER].

(** [E(s)]: the member whose value is [s]. *)
Definition by_value {E : Type} (value : E -> string) (members : list E)
    (s : string) : option E :=
  find (fun m => String.eqb (value m) s) members.

(** ** Entities *)

Record Artist : Type := {
  artist_id : string;
  artist_name : string;
  artist_genres : list Genre;
  artist_followers : option Z;
  artist_verified : bool;
  artist_country : option string
}.

Record Album : Type := {
  album_id : string;
  album_name : string;
  album_artist_id : string;
  album_release_date : option datetime;
  album_track_count : option Z;
  album_genres : list Genre
}.

Record Track : Type := {
  track_id : string;
  track_name : string;
  track_artist_id : string;
  track_album_id : option string;
  track_duration_ms : option Z;
  track_explicit : bool;
  track_popularity : option Z;
  track_energy : option float;
  track_valence : option float;
  track_tempo : option float;
  track_genres : list Genre
}.

Record UserInteraction : Type := {
  user_id : string;
  session_id : string;
  device_type : option string;
  location : option string;
  subscription_type : option string;
  user_age_group : option string
}.

Record PlayEvent : Type := {
  played_duration_ms : Z;
  skip_reason : option string;
  playlist_id : option string;
  shuffle_mode : bool;
  repeat_mode : string
}.

Record StreamingEvent : Type := {
  platform : Platform;
  stream_quality : option string;
  bandwidth_kbps : option Z;
  buffer_events : option Z
}.

Record MusicEvent : Type := {
  event_id : string;
  event_type : EventType;
  timestamp : datetime;
  track : Track;
  artist : Artist;
  album : option Album;
  user_interaction : UserInteraction;
  play_event : option PlayEvent;
  streaming_event : StreamingEvent;
  raw_data : option (gmap string pyval);
  processing_timestamp : datetime
}.

(** ** What an attribute annotated with an [Enum] class holds

    Validation finds the member of the enumeration for the raw value.
    Under [use_enum_values = True] the model then stores the value of the
    member, a plain [str]; otherwise it stores the member.  Of the models
    here only [MusicEvent] has a [Config] with that setting, and
    [event_type] is its only field of an enumeration: the records keep the
    member that was found, and the functions below say what the attribute
    holds. *)

Inductive enum_field (E : Type) : Type :=
  | Member (m : E)                  (* a member; [.value] is its string *)
  | Plain (s : string).             (* a [str], which has no [.value] *)
Arguments Member {E} m.
Arguments Plain {E} s.

(** [event.event_type], for an event that validation built. *)
Definition event_type_attr (event : MusicEvent) : enum_field EventType :=
  Plain (EventType_value (event_type event)).

(** [streaming_event.platform] *)
Definition platform_attr (s : StreamingEvent) : enum_field Platform :=
  Member (platform s).

(** [x.value] *)
Definition get_value {E : Type} (value : E -> string) (x : enum_field E)
    : result string :=
  match x with
  | Member m => OK (value m)
  | Plain _ => Raise AttributeError
  end.

(** ** Validation outcomes

    A [ValidationError] carries one entry per failure: the location of the
    offending value (keys and list indices from the root of the model) and
    a message. *)

Inductive loc_item : Type :=
  | Key (k : string)
  | Index (i : nat).

Definition error : Type := list loc_item * string.

Inductive outcome (A : Type) : Type :=
  | Valid (a : A)
  | Invalid (errors : list error).
Arguments Valid {A} a.
Arguments Invalid {A} errors.

#[global] Instance outcome_fmap : FMap outcome := fun A B f o =>
  match o with
  | Valid a => Valid (f a)
  | Invalid es => Invalid es
  end.

(** Chaining of the validators of one field: the first failure stops it. *)
#[global] Instance outcome_bind : MBind outcome := fun A B k o =>
  match o with
  | Valid a => k a
  | Invalid es => Invalid es
  end.

(** [o >>> v]: the next validator of a field runs on the value the
    previous ones accepted. *)
Notation "o >>> v" := (mbind v o) (at level 50, left associativity).

Definition fail {A : Type} (msg : string) : outcome A := Invalid [([], msg)].

Definition value_of {A : Type} (o : outcome A) : option A :=
  match o with
  | Valid a => Some a
  | Invalid _ => None
  end.

Definition errors_of {A : Type} (o : outcome A) : list error :=
  match o with
  | Valid _ => []
  | Invalid es => es
  end.

Definition under {A : Type} (i : loc_item) (o : outcome A) : outcome A :=
  match o with
  | Valid a => Valid a
  | Invalid es => Invalid (map (fun e => (i :: fst e, snd e)) es)
  end.

(** ** Field presence *)

(** [name: T = Field(...)] *)
Definition required {A : Type} (data : gmap string pyval) (k : string)
    (v : pyval -> outcome A) : outcome A :=
  match data !! k with
  | None => Invalid [([Key k], "field required")]
  | Some PNone => Invalid [([Key k], "none is not an allowed value")]
  | Some x => under (Key k) (v x)
  end.

(** [name: Optional[T] = Field(None, ...)] *)
Definition optional {A : Type} (data : gmap string pyval) (k : string)
    (v : pyval -> outcome A) : outcome (option A) :=
  match data !! k with
  | None | Some PNone => Valid None
  | Some x => under (Key k) (Some <$> v x)
  end.

(** [name: T = Field(default=d, ...)]: the default is taken unvalidated. *)
Definition defaulted {A : Type} (data : gmap string pyval) (k : string)
    (d : A) (v : pyval -> outcome A) : outcome A :=
  match data !! k with
  | None => Valid d
  | Some PNone => Invalid [([Key k], "none is not an allowed value")]
  | Some x => under (Key k) (v x)
  end.

(** ** Type validators (type-strict, see the conventions above) *)

Definition str_validator (x : pyval) : outcome string :=
  match x with
  | PStr s => Valid s
  | _ => fail "str type expected"
  end.

Definition int_validator (x : pyval) : outcome Z :=
  match x with
  | PInt z => Valid z
  | PBool b => Valid (if b then 1 else 0)
  | _ => fail "value is not a valid integer"
  end.

(** An [int] beyond the binary64 range makes [float(v)] raise
    [OverflowError] rather than a [ValidationError]; the single caller's
    handlers treat the two alike, and it is reported as a failure here. *)
Definition float_validator (x : pyval) : outcome float :=
  match x with
  | PFloat f => Valid f
  | PInt z =>
      match float_of_int z with
      | OK f => Valid f
      | Raise _ => fail "value is not a valid float"
      end
  | PBool b => Valid (if b then f1_0 else f0_0)
  | _ => fail "value is not a valid float"
  end.

Definition bool_validator (x : pyval) : outcome bool :=
  match x with
  | PBool b => Valid b
  | PInt 0 => Valid false
  | PInt 1 => Valid true
  | _ => fail "value could not be parsed to a boolean"
  end.

Definition dict_validator (x : pyval) : outcome (gmap string pyval) :=
  match x with
  | PDict m => Valid m
  | _ => fail "value is not a valid dict"
  end.

(** The message of [EnumMemberError]: it lists the [repr] of the values
    of the members. *)
Definition permitted {E : Type} (value : E -> string) (members : list E)
    : string :=
  String.concat ", " (map (fun m => "'" +:+ value m +:+ "'") members).

Definition enum_validator {E : Type} (value : E -> string)
    (members : list E) (x : pyval) : outcome E :=
  let not_a_member :=
    fail ("value is not a valid enumeration member; permitted: "
          +:+ permitted value members) in
  match x with
  | PStr s =>
      match by_value value members s with
      | Some m => Valid m
      | None => not_a_member
      end
  | _ => not_a_member
  end.

(** [List[T]]: every item is validated, and every failure reported under
    the item's index. *)
Fixpoint items_validator {A : Type} (v : pyval -> outcome A) (i : nat)
    (l : list pyval) : outcome (list A) :=
  match l with
  | [] => Valid []
  | x :: l' =>
      match under (Index i) (v x), items_validator v (S i) l' with
      | Valid a, Valid r => Valid (a :: r)
      | o, r => Invalid (errors_of o ++ errors_of r)
      end
  end.

Definition list_validator {A : Type} (v : pyval -> outcome A) (x : pyval)
    : outcome (list A) :=
  match x with
  | PList l => items_validator v 0 l
  | _ => fail "value is not a valid list"
  end.

(** ** Constraints of [Field(...)] *)

Definition ge (bound : Z) (z : Z) : outcome Z :=
  if bound <=? z then Valid z
  else fail ("ensure this value is greater than or equal to " +:+ pretty bound).

Definition le (bound : Z) (z : Z) : outcome Z :=
  if z <=? bound then Valid z
  else fail ("ensure this value is less than or equal to " +:+ pretty bound).

Definition fge (bound : float) (text : string) (f : float) : outcome float :=
  if fle bound f then Valid f
  else fail ("ensure this value is greater than or equal to " +:+ text).

Definition fle_ (bound : float) (text : string) (f : float) : outcome float :=
  if fle f bound then Valid f
  else fail ("ensure this value is less than or equal to " +:+ text).

Definition min_length (n : Z) (s : string) : outcome string :=
  if n <=? len s then Valid s
  else fail ("ensure this value has at least " +:+ pretty n +:+ " characters").

Definition max_length (n : Z) (s : string) : outcome string :=
  if len s <=? n then Valid s
  else fail ("ensure this value has at most " +:+ pretty n +:+ " characters").

(** ** Artist *)

Definition Artist_validate_name (v : string) : outcome string :=
  if decide (strip v = "") then fail "Artist name cannot be empty"
  else Valid (strip v).

Definition genres_validator : pyval -> outcome (list Genre) :=
  list_validator (enum_validator Genre_value Genre_members).

Definition Artist_new (data : gmap string pyval) : outcome Artist :=
  let id := required data "id" str_validator in
  let name := required data "name" (fun x =>
    str_validator x >>> min_length 1 >>> max_length 200
      >>> Artist_validate_name) in
  let genres := defaulted data "genres" [] genres_validator in
  let followers := optional data "followers" (fun x =>
    int_validator x >>> ge 0) in
  let verified := defaulted data "verified" false bool_validator in
  let country := optional data "country" (fun x =>
    str_validator x >>> max_length 2) in
  match id, name, genres, followers, verified, country with
  | Valid id, Valid name, Valid genres, Valid followers, Valid verified,
    Valid country =>
      Valid {| artist_id := id; artist_name := name;
               artist_genres := genres; artist_followers := followers;
               artist_verified := verified; artist_country := country |}
  | _, _, _, _, _, _ =>
      Invalid (errors_of id ++ errors_of name ++ errors_of genres
               ++ errors_of followers ++ errors_of verified
               ++ errors_of country)
  end.

(** ** Track *)

Definition Track_validate_name (v : string) : outcome string :=
  if decide (strip v = "") then fail "Track name cannot be empty"
  else Valid (strip v).

Definition unit_interval (x : pyval) : outcome float :=
  float_validator x >>> fge f0_0 "0.0" >>> fle_ f1_0 "1.0".

Definition Track_new (data : gmap string pyval) : outcome Track :=
  let id := required data "id" str_validator in
  let name := required data "name" (fun x =>
    str_validator x >>> min_length 1 >>> max_length 300
      >>> Track_validate_name) in
  let artist_id := required data "artist_id" str_validator in
  let album_id := optional data "album_id" str_validator in
  let duration_ms := optional data "duration_ms" (fun x =>
    int_validator x >>> ge 0) in
  let explicit := defaulted data "explicit" false bool_validator in
  let popularity := optional data "popularity" (fun x =>
    int_validator x >>> ge 0 >>> le 100) in
  let energy := optional data "energy" unit_interval in
  let valence := optional data "valence" unit_interval in
  let tempo := optional data "tempo" (fun x =>
    float_validator x >>> fge f0_0 "0.0") in
  let genres := defaulted data "genres" [] genres_validator in
  match id, name, artist_id, album_id, duration_ms, explicit, popularity,
        energy, valence, tempo, genres with
  | Valid id, Valid name, Valid artist_id, Valid album_id,
    Valid duration_ms, Valid explicit, Valid popularity, Valid energy,
    Valid valence, Valid tempo, Valid genres =>
      Valid {| track_id := id; track_name := name;
               track_artist_id := artist_id; track_album_id := album_id;
               track_duration_ms := duration_ms; track_explicit := explicit;
               track_popularity := popularity; track_energy := energy;
               track_valence := valence; track_tempo := tempo;
               track_genres := genres |}
  | _, _, _, _, _, _, _, _, _, _, _ =>
      Invalid (errors_of id ++ errors_of name ++ errors_of artist_id
               ++ errors_of album_id ++ errors_of duration_ms
               ++ errors_of explicit ++ errors_of popularity
               ++ errors_of energy ++ errors_of valence ++ errors_of tempo
               ++ errors_of genres)
  end.

(** ** UserInteraction *)

Definition UserInteraction_new (data : gmap string pyval)
    : outcome UserInteraction :=
  let user_id := required data "user_id" str_validator in
  let session_id := required data "session_id" str_validator in
  let device_type := optional data "device_type" str_validator in
  let location := optional data "location" (fun x =>
    str_validator x >>> max_length 2) in
  let subscription_type := optional data "subscription_type" str_validator in
  let user_age_group := optional data "user_age_group" str_validator in
  match user_id, session_id, device_type, location, subscription_type,
        user_age_group with
  | Valid user_id, Valid session_id, Valid device_type, Valid location,
    Valid subscription_type, Valid user_age_group =>
      Valid {| user_id := user_id; session_id := session_id;
               device_type := device_type; location := location;
               subscription_type := subscription_type;
               user_age_group := user_age_group |}
  | _, _, _, _, _, _ =>
      Invalid (errors_of user_id ++ errors_of session_id
               ++ errors_of device_type ++ errors_of location
               ++ errors_of subscription_type ++ errors_of user_age_group)
  end.

(** ** PlayEvent *)

Definition valid_modes : list string := ["off"; "track"; "context"].

Definition validate_repeat_mode (v : string) : outcome string :=
  if negb (str_in v valid_modes)
  then fail "Repeat mode must be one of ['off', 'track', 'context']"
  else Valid v.

Definition PlayEvent_new (data : gmap string pyval) : outcome PlayEvent :=
  let played_duration_ms := required data "played_duration_ms" (fun x =>
    int_validator x >>> ge 0) in
  let skip_reason := optional data "skip_reason" str_validator in
  let playlist_id := optional data "playlist_id" str_validator in
  let shuffle_mode := defaulted data "shuffle_mode" false bool_validator in
  let repeat_mode := defaulted data "repeat_mode" "off" (fun x =>
    str_validator x >>> validate_repeat_mode) in
  match played_duration_ms, skip_reason, playlist_id, shuffle_mode,
        repeat_mode with
  | Valid played_duration_ms, Valid skip_reason, Valid playlist_id,
    Valid shuffle_mode, Valid repeat_mode =>
      Valid {| played_duration_ms := played_duration_ms;
               skip_reason := skip_reason; playlist_id := playlist_id;
               shuffle_mode := shuffle_mode; repeat_mode := repeat_mode |}
  | _, _, _, _, _ =>
      Invalid (errors_of played_duration_ms ++ errors_of skip_reason
               ++ errors_of playlist_id ++ errors_of shuffle_mode
               ++ errors_of repeat_mode)
  end.

(** ** StreamingEvent *)

Definition StreamingEvent_new (data : gmap string pyval)
    : outcome StreamingEvent :=
  let platform := required data "platform"
    (enum_validator Platform_value Platform_members) in
  let stream_quality := optional data "stream_quality" str_validator in
  let bandwidth_kbps := optional data "bandwidth_kbps" (fun x =>
    int_validator x >>> ge 0) in
  let buffer_events := optional data "buffer_events" (fun x =>
    int_validator x >>> ge 0) in
  match platform, stream_quality, bandwidth_kbps, buffer_events with
  | Valid platform, Valid stream_quality, Valid bandwidth_kbps,
    Valid buffer_events =>
      Valid {| platform := platform; stream_quality := stream_quality;
               bandwidth_kbps := bandwidth_kbps;
               buffer_events := buffer_events |}
  | _, _, _, _ =>
      Invalid (errors_of platform ++ errors_of stream_quality
               ++ errors_of bandwidth_kbps ++ errors_of buffer_events)
  end.

(** A field whose type is a model: a dictionary is validated by the model. *)
Definition model_validator {A : Type} (new : gmap string pyval -> outcome A)
    (x : pyval) : outcome A :=
  match x with
  | PDict m => new m
  | _ => fail "value is not a valid dict"
  end.

Section Datetimes.

(** Pydantic's [parse_datetime], which turns a raw value (a [datetime], a
    number of seconds, an ISO-8601 text with an optional trailing [Z])
    into a [datetime], is library code. *)
Variable parse_datetime : pyval -> option datetime.

Definition datetime_validator (x : pyval) : outcome datetime :=
  match parse_datetime x with
  | Some d => Valid d
  | None => fail "invalid datetime format"
  end.

(** ** Album *)

Definition Album_validate_name (v : string) : outcome string :=
  if decide (strip v = "") then fail "Album name cannot be empty"
  else Valid (strip v).

Definition Album_new (data : gmap string pyval) : outcome Album :=
  let id := required data "id" str_validator in
  let name := required data "name" (fun x =>
    str_validator x >>> min_length 1 >>> max_length 300
      >>> Album_validate_name) in
  let artist_id := required data "artist_id" str_validator in
  let release_date := optional data "release_date" datetime_validator in
  let track_count := optional data "track_count" (fun x =>
    int_validator x >>> ge 1) in
  let genres := defaulted data "genres" [] genres_validator in
  match id, name, artist_id, release_date, track_count, genres with
  | Valid id, Valid name, Valid artist_id, Valid release_date,
    Valid track_count, Valid genres =>
      Valid {| album_id := id; album_name := name;
               album_artist_id := artist_id;
               album_release_date := release_date;
               album_track_count := track_count; album_genres := genres |}
  | _, _, _, _, _, _ =>
      Invalid (errors_of id ++ errors_of name ++ errors_of artist_id
               ++ errors_of release_date ++ errors_of track_count
               ++ errors_of genres)
  end.

(** ** MusicEvent *)

(** [name: T = Field(default_factory=f, ...)]: [f] is called when the key
    is missing, and only then. *)
Definition produced {A : Type} (data : gmap string pyval) (k : string)
    (factory : World -> A * World) (v : pyval -> outcome A) (w : World)
    : outcome A * World :=
  match data !! k with
  | None => let '(a, w') := factory w in (Valid a, w')
  | Some PNone => (Invalid [([Key k], "none is not an allowed value")], w)
  | Some x => (under (Key k) (v x), w)
  end.

(** [@root_validator validate_event_consistency]: [Some msg] stands for
    [raise ValueError(msg)].  The arguments are the [values.get(...)] of
    the four fields it reads: [None] for a field that is missing from
    [values] because it failed, or whose value is [None]. *)
Definition validate_event_consistency (event_type : option EventType)
    (play_event : option PlayEvent) (track : option Track)
    (artist : option Artist) : option string :=
  if bool_decide (event_type = Some PLAY) && negb (bool_decide (is_Some play_event))
  then Some "Play events must include play_event data"
  else
    match track, artist with
    | Some t, Some a =>
        if negb (String.eqb (track_artist_id t) (artist_id a))
        then Some "Track artist_id must match artist id"
        else None
    | _, _ => None
    end.

Definition root_errors (msg : option string) : list error :=
  match msg with
  | Some m => [([Key "__root__"], m)]
  | None => []
  end.

(** The constructor [MusicEvent], called on the unpacked dictionary. *)
Definition MusicEvent_new (data : gmap string pyval) (w : World)
    : outcome MusicEvent * World :=
  let '(event_id, w) := produced data "event_id" uuid4 str_validator w in
  let event_type := required data "event_type"
    (enum_validator EventType_value EventType_members) in
  let '(timestamp, w) := produced data "timestamp" utcnow datetime_validator w in
  let track := required data "track" (model_validator Track_new) in
  let artist := required data "artist" (model_validator Artist_new) in
  let album := optional data "album" (model_validator Album_new) in
  let user_interaction := required data "user_interaction"
    (model_validator UserInteraction_new) in
  let play_event := optional data "play_event"
    (model_validator PlayEvent_new) in
  let streaming_event := required data "streaming_event"
    (model_validator StreamingEvent_new) in
  let raw_data := optional data "raw_data" dict_validator in
  let '(processing_timestamp, w) :=
    produced data "processing_timestamp" utcnow datetime_validator w in
  let root := validate_event_consistency (value_of event_type)
    (mjoin (value_of play_event)) (value_of track) (value_of artist) in
  (match event_id, event_type, timestamp, track, artist, album,
         user_interaction, play_event, streaming_event, raw_data,
         processing_timestamp, root with
   | Valid event_id, Valid event_type, Valid timestamp, Valid track,
     Valid artist, Valid album, Valid user_interaction, Valid play_event,
     Valid streaming_event, Valid raw_data, Valid processing_timestamp,
     None =>
       Valid {| event_id := event_id; event_type := event_type;
                timestamp := timestamp; track := track; artist := artist;
                album := album; user_interaction := user_interaction;
                play_event := play_event;
                streaming_event := streaming_event; raw_data := raw_data;
                processing_timestamp := processing_timestamp |}
   | _, _, _, _, _, _, _, _, _, _, _, _ =>
       Invalid (errors_of event_id ++ errors_of event_type
                ++ errors_of timestamp ++ errors_of track
                ++ errors_of artist ++ errors_of album
                ++ errors_of user_interaction ++ errors_of play_event
                ++ errors_of streaming_event ++ errors_of raw_data
                ++ errors_of processing_timestamp ++ root_errors root)
   end, w).

End Datetimes.

End Models.

Import Models.

(* ===================================================================== *)
(** * src/pipeline/music_pipeline.py                                      *)
(* ===================================================================== *)

Module Pipeline.

(** ** ParseMusicEvent *)

(** What the two [except] clauses of [ParseMusicEvent.process] catch. *)
Inductive parse_failure : Type :=
  | Undecodable                                   (* UnicodeDecodeError *)
  | Malformed                                     (* json.JSONDecodeError *)
  | Rejected (errors : list error)                (* ValidationError *)
  | Unexpected (e : exn).                         (* any other Exception *)

(** One call of [logger.error]. *)
Record log_record : Type := {
  cause : parse_failure;
  message_sample : option (list Byte.byte)
}.

(** The two Beam counters of the [DoFn] and the log it writes to. *)
Record ParseState : Type := {
  events_parsed_success : nat;
  events_parsed_error : nat;
  log : list log_record
}.

Definition success_inc (st : ParseState) : ParseState :=
  {| events_parsed_success := S (events_parsed_success st);
     events_parsed_error := events_parsed_error st;
     log := log st |}.

Definition error_inc_and_log (r : log_record) (st : ParseState) : ParseState :=
  {| events_parsed_success := events_parsed_success st;
     events_parsed_error := S (events_parsed_error st);
     log := log st ++ [r] |}.

Section ParseMusicEvent.

(** [bytes.decode('utf-8')], [json.loads] and Pydantic's datetime parser
    are library code. *)
Variable decode_utf8 : list Byte.byte -> option string.
Variable json_loads : string -> option pyval.
Variable parse_datetime : pyval -> option datetime.

(** The body of the [try] block up to the construction of the event. *)
Definition parse (message : list Byte.byte) (w : World)
    : (parse_failure + MusicEvent) * World :=
  match decode_utf8 message with
  | None => (inl Undecodable, w)
  | Some message_str =>
      match json_loads message_str with
      | None => (inl Malformed, w)
      | Some (PDict event_data) =>
          match MusicEvent_new parse_datetime event_data w with
          | (Valid music_event, w') => (inr music_event, w')
          | (Invalid errors, w') => (inl (Rejected errors), w')
          end
      | Some _ => (inl (Unexpected TypeError), w)
      end
  end.

(** [ParseMusicEvent.process]: the list of the elements it yields, and the
    state it leaves. *)
Definition ParseMusicEvent_process (message : list Byte.byte)
    (st : ParseState) (w : World) : list MusicEvent * ParseState * World :=
  match parse message w with
  | (inr music_event, w') => ([music_event], success_inc st, w')
  | (inl (Unexpected e), w') =>
      ([], error_inc_and_log
             {| cause := Unexpected e; message_sample := None |} st, w')
  | (inl f, w') =>
      ([], error_inc_and_log
             {| cause := f; message_sample := Some (take 100 message) |} st,
       w')
  end.

End ParseMusicEvent.

(** ** EnrichEventMetadata *)

(** The dictionary [derived_fields]: a key the code does not set is
    [None]. *)
Record derived_fields : Type := {
  hour_of_day : option Z;
  day_of_week : option Z;
  is_weekend : option bool;
  month : option Z;
  year : option Z;
  track_duration_seconds : option float;
  is_long_track : option bool;
  is_short_track : option bool;
  play_completion_ratio : option float;
  is_full_play : option bool;
  is_skip : option bool;
  engagement_score : option float;
  platform_category : option string
}.

(** The empty dictionary. *)
Definition no_fields : derived_fields :=
  {| hour_of_day := None; day_of_week := None; is_weekend := None;
     month := None; year := None; track_duration_seconds := None;
     is_long_track := None; is_short_track := None;
     play_completion_ratio := None; is_full_play := None; is_skip := None;
     engagement_score := None; platform_category := None |}.

(** The truth value of an [Optional[int]]: [None] and [0] are false. *)
Definition truthy (o : option Z) : option Z :=
  match o with
  | Some z => if z =? 0 then None else Some z
  | None => None
  end.

(** [event.event_type.value] is read at lines 150 and 158: on the [str]
    that a validated event holds, the first read raises. *)
Definition _calculate_engagement_score (event : MusicEvent) : result float :=
  let score := f0_5 in
  (* Boost for full track plays *)
  score ←
    match play_event event, truthy (track_duration_ms (track event)) with
    | Some pe, Some duration_ms =>
        play_ratio ← int_truediv (played_duration_ms pe) duration_ms;
        OK (fadd score (fmul play_ratio f0_3))
    | _, _ => OK score
    end;
  (* Boost for interactive events *)
  kind ← get_value EventType_value (event_type_attr event);
  let score :=
    if str_in kind ["like"; "share"; "playlist_add"]
    then fadd score f0_4 else score in
  (* Boost for repeat listening *)
  let score :=
    match play_event event with
    | Some pe =>
        if negb (String.eqb (repeat_mode pe) "off") then fadd score f0_1
        else score
    | None => score
    end in
  (* Penalty for skips *)
  kind ← get_value EventType_value (event_type_attr event);
  let score :=
    if String.eqb kind "skip" then fsub score f0_2 else score in
  OK (max2 f0_0 (min2 f1_0 score)).

Definition _categorize_platform (platform : string) : string :=
  let premium_platforms := ["spotify"; "apple_music"; "tidal"] in
  let ad_supported := ["youtube_music"; "soundcloud"; "pandora"] in
  if str_in platform premium_platforms then "premium"
  else if str_in platform ad_supported then "ad_supported"
  else "other".

Definition update_time (ts : datetime) (d : derived_fields) : derived_fields :=
  {| hour_of_day := Some (Py.hour ts);
     day_of_week := Some (weekday ts);
     is_weekend := Some (5 <=? weekday ts);
     month := Some (Py.month ts);
     year := Some (Py.year ts);
     track_duration_seconds := track_duration_seconds d;
     is_long_track := is_long_track d; is_short_track := is_short_track d;
     play_completion_ratio := play_completion_ratio d;
     is_full_play := is_full_play d; is_skip := is_skip d;
     engagement_score := engagement_score d;
     platform_category := platform_category d |}.

Definition update_duration (duration_seconds : float) (d : derived_fields)
    : derived_fields :=
  {| hour_of_day := hour_of_day d; day_of_week := day_of_week d;
     is_weekend := is_weekend d; month := month d; year := year d;
     track_duration_seconds := Some duration_seconds;
     is_long_track := Some (flt f300 duration_seconds);
     is_short_track := Some (flt duration_seconds f120);
     play_completion_ratio := play_completion_ratio d;
     is_full_play := is_full_play d; is_skip := is_skip d;
     engagement_score := engagement_score d;
     platform_category := platform_category d |}.

Definition update_completion (play_ratio : float) (d : derived_fields)
    : derived_fields :=
  {| hour_of_day := hour_of_day d; day_of_week := day_of_week d;
     is_weekend := is_weekend d; month := month d; year := year d;
     track_duration_seconds := track_duration_seconds d;
     is_long_track := is_long_track d; is_short_track := is_short_track d;
     play_completion_ratio := Some (min2 play_ratio f1_0);
     is_full_play := Some (fle f0_8 play_ratio);
     is_skip := Some (flt play_ratio f0_3);
     engagement_score := engagement_score d;
     platform_category := platform_category d |}.

Definition set_engagement_score (s : float) (d : derived_fields)
    : derived_fields :=
  {| hour_of_day := hour_of_day d; day_of_week := day_of_week d;
     is_weekend := is_weekend d; month := month d; year := year d;
     track_duration_seconds := track_duration_seconds d;
     is_long_track := is_long_track d; is_short_track := is_short_track d;
     play_completion_ratio := play_completion_ratio d;
     is_full_play := is_full_play d; is_skip := is_skip d;
     engagement_score := Some s;
     platform_category := platform_category d |}.

Definition set_platform_category (c : string) (d : derived_fields)
    : derived_fields :=
  {| hour_of_day := hour_of_day d; day_of_week := day_of_week d;
     is_weekend := is_weekend d; month := month d; year := year d;
     track_duration_seconds := track_duration_seconds d;
     is_long_track := is_long_track d; is_short_track := is_short_track d;
     play_completion_ratio := play_completion_ratio d;
     is_full_play := is_full_play d; is_skip := is_skip d;
     engagement_score := engagement_score d;
     platform_category := Some c |}.

Definition _calculate_derived_fields (event : MusicEvent)
    : result derived_fields :=
  let derived := no_fields in
  (* Time-based fields *)
  let derived := update_time (timestamp event) derived in
  (* Track duration analysis *)
  derived ←
    match truthy (track_duration_ms (track event)) with
    | Some duration_ms =>
        duration_seconds ← int_truediv duration_ms 1000;
        OK (update_duration duration_seconds derived)
    | None => OK derived
    end;
  (* Play completion analysis *)
  derived ←
    match play_event event, truthy (track_duration_ms (track event)) with
    | Some pe, Some duration_ms =>
        play_ratio ← int_truediv (played_duration_ms pe) duration_ms;
        OK (update_completion play_ratio derived)
    | _, _ => OK derived
    end;
  (* User engagement score *)
  engagement ← _calculate_engagement_score event;
  let derived := set_engagement_score engagement derived in
  (* Platform-specific fields *)
  platform ← get_value Platform_value (platform_attr (streaming_event event));
  OK (set_platform_category (_categorize_platform platform) derived).

(** The BigQuery row: the fixed keys of the dictionary literal of
    [_convert_to_bigquery_row], and under [enriched] the keys that
    [row.update(enriched_data)] merges in (none of them is a fixed key). *)
Module Row.
Record t : Type := {
  event_id : string;
  event_type : string;
  timestamp : string;
  processing_timestamp : string;
  track_id : string;
  track_name : string;
  track_duration_ms : option Z;
  track_explicit : bool;
  track_popularity : option Z;
  track_energy : option float;
  track_valence : option float;
  track_tempo : option float;
  track_genres : list string;
  artist_id : string;
  artist_name : string;
  artist_followers : option Z;
  artist_verified : bool;
  artist_country : option string;
  artist_genres : list string;
  album_id : option string;
  album_name : option string;
  album_release_date : option string;
  user_id : string;
  session_id : string;
  device_type : option string;
  user_location : option string;
  subscription_type : option string;
  user_age_group : option string;
  platform : string;
  stream_quality : option string;
  bandwidth_kbps : option Z;
  buffer_events : option Z;
  played_duration_ms : option Z;
  skip_reason : option string;
  playlist_id : option string;
  shuffle_mode : option bool;
  repeat_mode : option string;
  enriched : derived_fields
}.
End Row.

(** The entries of the dictionary literal are evaluated in turn:
    [event.event_type.value] at line 182 comes second. *)
Definition _convert_to_bigquery_row (event : MusicEvent)
    (enriched_data : derived_fields) : result Row.t :=
  event_type ← get_value EventType_value (event_type_attr event);
  platform ← get_value Platform_value (platform_attr (streaming_event event));
  OK
  {| Row.event_id := event_id event;
     Row.event_type := event_type;
     Row.timestamp := isoformat (timestamp event);
     Row.processing_timestamp := isoformat (processing_timestamp event);
     Row.track_id := track_id (track event);
     Row.track_name := track_name (track event);
     Row.track_duration_ms := track_duration_ms (track event);
     Row.track_explicit := track_explicit (track event);
     Row.track_popularity := track_popularity (track event);
     Row.track_energy := track_energy (track event);
     Row.track_valence := track_valence (track event);
     Row.track_tempo := track_tempo (track event);
     Row.track_genres := map Genre_value (track_genres (track event));
     Row.artist_id := artist_id (artist event);
     Row.artist_name := artist_name (artist event);
     Row.artist_followers := artist_followers (artist event);
     Row.artist_verified := artist_verified (artist event);
     Row.artist_country := artist_country (artist event);
     Row.artist_genres := map Genre_value (artist_genres (artist event));
     Row.album_id := album_id <$> album event;
     Row.album_name := album_name <$> album event;
     Row.album_release_date :=
       a ← album event; isoformat <$> album_release_date a;
     Row.user_id := user_id (user_interaction event);
     Row.session_id := session_id (user_interaction event);
     Row.device_type := device_type (user_interaction event);
     Row.user_location := location (user_interaction event);
     Row.subscription_type := subscription_type (user_interaction event);
     Row.user_age_group := user_age_group (user_interaction event);
     Row.platform := platform;
     Row.stream_quality := stream_quality (streaming_event event);
     Row.bandwidth_kbps := bandwidth_kbps (streaming_event event);
     Row.buffer_events := buffer_events (streaming_event event);
     Row.played_duration_ms := played_duration_ms <$> play_event event;
     Row.skip_reason := pe ← play_event event; skip_reason pe;
     Row.playlist_id := pe ← play_event event; playlist_id pe;
     Row.shuffle_mode := shuffle_mode <$> play_event event;
     Row.repeat_mode := repeat_mode <$> play_event event;
     Row.enriched := enriched_data |}.

(** The counter of the [DoFn] and the events whose enrichment was logged
    as failed. *)
Record EnrichState : Type := {
  events_enriched : nat;
  failed_to_enrich : list (string * exn)
}.

(** [EnrichEventMetadata.process]: the rows it yields, or the exception
    that leaves it, and the state it leaves.  The [except] clause logs the
    failure and converts the event again, without derived fields; what
    that conversion raises is not caught. *)
Definition EnrichEventMetadata_process (event : MusicEvent)
    (st : EnrichState) : result (list Row.t) * EnrichState :=
  match (enriched_data ← _calculate_derived_fields event;
         _convert_to_bigquery_row event enriched_data) with
  | OK bq_row =>
      (OK [bq_row],
       {| events_enriched := S (events_enriched st);
          failed_to_enrich := failed_to_enrich st |})
  | Raise e =>
      let st' :=
        {| events_enriched := events_enriched st;
           failed_to_enrich :=
             failed_to_enrich st ++ [(event_id event, e)] |} in
      match _convert_to_bigquery_row event no_fields with
      | OK bq_row => (OK [bq_row], st')
      | Raise e' => (Raise e', st')
      end
  end.

(** ** AggregateEventMetrics *)

Record Aggregate : Type := {
  window_start : string;
  window_end : string;
  total_events : Z;
  unique_users : Z;
  unique_tracks : Z;
  platform_distribution : gmap string Z;
  event_type_distribution : gmap string Z;
  average_engagement_score : float;
  aggregation_timestamp : string
}.

(** [len(set(l))] *)
Definition count_distinct (l : list string) : Z :=
  Z.of_nat (size (list_to_set l : gset string)).

(** [counts[k] = counts.get(k, 0) + 1], over the keys in turn. *)
Definition count_by (keys : list string) : gmap string Z :=
  fold_left (fun counts k => <[k := default 0 (counts !! k) + 1]> counts)
            keys ∅.

(** [min(l)] and [max(l)] on strings: the first item is kept until a
    strictly smaller (resp. larger) one comes. *)
Definition str_min (first : string) (rest : list string) : string :=
  fold_left (fun acc x => if String.ltb x acc then x else acc) rest first.

Definition str_max (first : string) (rest : list string) : string :=
  fold_left (fun acc x => if String.ltb acc x then x else acc) rest first.

(** [sum(scores) / len(scores) if scores else 0.0] *)
Definition average (scores : list float) : float :=
  match scores with
  | [] => f0_0
  | _ => fdiv (Py.sum scores)
              (binary_normalize prec emax (Z.of_nat (length scores)) 0 false)
  end.

(** [AggregateEventMetrics.process]: the aggregates it yields (none for an
    empty window) and the world after its clock reading. *)
Definition AggregateEventMetrics_process (events : list Row.t) (w : World)
    : list Aggregate * World :=
  match events with
  | [] => ([], w)
  | first :: rest =>
      let total_events := Z.of_nat (length events) in
      let unique_users := count_distinct (map Row.user_id events) in
      let unique_tracks := count_distinct (map Row.track_id events) in
      let platform_counts := count_by (map Row.platform events) in
      let event_type_counts := count_by (map Row.event_type events) in
      let engagement_scores :=
        omap (fun event => engagement_score (Row.enriched event)) events in
      let avg_engagement := average engagement_scores in
      let window_start :=
        str_min (Row.timestamp first) (map Row.timestamp rest) in
      let window_end :=
        str_max (Row.timestamp first) (map Row.timestamp rest) in
      let '(now, w') := utcnow w in
      ([{| window_start := window_start;
           window_end := window_end;
           total_events := total_events;
           unique_users := unique_users;
           unique_tracks := unique_tracks;
           platform_distribution := platform_counts;
           event_type_distribution := event_type_counts;
           average_engagement_score := avg_engagement;
           aggregation_timestamp := isoformat now |}], w')
  end.

End Pipeline.

(* ===================================================================== *)
(** * src/pipeline/dataflow_pipeline.py                                   *)
(* ===================================================================== *)

Module Dataflow.

(** The values of an analytics element: what [dict.get] on the decoded
    message yields for a scalar field. *)
Inductive scalar : Type :=
  | SNone
  | SBool (b : bool)
  | SInt (z : Z)
  | SFloat (f : float)
  | SStr (s : string).

#[global] Instance scalar_eq_dec : EqDecision scalar.
Proof. solve_decision. Defined.

(** The truth value of a scalar. *)
Definition truth (x : scalar) : bool :=
  match x with
  | SNone => false
  | SBool b => b
  | SInt z => negb (z =? 0)
  | SFloat f => negb (SFeqb f f0_0)
  | SStr s => negb (String.eqb s "")
  end.

(** ['Key by Platform']: [lambda x: (x.get('platform', 'unknown'), x)] *)
Definition key_by_platform (x : gmap string scalar)
    : scalar * gmap string scalar :=
  (default (SStr "unknown") (x !! "platform"), x).

(** [beam.GroupByKey()] on the elements of one window: the values of equal
    keys are collected under the key.  Groups are listed in the order in
    which their keys first occur. *)
Fixpoint add_to_group {V : Type} (k : scalar) (v : V)
    (groups : list (scalar * list V)) : list (scalar * list V) :=
  match groups with
  | [] => [(k, [v])]
  | (k', vs) :: groups' =>
      if decide (k' = k) then (k', vs ++ [v]) :: groups'
      else (k', vs) :: add_to_group k v groups'
  end.

Definition GroupByKey {V : Type} (kvs : list (scalar * V))
    : list (scalar * list V) :=
  fold_left (fun groups kv => add_to_group (fst kv) (snd kv) groups) kvs [].

(** The dictionary literal of ['Calculate Platform Metrics']. *)
Record platform_metric : Type := {
  platform : scalar;
  count : Z;
  premium_ratio : float;
  window_start : string
}.

Definition calculate_platform_metrics
    (x : scalar * list (gmap string scalar)) (w : World)
    : result platform_metric * World :=
  let premium := filter
    (fun e => truth (default (SBool false) (e !! "is_premium_platform")) = true)
    (snd x) in
  match int_truediv (Z.of_nat (length premium)) (Z.of_nat (length (snd x))) with
  | Raise e => (Raise e, w)
  | OK ratio =>
      let '(now, w') := utcnow w in
      (OK {| platform := fst x;
             count := Z.of_nat (length (snd x));
             premium_ratio := ratio;
             window_start := isoformat now |}, w')
  end.

(** [beam.Map] of a function that reads the clock. *)
Fixpoint map_in_world {A B : Type} (f : A -> World -> B * World)
    (l : list A) (w : World) : list B * World :=
  match l with
  | [] => ([], w)
  | a :: l' =>
      let '(b, w1) := f a w in
      let '(bs, w2) := map_in_world f l' w1 in
      (b :: bs, w2)
  end.

(** [platform_metrics] on the elements of one window. *)
Definition platform_metrics (window : list (gmap string scalar)) (w : World)
    : list (result platform_metric) * World :=
  map_in_world calculate_platform_metrics
    (GroupByKey (map key_by_platform window)) w.

End Dataflow.

Import Pipeline.

(* ===================================================================== *)
(** * The feature deriver as the specification words it                   *)
(* ===================================================================== *)

Module Spec.

(** Event kind in {like, share, playlist_add}. *)
Definition interactive (kind : EventType) : bool :=
  match kind with
  | LIKE | SHARE | PLAYLIST_ADD => true
  | _ => false
  end.

(** Step 4, given the ratio of step 3 when it was computed: base 0.5;
    [+= ratio * 0.3]; [+= 0.4] for an interactive kind; [+= 0.1] if the
    play detail's repeat mode is not "off"; [-= 0.2] for a skip; clamped
    to [0.0, 1.0]. *)
Definition step4 (ratio : option float) (kind : EventType)
    (play_detail : option PlayEvent) : float :=
  let base := f0_5 in
  let s1 := match ratio with
            | Some r => fadd base (fmul r f0_3)
            | None => base
            end in
  let s2 := if interactive kind then fadd s1 f0_4 else s1 in
  let s3 := match play_detail with
            | Some pd =>
                if decide (repeat_mode pd = "off") then s2 else fadd s2 f0_1
            | None => s2
            end in
  let s4 := if decide (kind = SKIP) then fsub s3 f0_2 else s3 in
  max2 f0_0 (min2 f1_0 s4).

(** Step 3: only if both the play detail and the track duration are
    present, [ratio = min(played_duration_ms / duration_ms, 1.0)]. *)
Definition completion_ratio (event : MusicEvent) : result (option float) :=
  match play_event event, track_duration_ms (track event) with
  | Some pd, Some duration_ms =>
      r ← int_truediv (played_duration_ms pd) duration_ms;
      OK (Some (min2 r f1_0))
  | _, _ => OK None
  end.

(** The engagement score of the specification. *)
Definition engagement_score (event : MusicEvent) : result float :=
  ratio ← completion_ratio event;
  OK (step4 ratio (event_type event) (play_event event)).

(** The quotient the code feeds to step 4: not clamped, and computed only
    for a play detail and a duration that is present and not zero. *)
Definition played_fraction (event : MusicEvent) : result (option float) :=
  match play_event event, track_duration_ms (track event) with
  | Some pd, Some duration_ms =>
      if decide (duration_ms = 0) then OK None
      else r ← int_truediv (played_duration_ms pd) duration_ms; OK (Some r)
  | _, _ => OK None
  end.

(** The fixed configuration of step 5. *)
Definition premium_set : list Platform := [SPOTIFY; APPLE_MUSIC; TIDAL].
Definition ad_supported_set : list Platform :=
  [YOUTUBE_MUSIC; SOUNDCLOUD; PANDORA].

(** Step 5. *)
Definition platform_category (p : Platform) : string :=
  if decide (p ∈ premium_set) then "premium"
  else if decide (p ∈ ad_supported_set) then "ad_supported"
  else "other".

End Spec.

(* ===================================================================== *)
(** * Sample data                                                         *)
(* ===================================================================== *)

Module Sample.

(** A datetime parser that accepts [datetime] objects only. *)
Definition only_datetimes (x : pyval) : option datetime :=
  match x with
  | PDatetime d => Some d
  | _ => None
  end.

Definition at_second (s : Z) : datetime :=
  {| Py.year := 2024; Py.month := 1; Py.day := 15; hour := 10; minute := 30;
     second := s; microsecond := 0; tzoffset := None |}.

(** Two worlds that differ in the identifiers and in the times they
    give out. *)
Definition world1 : World :=
  {| uuid_source := fun n => "6f1c0000-" +:+ pretty n;
     clock := fun n => at_second (Z.of_nat n);
     uuids_drawn := 0; clock_reads := 0 |}.

Definition world2 : World :=
  {| uuid_source := fun n => "a93e0000-" +:+ pretty n;
     clock := fun n => at_second (30 + Z.of_nat n);
     uuids_drawn := 0; clock_reads := 0 |}.

Definition dict (l : list (string * pyval)) : pyval := PDict (list_to_map l).

Definition track_fields (duration_ms : Z) : gmap string pyval :=
  list_to_map
    [("id", PStr "track-001"); ("name", PStr "  Test Song ");
     ("artist_id", PStr "artist-001"); ("duration_ms", PInt duration_ms);
     ("genres", PList [PStr "pop"])].

Definition artist_fields : gmap string pyval :=
  list_to_map [("id", PStr "artist-001"); ("name", PStr "Test Artist  ")].

Definition album_fields : gmap string pyval :=
  list_to_map
    [("id", PStr "album-001"); ("name", PStr " Test Album");
     ("artist_id", PStr "artist-001")].

Definition raw_track (duration_ms : Z) : pyval :=
  PDict (track_fields duration_ms).

Definition raw_artist : pyval := PDict artist_fields.

Definition raw_user (user : string) : pyval :=
  dict [("user_id", PStr user); ("session_id", PStr "session-001")].

Definition raw_streaming (platform : string) : pyval :=
  dict [("platform", PStr platform)].

Definition raw_play (played_duration_ms : Z) : pyval :=
  dict [("played_duration_ms", PInt played_duration_ms)].

(** A raw record without [event_id] and without [processing_timestamp]. *)
Definition raw_event (kind : string) (duration_ms : Z)
    (play : option pyval) : gmap string pyval :=
  list_to_map
    ([("event_type", PStr kind); ("timestamp", PDatetime (at_second 0));
      ("track", raw_track duration_ms); ("artist", raw_artist);
      ("user_interaction", raw_user "user-001");
      ("streaming_event", raw_streaming "spotify")]
     ++ match play with
        | Some p => [("play_event", p)]
        | None => []
        end).

Definition validated (data : gmap string pyval) : option MusicEvent :=
  value_of (fst (MusicEvent_new only_datetimes data world1)).

Definition blank_event : MusicEvent :=
  {| event_id := ""; event_type := SEARCH; timestamp := at_second 0;
     track := {| track_id := ""; track_name := "-"; track_artist_id := "";
                 track_album_id := None; track_duration_ms := None;
                 track_explicit := false; track_popularity := None;
                 track_energy := None; track_valence := None;
                 track_tempo := None; track_genres := [] |};
     artist := {| artist_id := ""; artist_name := "-"; artist_genres := [];
                  artist_followers := None; artist_verified := false;
                  artist_country := None |};
     album := None;
     user_interaction := {| user_id := ""; session_id := "";
                            device_type := None; location := None;
                            subscription_type := None;
                            user_age_group := None |};
     play_event := None;
     streaming_event := {| platform := SPOTIFY; stream_quality := None;
                           bandwidth_kbps := None; buffer_events := None |};
     raw_data := None;
     processing_timestamp := at_second 0 |}.

Definition the (o : option MusicEvent) : MusicEvent := default blank_event o.


(** Scenario A: a full play of a 354 s track. *)
Definition full_play : MusicEvent :=
  Eval vm_compute in
    the (validated (raw_event "play" 354000 (Some (raw_play 354000)))).

(** A play event on a track whose duration is given as zero. *)
Definition zero_duration : MusicEvent :=
  Eval vm_compute in
    the (validated (raw_event "play" 0 (Some (raw_play 1000)))).

(** A play whose played duration, 2^1024 ms, is beyond the binary64
    range. *)
Definition beyond_range : MusicEvent :=
  Eval vm_compute in
    the (validated (raw_event "play" 1 (Some (raw_play (2 ^ 1024))))).

(** Three events without play detail. *)
Definition a_download : MusicEvent :=
  Eval vm_compute in the (validated (raw_event "download" 200000 None)).
Definition a_like : MusicEvent :=
  Eval vm_compute in the (validated (raw_event "like" 200000 None)).
Definition a_skip : MusicEvent :=
  Eval vm_compute in the (validated (raw_event "skip" 200000 None)).

(** A like with a play detail attached. *)
Definition liked_while_playing : MusicEvent :=
  Eval vm_compute in
    the (validated (raw_event "like" 200000 (Some (raw_play 1000)))).

(** A raw record that supplies its identifier and both timestamps. *)
Definition complete_record : gmap string pyval :=
  <["event_id" := PStr "evt-0001"]>
    (<["processing_timestamp" := PDatetime (at_second 7)]>
       (raw_event "like" 200000 None)).

(** Stand-ins for the two library decoders, defined on what the sample
    messages need: ASCII bytes decode to themselves, and three JSON texts
    are recognised. *)
Definition decode_ascii (message : list Byte.byte) : option string :=
  if forallb (fun b => Nat.ltb (Byte.to_nat b) 128) message
  then Some (string_of_list_byte message) else None.

Definition loads_sample (text : string) : option pyval :=
  if String.eqb text "{}" then Some (PDict ∅)
  else if String.eqb text "[]" then Some (PList [])
  else if String.eqb text "42" then Some (PInt 42)
  else None.

(** The message [b"{}"]: a JSON object without any of the required keys. *)
Definition empty_object : list Byte.byte := list_byte_of_string "{}".

(** What validation reports on the empty object. *)
Definition missing_fields : list error :=
  [([Key "event_type"], "field required");
   ([Key "track"], "field required");
   ([Key "artist"], "field required");
   ([Key "user_interaction"], "field required");
   ([Key "streaming_event"], "field required")].

(** [world1] after one [uuid4()] and two [utcnow()]. *)
Definition world1_after : World :=
  {| uuid_source := uuid_source world1; clock := clock world1;
     uuids_drawn := 1; clock_reads := 2 |}.

Definition fresh_parse_state : ParseState :=
  {| events_parsed_success := 0; events_parsed_error := 0; log := [] |}.

(** An analytics element of the Dataflow pipeline. *)
Definition element (platform : string) : gmap string Dataflow.scalar :=
  list_to_map
    [("event_id", Dataflow.SStr "evt-0001");
     ("event_type", Dataflow.SStr "play");
     ("platform", Dataflow.SStr platform);
     ("is_premium_platform",
      Dataflow.SBool (str_in platform ["spotify"; "apple_music"]))].

Definition fresh_enrich_state : EnrichState :=
  {| events_enriched := 0; failed_to_enrich := [] |}.

(** A row as [AggregateEventMetrics] reads it: an event of the given kind
    on the sample track, with the given engagement score. *)
Definition a_row (kind : string) (score : float) : Row.t :=
  {| Row.event_id := "6f1c0000-0";
     Row.event_type := kind;
     Row.timestamp := "2024-01-15T10:30:00";
     Row.processing_timestamp := "2024-01-15T10:30:00";
     Row.track_id := "track-001";
     Row.track_name := "Test Song";
     Row.track_duration_ms := Some 200000;
     Row.track_explicit := false;
     Row.track_popularity := None;
     Row.track_energy := None;
     Row.track_valence := None;
     Row.track_tempo := None;
     Row.track_genres := ["pop"];
     Row.artist_id := "artist-001";
     Row.artist_name := "Test Artist";
     Row.artist_followers := None;
     Row.artist_verified := false;
     Row.artist_country := None;
     Row.artist_genres := [];
     Row.album_id := None;
     Row.album_name := None;
     Row.album_release_date := None;
     Row.user_id := "user-001";
     Row.session_id := "session-001";
     Row.device_type := None;
     Row.user_location := None;
     Row.subscription_type := None;
     Row.user_age_group := None;
     Row.platform := "spotify";
     Row.stream_quality := None;
     Row.bandwidth_kbps := None;
     Row.buffer_events := None;
     Row.played_duration_ms := None;
     Row.skip_reason := None;
     Row.playlist_id := None;
     Row.shuffle_mode := None;
     Row.repeat_mode := None;
     Row.enriched :=
       {| hour_of_day := Some 10;
          day_of_week := Some 0;
          is_weekend := Some false;
          month := Some 1;
          year := Some 2024;
          track_duration_seconds := Some (literal 200 1);
          is_long_track := Some false;
          is_short_track := Some false;
          play_completion_ratio := None;
          is_full_play := None;
          is_skip := None;
          engagement_score := Some score;
          platform_category := Some "premium" |} |}.

(** One window in two arrival orders: the scores are 0.5, 0.9, 0.3 in the
    first and 0.5, 0.3, 0.9 in the second. *)
Definition window_download_like_skip : list Row.t :=
  Eval vm_compute in
    [a_row "download" f0_5; a_row "like" (literal 9 10); a_row "skip" f0_3].
Definition window_download_skip_like : list Row.t :=
  Eval vm_compute in
    [a_row "download" f0_5; a_row "skip" f0_3; a_row "like" (literal 9 10)].

(** Another world whose clock shows the same time as [world1]'s. *)
Definition world1_again : World :=
  {| uuid_source := uuid_source world2; clock := clock world1;
     uuids_drawn := 5; clock_reads := 0 |}.

End Sample.

(* ===================================================================== *)
(** * Notions used in the statements                                      *)
(* ===================================================================== *)

Definition first_char (s : string) : option ascii :=
  match s with
  | String c _ => Some c
  | EmptyString => None
  end.

Fixpoint last_char (s : string) : option ascii :=
  match s with
  | EmptyString => None
  | String c EmptyString => Some c
  | String _ r => last_char r
  end.

(** Neither the first nor the last character is whitespace. *)
Definition trimmed (s : string) : Prop :=
  (forall c, first_char s = Some c -> isspace c = false)
  /\ (forall c, last_char s = Some c -> isspace c = false).

(** The record [data] with its play detail removed and its kind set. *)
Definition without_play_detail (kind : EventType)
    (data : gmap string pyval) : gmap string pyval :=
  <["event_type" := PStr (EventType_value kind)]> (delete "play_event" data).

(** [datetime.min] *)
Definition datetime_min : datetime :=
  {| Py.year := 1; Py.month := 1; Py.day := 1; hour := 0; minute := 0;
     second := 0; microsecond := 0; tzoffset := None |}.

(** The event with the fields that validation generated blanked out:
    those whose key is missing from [data]. *)
Definition forget_generated (data : gmap string pyval) (e : MusicEvent)
    : MusicEvent :=
  {| event_id := if data !! "event_id" is Some _ then event_id e else "";
     event_type := event_type e;
     timestamp := if data !! "timestamp" is Some _ then timestamp e
                  else datetime_min;
     track := track e; artist := artist e; album := album e;
     user_interaction := user_interaction e; play_event := play_event e;
     streaming_event := streaming_event e; raw_data := raw_data e;
     processing_timestamp :=
       if data !! "processing_timestamp" is Some _
       then processing_timestamp e else datetime_min |}.

(** The aggregate with its [aggregation_timestamp] blanked out. *)
Definition without_stamp (a : Aggregate) : Aggregate :=
  {| window_start := window_start a; window_end := window_end a;
     total_events := total_events a; unique_users := unique_users a;
     unique_tracks := unique_tracks a;
     platform_distribution := platform_distribution a;
     event_type_distribution := event_type_distribution a;
     average_engagement_score := average_engagement_score a;
     aggregation_timestamp := "" |}.

(** The aggregate with its [average_engagement_score] blanked out. *)
Definition without_average (a : Aggregate) : Aggregate :=
  {| window_start := window_start a; window_end := window_end a;
     total_events := total_events a; unique_users := unique_users a;
     unique_tracks := unique_tracks a;
     platform_distribution := platform_distribution a;
     event_type_distribution := event_type_distribution a;
     average_engagement_score := f0_0;
     aggregation_timestamp := aggregation_timestamp a |}.

(** The engagement scores that the average is taken over. *)
Definition scores_of (events : list Row.t) : list float :=
  omap (fun event => engagement_score (Row.enriched event)) events.

(* ===================================================================== *)
(** * src/models/music_events.py: the enriched event                      *)
(* ===================================================================== *)

Module Enriched.

(** [EnrichedMusicEvent(MusicEvent)]: the fields of [MusicEvent], under
    [base], followed by the fields the subclass adds. *)
Record EnrichedMusicEvent : Type := {
  base : MusicEvent;
  enhanced_description : option string;
  mood_analysis : option string;
  genre_prediction : option (list Genre);
  similar_tracks : option (list string);
  listening_context : option string;
  enrichment_timestamp : datetime;
  enrichment_model : string;
  enrichment_confidence : option float
}.

(** [@validator('enhanced_description')] *)
Definition validate_description_length (v : string) : outcome string :=
  if negb (String.eqb v "") && (1000 <? len v)
  then fail "Enhanced description must be under 1000 characters"
  else Valid v.

Section Datetimes.

Variable parse_datetime : pyval -> option datetime.

(** The constructor [EnrichedMusicEvent], called on the unpacked
    dictionary: the inherited fields are validated first, then the added
    ones, then the inherited root validator. *)
Definition EnrichedMusicEvent_new (data : gmap string pyval) (w : World)
    : outcome EnrichedMusicEvent * World :=
  let '(event_id, w) := produced data "event_id" uuid4 str_validator w in
  let event_type := required data "event_type"
    (enum_validator EventType_value EventType_members) in
  let '(timestamp, w) :=
    produced data "timestamp" utcnow (datetime_validator parse_datetime) w in
  let track := required data "track" (model_validator Track_new) in
  let artist := required data "artist" (model_validator Artist_new) in
  let album := optional data "album"
    (model_validator (Album_new parse_datetime)) in
  let user_interaction := required data "user_interaction"
    (model_validator UserInteraction_new) in
  let play_event := optional data "play_event"
    (model_validator PlayEvent_new) in
  let streaming_event := required data "streaming_event"
    (model_validator StreamingEvent_new) in
  let raw_data := optional data "raw_data" dict_validator in
  let '(processing_timestamp, w) :=
    produced data "processing_timestamp" utcnow
      (datetime_validator parse_datetime) w in
  let enhanced_description := optional data "enhanced_description" (fun x =>
    str_validator x >>> validate_description_length) in
  let mood_analysis := optional data "mood_analysis" str_validator in
  let genre_prediction := optional data "genre_prediction" genres_validator in
  let similar_tracks := optional data "similar_tracks"
    (list_validator str_validator) in
  let listening_context := optional data "listening_context" str_validator in
  let '(enrichment_timestamp, w) :=
    produced data "enrichment_timestamp" utcnow
      (datetime_validator parse_datetime) w in
  let enrichment_model :=
    defaulted data "enrichment_model" "claude-3" str_validator in
  let enrichment_confidence :=
    optional data "enrichment_confidence" unit_interval in
  let root := validate_event_consistency (value_of event_type)
    (mjoin (value_of play_event)) (value_of track) (value_of artist) in
  (match event_id, event_type, timestamp, track, artist, album,
         user_interaction, play_event, streaming_event, raw_data,
         processing_timestamp, enhanced_description, mood_analysis,
         genre_prediction, similar_tracks, listening_context,
         enrichment_timestamp, enrichment_model, enrichment_confidence,
         root with
   | Valid event_id, Valid event_type, Valid timestamp, Valid track,
     Valid artist, Valid album, Valid user_interaction, Valid play_event,
     Valid streaming_event, Valid raw_data, Valid processing_timestamp,
     Valid enhanced_description, Valid mood_analysis,
     Valid genre_prediction, Valid similar_tracks, Valid listening_context,
     Valid enrichment_timestamp, Valid enrichment_model,
     Valid enrichment_confidence, None =>
       Valid {| base :=
                  {| event_id := event_id; event_type := event_type;
                     timestamp := timestamp; track := track;
                     artist := artist; album := album;
                     user_interaction := user_interaction;
                     play_event := play_event;
                     streaming_event := streaming_event;
                     raw_data := raw_data;
                     processing_timestamp := processing_timestamp |};
                enhanced_description := enhanced_description;
                mood_analysis := mood_analysis;
                genre_prediction := genre_prediction;
                similar_tracks := similar_tracks;
                listening_context := listening_context;
                enrichment_timestamp := enrichment_timestamp;
                enrichment_model := enrichment_model;
                enrichment_confidence := enrichment_confidence |}
   | _, _, _, _, _, _, _, _, _, _, _, _, _, _, _, _, _, _, _, _ =>
       Invalid (errors_of event_id ++ errors_of event_type
                ++ errors_of timestamp ++ errors_of track
                ++ errors_of artist ++ errors_of album
                ++ errors_of user_interaction ++ errors_of play_event
                ++ errors_of streaming_event ++ errors_of raw_data
                ++ errors_of processing_timestamp
                ++ errors_of enhanced_description ++ errors_of mood_analysis
                ++ errors_of genre_prediction ++ errors_of similar_tracks
                ++ errors_of listening_context
                ++ errors_of enrichment_timestamp
                ++ errors_of enrichment_model
                ++ errors_of enrichment_confidence ++ root_errors root)
   end, w).

End Datetimes.

End Enriched.

(* ===================================================================== *)
(** * src/pipeline/music_pipeline_simple.py                               *)
(* ===================================================================== *)

Module Simple.

(** [SimpleMusicProcessor]: its two counters, and what it logged as
    failed. *)
Inductive failure : Type :=
  | NotValid (errors : list error)              (* ValidationError *)
  | Raised (e : exn).                           (* any other Exception *)

Record State : Type := {
  processed_count : nat;
  error_count : nat;
  failures : list failure
}.

(** [x.value if hasattr(x, 'value') else str(x)]: a member has the
    attribute, a [str] has not and is its own [str(x)]. *)
Definition value_or_str {E : Type} (value : E -> string) (x : enum_field E)
    : string :=
  match x with
  | Member m => value m
  | Plain s => s
  end.

Definition _calculate_engagement_score (event : MusicEvent) : result float :=
  let score := f0_5 in
  score ←
    match play_event event, truthy (track_duration_ms (track event)) with
    | Some pe, Some duration_ms =>
        play_ratio ← int_truediv (played_duration_ms pe) duration_ms;
        OK (fadd score (fmul play_ratio f0_3))
    | _, _ => OK score
    end;
  let event_type_str :=
    value_or_str EventType_value (event_type_attr event) in
  let score :=
    if str_in event_type_str ["like"; "share"; "playlist_add"]
    then fadd score f0_4 else score in
  let score :=
    match play_event event with
    | Some pe =>
        if negb (String.eqb (repeat_mode pe) "off") then fadd score f0_1
        else score
    | None => score
    end in
  let score :=
    if String.eqb event_type_str "skip" then fsub score f0_2 else score in
  OK (max2 f0_0 (min2 f1_0 score)).

Definition _categorize_platform (platform : string) : string :=
  let premium_platforms := ["spotify"; "apple_music"; "tidal"] in
  let ad_supported := ["youtube_music"; "soundcloud"; "pandora"] in
  if str_in platform premium_platforms then "premium"
  else if str_in platform ad_supported then "ad_supported"
  else "other".

Definition _calculate_derived_fields (event : MusicEvent)
    : result derived_fields :=
  let derived := no_fields in
  let derived := update_time (timestamp event) derived in
  derived ←
    match truthy (track_duration_ms (track event)) with
    | Some duration_ms =>
        duration_seconds ← int_truediv duration_ms 1000;
        OK (update_duration duration_seconds derived)
    | None => OK derived
    end;
  derived ←
    match play_event event, truthy (track_duration_ms (track event)) with
    | Some pe, Some duration_ms =>
        play_ratio ← int_truediv (played_duration_ms pe) duration_ms;
        OK (update_completion play_ratio derived)
    | _, _ => OK derived
    end;
  engagement ← _calculate_engagement_score event;
  let derived := set_engagement_score engagement derived in
  let platform :=
    value_or_str Platform_value (platform_attr (streaming_event event)) in
  OK (set_platform_category (_categorize_platform platform) derived).

Definition _convert_to_bigquery_row (event : MusicEvent)
    (enriched_data : derived_fields) : Row.t :=
  {| Row.event_id := event_id event;
     Row.event_type := value_or_str EventType_value (event_type_attr event);
     Row.timestamp := isoformat (timestamp event);
     Row.processing_timestamp := isoformat (processing_timestamp event);
     Row.track_id := track_id (track event);
     Row.track_name := track_name (track event);
     Row.track_duration_ms := track_duration_ms (track event);
     Row.track_explicit := track_explicit (track event);
     Row.track_popularity := track_popularity (track event);
     Row.track_energy := track_energy (track event);
     Row.track_valence := track_valence (track event);
     Row.track_tempo := track_tempo (track event);
     Row.track_genres := map Genre_value (track_genres (track event));
     Row.artist_id := artist_id (artist event);
     Row.artist_name := artist_name (artist event);
     Row.artist_followers := artist_followers (artist event);
     Row.artist_verified := artist_verified (artist event);
     Row.artist_country := artist_country (artist event);
     Row.artist_genres := map Genre_value (artist_genres (artist event));
     Row.album_id := album_id <$> album event;
     Row.album_name := album_name <$> album event;
     Row.album_release_date :=
       a ← album event; isoformat <$> album_release_date a;
     Row.user_id := user_id (user_interaction event);
     Row.session_id := session_id (user_interaction event);
     Row.device_type := device_type (user_interaction event);
     Row.user_location := location (user_interaction event);
     Row.subscription_type := subscription_type (user_interaction event);
     Row.user_age_group := user_age_group (user_interaction event);
     Row.platform :=
       value_or_str Platform_value (platform_attr (streaming_event event));
     Row.stream_quality := stream_quality (streaming_event event);
     Row.bandwidth_kbps := bandwidth_kbps (streaming_event event);
     Row.buffer_events := buffer_events (streaming_event event);
     Row.played_duration_ms := played_duration_ms <$> play_event event;
     Row.skip_reason := pe ← play_event event; skip_reason pe;
     Row.playlist_id := pe ← play_event event; playlist_id pe;
     Row.shuffle_mode := shuffle_mode <$> play_event event;
     Row.repeat_mode := repeat_mode <$> play_event event;
     Row.enriched := enriched_data |}.

Definition count_error (f : failure) (st : State) : State :=
  {| processed_count := processed_count st;
     error_count := S (error_count st);
     failures := failures st ++ [f] |}.

Section Datetimes.

Variable parse_datetime : pyval -> option datetime.

(** [process_event]: the row, or [None] after any exception. *)
Definition process_event (event_data : gmap string pyval) (st : State)
    (w : World) : option Row.t * State * World :=
  match MusicEvent_new parse_datetime event_data w with
  | (Invalid errors, w') => (None, count_error (NotValid errors) st, w')
  | (Valid music_event, w') =>
      match _calculate_derived_fields music_event with
      | Raise e => (None, count_error (Raised e) st, w')
      | OK enriched_data =>
          let bq_row := _convert_to_bigquery_row music_event enriched_data in
          (Some bq_row,
           {| processed_count := S (processed_count st);
              error_count := error_count st;
              failures := failures st |}, w')
      end
  end.

(** [process_events_batch]: the loop over [events_data]. *)
Fixpoint process_events_batch (events_data : list (gmap string pyval))
    (st : State) (w : World) : list Row.t * State * World :=
  match events_data with
  | [] => ([], st, w)
  | event_data :: rest =>
      let '(processed_event, st1, w1) := process_event event_data st w in
      let '(processed_events, st2, w2) := process_events_batch rest st1 w1 in
      (match processed_event with
       | Some row => row :: processed_events
       | None => processed_events
       end, st2, w2)
  end.

End Datetimes.

(** The dictionary of [get_stats]; [success_rate] is a quotient, or the
    integer [0] before any event was counted. *)
Record Stats : Type := {
  stats_processed_count : Z;
  stats_error_count : Z;
  success_rate : pyval
}.

Definition get_stats (st : State) : result Stats :=
  let processed := Z.of_nat (processed_count st) in
  let errors := Z.of_nat (error_count st) in
  rate ←
    (if 0 <? processed + errors
     then q ← int_truediv processed (processed + errors); OK (PFloat q)
     else OK (PInt 0));
  OK {| stats_processed_count := processed;
        stats_error_count := errors;
        success_rate := rate |}.

End Simple.

(* ===================================================================== *)
(** * src/pipeline/dataflow_pipeline.py: the per-element transforms       *)
(* ===================================================================== *)

Module Analytics.

(** The exceptions that escape a transform. *)
Inductive exn : Type :=
  | AttributeError
  | TypeError.

Inductive result (A : Type) : Type :=
  | OK (a : A)
  | Raise (e : exn).
Arguments OK {A} a.
Arguments Raise {A} e.

(** An analytics element is a [gmap string pyval]: its values are those
    of the decoded message. *)

(** [c.lower()] for a code point below 256. *)
Definition lower_char (c : ascii) : ascii :=
  let n := nat_of_ascii c in
  if (Nat.leb 65 n && Nat.leb n 90)
     || (Nat.leb 192 n && Nat.leb n 222 && negb (Nat.eqb n 215))
  then ascii_of_nat (n + 32) else c.

(** [s.lower()] *)
Fixpoint lower (s : string) : string :=
  match s with
  | EmptyString => EmptyString
  | String c s' => String (lower_char c) (lower s')
  end.

(** [needle in s] on strings. *)
Fixpoint contains (needle s : string) : bool :=
  String.prefix needle s
  || match s with
     | EmptyString => false
     | String _ s' => contains needle s'
     end.

(** [s.replace('Z', '+00:00')] *)
Fixpoint replace_Z (s : string) : string :=
  match s with
  | EmptyString => EmptyString
  | String c s' =>
      if Ascii.eqb c "Z" then "+00:00" +:+ replace_Z s'
      else String c (replace_Z s')
  end.

(** [d.get(k)] and [d.get(k, default)] *)
Definition get (d : gmap string pyval) (k : string) : pyval := default PNone (d !! k).
Definition get_or (d : gmap string pyval) (k : string) (dflt : pyval) : pyval :=
  default dflt (d !! k).

(** [x.lower()]: only a [str] has the method. *)
Definition lower_of (x : pyval) : result string :=
  match x with
  | PStr s => OK (lower s)
  | _ => Raise AttributeError
  end.

(** [table.get(key, dflt)] on a dictionary with string keys: a list or a
    dictionary cannot be hashed, any other value that is not one of the
    keys gives the default. *)
Definition table_get {A : Type} (table : list (string * A)) (key : pyval)
    (dflt : A) : result A :=
  match key with
  | PStr s =>
      OK (default dflt (snd <$> find (fun kv => String.eqb (fst kv) s) table))
  | PList _ | PDict _ => Raise TypeError
  | _ => OK dflt
  end.

Definition f1_1 : float := Eval vm_compute in literal 11 10.
Definition f1_2 : float := Eval vm_compute in literal 12 10.
Definition f1_3 : float := Eval vm_compute in literal 13 10.
Definition f1_4 : float := Eval vm_compute in literal 14 10.
Definition f1_5 : float := Eval vm_compute in literal 15 10.
Definition f2_0 : float := Eval vm_compute in literal 2 1.
Definition f3_0 : float := Eval vm_compute in literal 3 1.
Definition f0_6 : float := Eval vm_compute in literal 6 10.
Definition f0_7 : float := Eval vm_compute in literal 7 10.
Definition f0_9 : float := Eval vm_compute in literal 9 10.

(** ** MusicEventProcessor *)

(** [event.get(k)]: only a dictionary has the method. *)
Definition event_get (event : pyval) (k : string) : result pyval :=
  match event with
  | PDict m => OK (get m k)
  | _ => Raise AttributeError
  end.

(** [event.get(section, {}).get(k)] *)
Definition event_get2 (event : pyval) (section k : string) : result pyval :=
  match event with
  | PDict m => event_get (get_or m section (PDict ∅)) k
  | _ => Raise AttributeError
  end.

Definition bind {A B : Type} (r : result A) (k : A -> result B) : result B :=
  match r with
  | OK a => k a
  | Raise e => Raise e
  end.

(** The dictionary literal [analytics], its values computed in the order
    of the source; the clock is read last. *)
Definition extract_analytics (event : pyval) (w : World)
    : result (gmap string pyval) * World :=
  match
    bind (event_get event "event_id") (fun event_id =>
    bind (event_get event "event_type") (fun event_type =>
    bind (event_get2 event "track" "title") (fun track_title =>
    bind (event_get2 event "artist" "name") (fun artist_name =>
    bind (event_get2 event "track" "genre") (fun genre =>
    bind (event_get2 event "streaming_event" "platform") (fun platform =>
    bind (event_get2 event "user_interaction" "location") (fun user_location =>
    bind (event_get event "timestamp") (fun timestamp =>
    OK [("event_id", event_id); ("event_type", event_type);
        ("track_title", track_title); ("artist_name", artist_name);
        ("genre", genre); ("platform", platform);
        ("user_location", user_location); ("timestamp", timestamp)]))))))))
  with
  | Raise e => (Raise e, w)
  | OK fields =>
      let '(now, w') := utcnow w in
      (OK (list_to_map
             (fields ++ [("processing_time", PStr (isoformat now))])), w')
  end.

Section MusicEventProcessor.

(** [bytes.decode('utf-8')] and [json.loads] are library code. *)
Variable decode_utf8 : list Byte.byte -> option string.
Variable json_loads : string -> option pyval.

(** [MusicEventProcessor.process] on a Pub/Sub message (of type [bytes]):
    it yields one item, the analytics element or, after any exception,
    [None]. *)
Definition MusicEventProcessor_process (message : list Byte.byte) (w : World)
    : list (option (gmap string pyval)) * World :=
  match decode_utf8 message with
  | None => ([None], w)
  | Some data =>
      match json_loads data with
      | None => ([None], w)
      | Some event =>
          match extract_analytics event w with
          | (OK analytics, w') => ([Some analytics], w')
          | (Raise _, w') => ([None], w')
          end
      end
  end.

End MusicEventProcessor.

(** ** EngagementCalculator *)

Definition engagement_scores : list (string * float) :=
  [("play", f1_0); ("like", f2_0); ("share", f3_0); ("pause", f0_5);
   ("skip", f0_1)].

Definition engagement_level (base_score : float) : string :=
  if flt f1_5 base_score then "high"
  else if flt f0_8 base_score then "medium"
  else "low".

(** [EngagementCalculator.process]: the elements it yields. *)
Definition EngagementCalculator_process (element : option (gmap string pyval))
    : result (list (gmap string pyval)) :=
  match element with
  | None => OK []
  | Some element =>
      let event_type := get_or element "event_type" (PStr "play") in
      bind (table_get engagement_scores event_type f1_0) (fun base_score =>
      bind (lower_of (get_or element "user_location" (PStr ""))) (fun location =>
      let base_score :=
        if contains "new york" location || contains "los angeles" location
        then fmul base_score f1_2
        else if contains "london" location || contains "miami" location
        then fmul base_score f1_1
        else base_score in
      let element := <["engagement_score" := PFloat base_score]> element in
      let element :=
        <["engagement_level" := PStr (engagement_level base_score)]> element in
      OK [element]))
  end.

(** ** GenreAnalytics *)

Definition genre_popularity : list (string * float) :=
  [("rock", f0_9); ("pop", f0_8); ("hip_hop", f0_7); ("electronic", f0_6);
   ("jazz", f0_5); ("classical", f0_4)].

Definition GenreAnalytics_process (element : option (gmap string pyval))
    : result (list (gmap string pyval)) :=
  match element with
  | None => OK []
  | Some element =>
      bind (lower_of (get_or element "genre" (PStr ""))) (fun genre =>
      bind (table_get genre_popularity (PStr genre) f0_5) (fun popularity =>
      let element := <["genre_popularity" := PFloat popularity]> element in
      let element :=
        <["is_popular_genre" := PBool (flt f0_7 popularity)]> element in
      OK [element]))
  end.

(** ** PlatformAnalytics *)

Definition platform_quality : list (string * string) :=
  [("spotify", "high"); ("apple_music", "high"); ("youtube_music", "medium");
   ("soundcloud", "medium")].

Definition PlatformAnalytics_process (element : option (gmap string pyval))
    : result (list (gmap string pyval)) :=
  match element with
  | None => OK []
  | Some element =>
      bind (lower_of (get_or element "platform" (PStr ""))) (fun platform =>
      bind (table_get platform_quality (PStr platform) "unknown") (fun quality =>
      let element := <["platform_quality" := PStr quality]> element in
      let element :=
        <["is_premium_platform" :=
            PBool (str_in platform ["spotify"; "apple_music"])]> element in
      OK [element]))
  end.

(** ** TimeWindowAnalytics *)

(** What the [try] block of [TimeWindowAnalytics.process] can raise; the
    [except Exception] clause catches all of it. *)
Inductive caught : Type :=
  | NoReplace                          (* AttributeError: not a str *)
  | BadTimestamp                       (* ValueError of fromisoformat *)
  | BadOperand                         (* TypeError of the product *)
  | TooLarge.                          (* OverflowError of the product *)

(** [x * m] for a float [m]. *)
Definition times (x : pyval) (m : float) : caught + float :=
  match x with
  | PFloat f => inr (fmul f m)
  | PInt z =>
      match float_of_int z with
      | Py.OK f => inr (fmul f m)
      | Py.Raise _ => inl TooLarge
      end
  | PBool b => inr (fmul (if b then f1_0 else f0_0) m)
  | _ => inl BadOperand
  end.

Definition time_context_of (hour : Z) : string * float :=
  if (6 <=? hour) && (hour <=? 9) then ("morning_commute", f1_3)
  else if (12 <=? hour) && (hour <=? 14) then ("lunch_break", f1_1)
  else if (17 <=? hour) && (hour <=? 19) then ("evening_commute", f1_4)
  else if (20 <=? hour) && (hour <=? 23) then ("evening_relaxation", f1_2)
  else ("other", f1_0).

Section TimeWindowAnalytics.

(** [datetime.fromisoformat] is library code. *)
Variable fromisoformat : string -> option datetime.

(** The [try] block: the three values it stores in the element. *)
Definition time_analytics (element : gmap string pyval)
    : caught + (string * float * float) :=
  match get_or element "timestamp" (PStr "") with
  | PStr text =>
      match fromisoformat (replace_Z text) with
      | None => inl BadTimestamp
      | Some timestamp =>
          let '(time_context, time_multiplier) :=
            time_context_of (hour timestamp) in
          match times (get_or element "engagement_score" (PFloat f1_0))
                      time_multiplier with
          | inl e => inl e
          | inr adjusted => inr (time_context, time_multiplier, adjusted)
          end
      end
  | _ => inl NoReplace
  end.

Definition TimeWindowAnalytics_process (element : option (gmap string pyval))
    : list (gmap string pyval) :=
  match element with
  | None => []
  | Some element =>
      match time_analytics element with
      | inr (time_context, time_multiplier, adjusted) =>
          [<["adjusted_engagement" := PFloat adjusted]>
             (<["time_multiplier" := PFloat time_multiplier]>
                (<["time_context" := PStr time_context]> element))]
      | inl _ =>
          [<["adjusted_engagement" :=
               get_or element "engagement_score" (PFloat f1_0)]>
             (<["time_multiplier" := PFloat f1_0]>
                (<["time_context" := PStr "unknown"]> element))]
      end
  end.

End TimeWindowAnalytics.

(** ** The chain of transforms *)

(** [beam.ParDo(fn)] on the items that the previous step yielded for one
    message: every item is processed in turn, and an exception that
    escapes [fn.process] ends the processing. *)
Fixpoint ParDo (process : option (gmap string pyval)
                          -> result (list (gmap string pyval)))
    (items : list (option (gmap string pyval)))
    : result (list (option (gmap string pyval))) :=
  match items with
  | [] => OK []
  | item :: items' =>
      bind (process item) (fun yielded =>
      bind (ParDo process items') (fun rest =>
      OK (map Some yielded ++ rest)))
  end.

Section ProcessedEvents.

Variable decode_utf8 : list Byte.byte -> option string.
Variable json_loads : string -> option pyval.
Variable fromisoformat : string -> option datetime.

(** [processed_events] of [run_pipeline], on one Pub/Sub message. *)
Definition processed_events (message : list Byte.byte) (w : World)
    : result (list (gmap string pyval)) * World :=
  let '(items, w') :=
    MusicEventProcessor_process decode_utf8 json_loads message w in
  (bind (ParDo EngagementCalculator_process items) (fun items =>
   bind (ParDo GenreAnalytics_process items) (fun items =>
   bind (ParDo PlatformAnalytics_process items) (fun items =>
   OK (flat_map (TimeWindowAnalytics_process fromisoformat) items)))), w').

End ProcessedEvents.

End Analytics.

(* ===================================================================== *)
(** * src/functions/claude_enrichment.py: the confidence of an enrichment *)
(* ===================================================================== *)

Module Enrichment.

Definition f0_15 : float := Eval vm_compute in literal 15 100.

(** The truth value of an [Optional[float]] and of an [Optional[str]]. *)
Definition truthy_float (o : option float) : bool :=
  match o with
  | Some f => negb (SFeqb f f0_0)
  | None => false
  end.

Definition truthy_str (o : option string) : bool :=
  match o with
  | Some s => negb (String.eqb s "")
  | None => false
  end.

(** The list [confidence_factors] as the appends leave it. *)
Definition confidence_factors (music_event : MusicEvent) : list float :=
  let track := track music_event in
  let user := user_interaction music_event in
  (if negb (bool_decide (track_genres track = [])) then [f0_2] else [])
  ++ (if bool_decide (is_Some (track_energy track)) then [f0_15] else [])
  ++ (if bool_decide (is_Some (track_valence track)) then [f0_15] else [])
  ++ (if truthy_float (track_tempo track) then [f0_1] else [])
  ++ (if bool_decide (is_Some (track_popularity track)) then [f0_1] else [])
  ++ (if truthy_str (device_type user) then [f0_1] else [])
  ++ (if truthy_str (location user) then [f0_1] else [])
  ++ (if bool_decide (is_Some (play_event music_event)) then [f0_1] else []).

(** [min(sum(confidence_factors), 1.0)], on the interpreter [v] that runs
    the function; the sum of the empty list is the integer [0], here
    [0.0]. *)
Definition calculate_enrichment_confidence (v : interpreter)
    (music_event : MusicEvent) : float :=
  min2 (sum_on v (confidence_factors music_event)) f1_0.

End Enrichment.

(* ===================================================================== *)
(** * More sample data                                                    *)
(* ===================================================================== *)

Module Fixtures.

(** The sample event of [test_pipeline], entity by entity. *)
Definition track_fields : gmap string pyval :=
  list_to_map
    [("id", PStr "track-001"); ("name", PStr "Test Song");
     ("artist_id", PStr "artist-001"); ("duration_ms", PInt 210000);
     ("popularity", PInt 75); ("energy", PFloat f0_8);
     ("valence", PFloat Analytics.f0_6); ("tempo", PFloat f120);
     ("genres", PList [PStr "pop"]); ("explicit", PBool false)].

Definition artist_fields : gmap string pyval :=
  list_to_map
    [("id", PStr "artist-001"); ("name", PStr "Test Artist");
     ("genres", PList [PStr "pop"]); ("verified", PBool true);
     ("followers", PInt 100000); ("country", PStr "US")].

Definition album_fields : gmap string pyval :=
  list_to_map
    [("id", PStr "album-001"); ("name", PStr "Test Album");
     ("artist_id", PStr "artist-001"); ("track_count", PInt 12)].

Definition user_fields : gmap string pyval :=
  list_to_map
    [("user_id", PStr "user-001"); ("session_id", PStr "session-001");
     ("device_type", PStr "mobile"); ("location", PStr "US");
     ("subscription_type", PStr "premium");
     ("user_age_group", PStr "25-34")].

Definition streaming_fields : gmap string pyval :=
  list_to_map
    [("platform", PStr "spotify"); ("stream_quality", PStr "high");
     ("bandwidth_kbps", PInt 320); ("buffer_events", PInt 0)].

Definition play_fields : gmap string pyval :=
  list_to_map
    [("played_duration_ms", PInt 180000); ("shuffle_mode", PBool false);
     ("repeat_mode", PStr "off")].

(** A play detail that gives the played duration only. *)
Definition bare_play_fields : gmap string pyval :=
  list_to_map [("played_duration_ms", PInt 180000)].

(** A track that gives the three required keys only. *)
Definition bare_track_fields : gmap string pyval :=
  list_to_map
    [("id", PStr "track-001"); ("name", PStr "Test Song");
     ("artist_id", PStr "artist-001")].

Definition sample_event : gmap string pyval :=
  list_to_map
    [("event_type", PStr "play"); ("track", PDict track_fields);
     ("artist", PDict artist_fields);
     ("user_interaction", PDict user_fields);
     ("streaming_event", PDict streaming_fields);
     ("play_event", PDict play_fields)].

(** The same event with enrichments. *)
Definition enriched_event : gmap string pyval :=
  <["enhanced_description" :=
      PStr "Energetic pop track with high engagement"]>
    (<["mood_analysis" := PStr "upbeat"]>
       (<["enrichment_confidence" := PFloat f0_8]> sample_event)).

(** A record whose track names another artist. *)
Definition other_artist_fields : gmap string pyval :=
  <["id" := PStr "artist-002"]> artist_fields.

Definition mismatched_event : gmap string pyval :=
  <["artist" := PDict other_artist_fields]> sample_event.

Definition the_track : Track :=
  Eval vm_compute in
    default (track Sample.blank_event) (value_of (Track_new track_fields)).

Definition the_bare_track : Track :=
  Eval vm_compute in
    default (track Sample.blank_event)
            (value_of (Track_new bare_track_fields)).

Definition the_artist : Artist :=
  Eval vm_compute in
    default (artist Sample.blank_event) (value_of (Artist_new artist_fields)).

Definition the_other_artist : Artist :=
  Eval vm_compute in
    default (artist Sample.blank_event)
            (value_of (Artist_new other_artist_fields)).

Definition the_album : Album :=
  Eval vm_compute in
    default {| album_id := ""; album_name := ""; album_artist_id := "";
               album_release_date := None; album_track_count := None;
               album_genres := [] |}
            (value_of (Album_new Sample.only_datetimes album_fields)).

Definition the_user : UserInteraction :=
  Eval vm_compute in
    default (user_interaction Sample.blank_event)
            (value_of (UserInteraction_new user_fields)).

Definition the_streaming : StreamingEvent :=
  Eval vm_compute in
    default (streaming_event Sample.blank_event)
            (value_of (StreamingEvent_new streaming_fields)).

Definition blank_play : PlayEvent :=
  {| played_duration_ms := 0; skip_reason := None; playlist_id := None;
     shuffle_mode := false; repeat_mode := "" |}.

Definition the_play : PlayEvent :=
  Eval vm_compute in default blank_play (value_of (PlayEvent_new play_fields)).

Definition the_bare_play : PlayEvent :=
  Eval vm_compute in
    default blank_play (value_of (PlayEvent_new bare_play_fields)).

Definition the_event : MusicEvent :=
  Eval vm_compute in Sample.the (Sample.validated sample_event).

Definition the_enriched : Enriched.EnrichedMusicEvent :=
  Eval vm_compute in
    default {| Enriched.base := Sample.blank_event;
               Enriched.enhanced_description := None;
               Enriched.mood_analysis := None;
               Enriched.genre_prediction := None;
               Enriched.similar_tracks := None;
               Enriched.listening_context := None;
               Enriched.enrichment_timestamp := timestamp Sample.blank_event;
               Enriched.enrichment_model := "";
               Enriched.enrichment_confidence := None |}
      (value_of (fst (Enriched.EnrichedMusicEvent_new Sample.only_datetimes
                        enriched_event Sample.world1))).

(** A message of the Dataflow pipeline, decoded. *)
Definition raw_message : pyval :=
  Sample.dict
    [("event_id", PStr "evt-0001"); ("event_type", PStr "like");
     ("track", Sample.dict [("title", PStr "Test Song");
                            ("genre", PStr "Rock")]);
     ("artist", Sample.dict [("name", PStr "Test Artist")]);
     ("streaming_event", Sample.dict [("platform", PStr "Tidal")]);
     ("user_interaction", Sample.dict [("location", PStr "New York")]);
     ("timestamp", PStr "2024-01-15T18:30:00Z")].

(** Stand-ins for the library decoders: every text is read as the message
    above, and one ISO timestamp is recognised. *)
Definition loads_message (text : string) : option pyval := Some raw_message.

Definition fromisoformat_sample (text : string) : option datetime :=
  if String.eqb text "2024-01-15T18:30:00+00:00"
  then Some {| Py.year := 2024; Py.month := 1; Py.day := 15; hour := 18;
               minute := 30; second := 0; microsecond := 0;
               tzoffset := Some 0 |}
  else None.

(** The analytics element of the message, and what the transforms yield
    for it. *)
Definition an_element : gmap string pyval :=
  list_to_map
    [("event_id", PStr "evt-0001"); ("event_type", PStr "like");
     ("track_title", PStr "Test Song"); ("artist_name", PStr "Test Artist");
     ("genre", PStr "Rock"); ("platform", PStr "tidal");
     ("user_location", PStr "New York");
     ("timestamp", PStr "2024-01-15T18:30:00Z");
     ("processing_time", PStr "2024-01-15T10:30:00")].

Definition yielded (r : Analytics.result (list (gmap string pyval)))
    : list (gmap string pyval) :=
  match r with
  | Analytics.OK out => out
  | Analytics.Raise _ => []
  end.

Definition scored : list (gmap string pyval) :=
  Eval vm_compute in
    yielded (Analytics.EngagementCalculator_process (Some an_element)).

Definition genre_marked : list (gmap string pyval) :=
  Eval vm_compute in
    yielded (Analytics.GenreAnalytics_process (Some an_element)).

Definition platform_marked : list (gmap string pyval) :=
  Eval vm_compute in
    yielded (Analytics.PlatformAnalytics_process (Some an_element)).

Definition processed : list (gmap string pyval) :=
  Eval vm_compute in
    yielded (fst (Analytics.processed_events Sample.decode_ascii
                    loads_message fromisoformat_sample Sample.empty_object
                    Sample.world1)).

(** What [SimpleMusicProcessor] derives from the sample event. *)
Definition the_derived : derived_fields :=
  Eval vm_compute in
    match Simple._calculate_derived_fields the_event with
    | Py.OK d => d
    | Py.Raise _ => no_fields
    end.

End Fixtures.

(* ===================================================================== *)
(** * Further notions used in the statements                              *)
(* ===================================================================== *)

(** What the raw record holds under [k]: a dictionary that the model
    [new] accepts as [a]. *)
Definition holds {A : Type} (new : gmap string pyval -> outcome A)
    (data : gmap string pyval) (k : string) (a : A) : Prop :=
  exists m, data !! k = Some (PDict m) /\ new m = Valid a.

(** How often [k] occurs in [l]. *)
Definition occurrences (k : string) (l : list string) : Z :=
  Z.of_nat (length (filter (fun x => x = k) l)).

(** The sum of the values of a dictionary of counts. *)
Definition sum_of_counts (counts : gmap string Z) : Z :=
  map_fold (fun _ n acc => n + acc) 0 counts.

(** The engagement level by kind of event: what [EngagementCalculator]
    assigns, as a table. *)
Definition level_of_kind (event_type : pyval) : string :=
  match event_type with
  | PStr s =>
      if str_in s ["like"; "share"] then "high"
      else if str_in s ["pause"; "skip"] then "low"
      else "medium"
  | _ => "medium"
  end.

(** What [GroupByKey] keeps true of the groups: the keys are distinct, no
    group is empty, and the groups hold [n] values in all. *)
Definition grouped {V : Type} (groups : list (Dataflow.scalar * list V))
    (n : nat) : Prop :=
  NoDup (map fst groups)
  /\ Forall (fun g => snd g <> []) groups
  /\ foldr Nat.add 0%nat (map (fun g => length (snd g)) groups) = n.

(* ===================================================================== *)
(** * Properties                                                          *)
(* ===================================================================== *)

(** ** The model on the scenarios of the specification *)

(** The sample events are what validation builds from the sample records. *)
Example sample_events_are_validated :
  Sample.validated
    (Sample.raw_event "play" 354000 (Some (Sample.raw_play 354000)))
  = Some Sample.full_play
  /\ Sample.validated
       (Sample.raw_event "play" 0 (Some (Sample.raw_play 1000)))
     = Some Sample.zero_duration
  /\ Sample.validated (Sample.raw_event "download" 200000 None)
     = Some Sample.a_download
  /\ Sample.validated (Sample.raw_event "like" 200000 None)
     = Some Sample.a_like
  /\ Sample.validated (Sample.raw_event "skip" 200000 None)
     = Some Sample.a_skip
  /\ Sample.validated
       (Sample.raw_event "like" 200000 (Some (Sample.raw_play 1000)))
     = Some Sample.liked_while_playing
  /\ Sample.validated
       (Sample.raw_event "play" 1 (Some (Sample.raw_play (2 ^ 1024))))
     = Some Sample.beyond_range.
Proof. repeat split; vm_compute; reflexivity. Qed.

(** Scenario A: a full play with repeat mode "off" has completion ratio
    1.0, is a full play and scores 0.5 + 0.3 = 0.8, as
    [SimpleMusicProcessor] derives it. *)
Example scenario_A :
  exists d,
    Simple._calculate_derived_fields Sample.full_play = OK d
    /\ play_completion_ratio d = Some f1_0
    /\ is_full_play d = Some true
    /\ engagement_score d = Some f0_8.
Proof. eexists. repeat split; vm_compute; reflexivity. Qed.

(** Scenario B: a skip without play detail is accepted, gets no completion
    field and scores 0.5 - 0.2 = 0.3, as [SimpleMusicProcessor] derives
    it. *)
Example scenario_B :
  exists d,
    Simple._calculate_derived_fields Sample.a_skip = OK d
    /\ play_completion_ratio d = None
    /\ engagement_score d = Some f0_3.
Proof. eexists. repeat split; vm_compute; reflexivity. Qed.

(** Scenario D: a genre token outside the enumeration is rejected. *)
Example scenario_D :
  Track_new (insert "genres" (PList [PStr "death_metal_fusion"])
               (Sample.track_fields 200000))
  = Invalid [([Key "genres"; Index 0],
              "value is not a valid enumeration member; permitted: "
              +:+ "'pop', 'rock', 'hip_hop', 'electronic', 'jazz', "
              +:+ "'classical', 'country', 'r_and_b', 'indie', "
              +:+ "'alternative', 'folk', 'reggae', 'blues', 'metal', "
              +:+ "'punk', 'other'")].
Proof. vm_compute. reflexivity. Qed.

(** A quotient beyond the binary64 range: both copies of
    [_calculate_derived_fields] raise [OverflowError]. *)
Example derivation_beyond_range :
  _calculate_derived_fields Sample.beyond_range = Raise OverflowError
  /\ Simple._calculate_derived_fields Sample.beyond_range
     = Raise OverflowError.
Proof. split; vm_compute; reflexivity. Qed.

(** ** Floats *)

Lemma flt_fle (a b : float) : flt a b = true -> fle a b = true.
Proof.
  unfold flt, fle, SFltb, SFleb.
  destruct (SFcompare a b) as [[]|]; congruence.
Qed.

(** The final clamp lands in the unit interval whatever it is given,
    a NaN or an infinity included. *)
Lemma clamp_in_unit_interval (s : float) :
  fle f0_0 (max2 f0_0 (min2 f1_0 s)) = true
  /\ fle (max2 f0_0 (min2 f1_0 s)) f1_0 = true.
Proof.
  unfold max2, min2.
  destruct (flt s f1_0) eqn:Hhi.
  - destruct (flt f0_0 s) eqn:Hlo.
    + split; now apply flt_fle.
    + split; reflexivity.
  - split; reflexivity.
Qed.

(** Below or at [1.0], [min(r, 1.0)] is [r]. *)
Lemma min2_unclamped (r : float) : flt f1_0 r = false -> min2 r f1_0 = r.
Proof. unfold min2. now intros ->. Qed.

(** ** Engagement score *)

Lemma truthy_Some (o : option Z) (z : Z) :
  truthy o = Some z <-> o = Some z /\ z <> 0.
Proof.
  unfold truthy. destruct o as [z'|]; [|split; [congruence|intros [? _]; congruence]].
  destruct (Z.eqb_spec z' 0); split.
  - congruence.
  - intros [[= ->] ?]. contradiction.
  - intros [= ->]. auto.
  - intros [[= ->] _]. reflexivity.
Qed.

Lemma truthy_zero : truthy (Some 0) = None.
Proof. reflexivity. Qed.

Lemma interactive_membership (kind : EventType) :
  str_in (EventType_value kind) ["like"; "share"; "playlist_add"]
  = Spec.interactive kind.
Proof. now destruct kind. Qed.

Lemma skip_by_value (kind : EventType) :
  String.eqb (EventType_value kind) "skip" = bool_decide (kind = SKIP).
Proof. now destruct kind. Qed.

(** The [hasattr] guard of [SimpleMusicProcessor] on the kind of a
    validated event: the attribute is a [str], and the guard takes it as
    it is. *)
Lemma guarded_event_type (event : MusicEvent) :
  Simple.value_or_str EventType_value (event_type_attr event)
  = EventType_value (event_type event).
Proof. reflexivity. Qed.

Lemma guarded_platform (s : StreamingEvent) :
  Simple.value_or_str Platform_value (platform_attr s)
  = Platform_value (platform s).
Proof. reflexivity. Qed.

(** The sequence of updates of [SimpleMusicProcessor]'s
    [_calculate_engagement_score], as one expression in the quotient it
    computes. *)
Lemma engagement_score_unfolded (event : MusicEvent) :
  Simple._calculate_engagement_score event
  = (ratio ← Spec.played_fraction event;
     OK (Spec.step4 ratio (event_type event) (play_event event))).
Proof.
  unfold Simple._calculate_engagement_score, Spec.played_fraction, Spec.step4.
  rewrite guarded_event_type. cbv zeta.
  rewrite interactive_membership, skip_by_value.
  assert (Hrepeat : forall (pe : PlayEvent) (a b : float),
    (if negb (String.eqb (repeat_mode pe) "off") then a else b)
    = (if decide (repeat_mode pe = "off") then b else a)).
  { intros pe a b. destruct (String.eqb_spec (repeat_mode pe) "off");
      destruct (decide (repeat_mode pe = "off")); simpl; congruence. }
  assert (Hskip : forall (k : EventType) (a b : float),
    (if bool_decide (k = SKIP) then a else b)
    = (if decide (k = SKIP) then a else b)).
  { intros k a b. case_decide.
    - now rewrite bool_decide_eq_true_2.
    - now rewrite bool_decide_eq_false_2. }
  destruct (play_event event) as [pe|]; simpl.
  - destruct (track_duration_ms (track event)) as [d|]; simpl.
    + destruct (Z.eqb_spec d 0) as [Hd|Hd], (decide (d = 0));
        try contradiction; simpl.
      * now rewrite Hrepeat, Hskip.
      * destruct (int_truediv (played_duration_ms pe) d) as [r|e]; simpl;
          [|reflexivity].
        now rewrite Hrepeat, Hskip.
    + now rewrite Hrepeat, Hskip.
  - now rewrite Hskip.
Qed.


(** Where the quotient does not exceed 1.0 and the duration is not zero,
    the code and the specification's formula agree. *)
Lemma engagement_score_agrees_below_one (event : MusicEvent) :
  track_duration_ms (track event) <> Some 0 ->
  (forall r, Spec.played_fraction event = OK (Some r) -> flt f1_0 r = false) ->
  Simple._calculate_engagement_score event = Spec.engagement_score event.
Proof.
  intros Hd Hr. rewrite engagement_score_unfolded.
  unfold Spec.engagement_score, Spec.completion_ratio.
  unfold Spec.played_fraction in *.
  destruct (play_event event) as [pe|]; [|reflexivity].
  destruct (track_duration_ms (track event)) as [d|]; [|reflexivity].
  destruct (decide (d = 0)) as [->|_]; [congruence|].
  destruct (int_truediv (played_duration_ms pe) d) as [r|e]; simpl in *;
    [|reflexivity].
  now rewrite min2_unclamped by (now apply Hr).
Qed.


(** ** The unguarded reads of [event.event_type.value] *)

Lemma int_truediv_nonzero (a b : Z) :
  b <> 0 -> int_truediv a b <> Raise ZeroDivisionError.
Proof.
  intros Hb. unfold int_truediv.
  destruct (Z.eqb_spec b 0); [contradiction|].
  now destruct (is_infinite _).
Qed.

(** A division by a divisor that is not zero raises [OverflowError] if it
    raises at all. *)
Lemma int_truediv_raises (a b : Z) (e : exn) :
  b <> 0 -> int_truediv a b = Raise e -> e = OverflowError.
Proof.
  intros Hb. unfold int_truediv.
  destruct (Z.eqb_spec b 0); [contradiction|].
  destruct (is_infinite _); congruence.
Qed.

(** [EnrichEventMetadata._calculate_engagement_score] returns for no
    event: it raises [OverflowError] if the quotient is beyond the
    binary64 range, and [AttributeError] at line 150 otherwise. *)
Lemma engagement_score_raises (event : MusicEvent) :
  _calculate_engagement_score event = Raise AttributeError
  \/ _calculate_engagement_score event = Raise OverflowError.
Proof.
  unfold _calculate_engagement_score.
  destruct (play_event event) as [pe|]; simpl; [|now left].
  destruct (truthy (track_duration_ms (track event))) as [d|] eqn:Hd; simpl;
    [|now left].
  apply truthy_Some in Hd as [_ Hd].
  destruct (int_truediv (played_duration_ms pe) d) as [r|e] eqn:Hdiv; simpl;
    [now left|].
  apply int_truediv_raises in Hdiv as ->; [now right|assumption].
Qed.

(** So does [_calculate_derived_fields], which calls it. *)
Lemma derived_fields_raise (event : MusicEvent) :
  _calculate_derived_fields event = Raise AttributeError
  \/ _calculate_derived_fields event = Raise OverflowError.
Proof.
  unfold _calculate_derived_fields.
  destruct (truthy (track_duration_ms (track event))) as [d|] eqn:Hd; simpl.
  - apply truthy_Some in Hd as [_ Hd].
    destruct (int_truediv d 1000) as [s|e] eqn:H1; simpl.
    2: { apply int_truediv_raises in H1 as ->; [now right|discriminate]. }
    destruct (play_event event) as [pe|]; simpl.
    + destruct (int_truediv (played_duration_ms pe) d) as [r|e] eqn:H2; simpl.
      2: { apply int_truediv_raises in H2 as ->; [now right|assumption]. }
      destruct (engagement_score_raises event) as [-> | ->]; simpl; auto.
    + destruct (engagement_score_raises event) as [-> | ->]; simpl; auto.
  - destruct (play_event event) as [pe|]; simpl;
      destruct (engagement_score_raises event) as [-> | ->]; simpl; auto.
Qed.

(** [_convert_to_bigquery_row] raises at line 182, whatever the derived
    fields. *)
Lemma convert_to_bigquery_row_raises (event : MusicEvent)
    (enriched_data : derived_fields) :
  _convert_to_bigquery_row event enriched_data = Raise AttributeError.
Proof. reflexivity. Qed.

(** The score that [SimpleMusicProcessor] returns is within [0.0, 1.0]. *)
Lemma simple_score_in_unit_interval (event : MusicEvent) (s : float) :
  Simple._calculate_engagement_score event = OK s ->
  fle f0_0 s = true /\ fle s f1_0 = true.
Proof.
  rewrite engagement_score_unfolded.
  destruct (Spec.played_fraction event) as [ratio|]; simpl; [|discriminate].
  intros [= <-]. unfold Spec.step4. apply clamp_in_unit_interval.
Qed.


(** ** Division by zero *)

Lemma derived_fields_no_zero_division (event : MusicEvent) :
  _calculate_derived_fields event <> Raise ZeroDivisionError.
Proof.
  destruct (derived_fields_raise event) as [-> | ->]; discriminate.
Qed.

(** C9 (the code at a track duration of zero).  The claim wants no
    division by zero and a derivation that is total, giving at duration
    zero a record without duration and completion fields.
    [EnrichEventMetadata._calculate_derived_fields] never raises
    [ZeroDivisionError], each division having a divisor that is not zero,
    but it is not total: on the validated play event with [duration_ms = 0]
    both divisions are skipped and the call of
    [_calculate_engagement_score] raises [AttributeError]; [process] logs
    the failure, raises again in its [except] clause and yields no row.
    [SimpleMusicProcessor] returns there the record that the claim
    describes. *)
Theorem derivation_raises_at_zero_duration (event : MusicEvent) :
  _calculate_derived_fields event <> Raise ZeroDivisionError
  /\ Sample.validated
       (Sample.raw_event "play" 0 (Some (Sample.raw_play 1000)))
     = Some Sample.zero_duration
  /\ track_duration_ms (track Sample.zero_duration) = Some 0
  /\ _calculate_derived_fields Sample.zero_duration = Raise AttributeError
  /\ EnrichEventMetadata_process Sample.zero_duration
       Sample.fresh_enrich_state
     = (Raise AttributeError,
        {| events_enriched := 0;
           failed_to_enrich :=
             [(event_id Sample.zero_duration, AttributeError)] |})
  /\ exists d,
       Simple._calculate_derived_fields Sample.zero_duration = OK d
       /\ track_duration_seconds d = None
       /\ is_long_track d = None /\ is_short_track d = None
       /\ play_completion_ratio d = None
       /\ is_full_play d = None /\ is_skip d = None.
Proof.
  split; [apply derived_fields_no_zero_division|].
  repeat split; try (vm_compute; reflexivity).
  eexists. repeat split; vm_compute; reflexivity.
Qed.

(** ** Platform category *)

Lemma categorize_platform_by_sets (p : Platform) :
  _categorize_platform (Platform_value p) = Spec.platform_category p.
Proof. destruct p; vm_compute; reflexivity. Qed.

(** The two copies of [_categorize_platform] are one function. *)
Lemma simple_categorize_platform (platform : string) :
  Simple._categorize_platform platform = _categorize_platform platform.
Proof. reflexivity. Qed.

Lemma derived_platform_category (event : MusicEvent) (d : derived_fields) :
  Simple._calculate_derived_fields event = OK d ->
  platform_category d
  = Some (_categorize_platform (Platform_value (platform (streaming_event event)))).
Proof.
  unfold Simple._calculate_derived_fields.
  destruct (match truthy (track_duration_ms (track event)) with
            | Some duration_ms => _ | None => _ end) as [d1|]; simpl;
    [|discriminate].
  destruct (match play_event event with Some _ => _ | None => _ end)
    as [d2|]; simpl; [|discriminate].
  destruct (Simple._calculate_engagement_score event); simpl; [|discriminate].
  now intros [= <-].
Qed.

Lemma ratio_over_one (n : nat) :
  (n <= 1)%nat -> exists q, int_truediv (Z.of_nat n) (Z.of_nat 1) = OK q.
Proof.
  intros Hn. destruct n as [|[|n]]; [eexists; reflexivity..|lia].
Qed.

(** C8. Platform classification is a total case split over the fixed
    premium and ad-supported sets: [_categorize_platform] gives "premium"
    for a platform of the premium set, "ad_supported" for one of the
    ad-supported set and "other" for the remaining ones, and that is the
    platform category of every record that [SimpleMusicProcessor] derives;
    spotify is premium and soundcloud is ad_supported; and two records of
    one window with these two platforms give, grouped by platform, two
    rows of count 1. *)
Theorem platform_classification_and_grouping :
  (forall p, _categorize_platform (Platform_value p)
             = Spec.platform_category p)
  /\ (forall event d,
        Simple._calculate_derived_fields event = OK d ->
        platform_category d
        = Some (Spec.platform_category (platform (streaming_event event))))
  /\ _categorize_platform "spotify" = "premium"
  /\ _categorize_platform "soundcloud" = "ad_supported"
  /\ (forall (x1 x2 : gmap string Dataflow.scalar) (w : World),
        x1 !! "platform" = Some (Dataflow.SStr "spotify") ->
        x2 !! "platform" = Some (Dataflow.SStr "soundcloud") ->
        exists r1 r2 w',
          Dataflow.platform_metrics [x1; x2] w = ([OK r1; OK r2], w')
          /\ Dataflow.platform r1 = Dataflow.SStr "spotify"
          /\ Dataflow.count r1 = 1
          /\ Dataflow.platform r2 = Dataflow.SStr "soundcloud"
          /\ Dataflow.count r2 = 1).
Proof.
  split; [|split; [|split; [|split]]].
  - apply categorize_platform_by_sets.
  - intros event d Hd. rewrite (derived_platform_category event d Hd).
    now rewrite categorize_platform_by_sets.
  - reflexivity.
  - reflexivity.
  - intros x1 x2 w H1 H2.
    unfold Dataflow.platform_metrics, Dataflow.GroupByKey. simpl.
    unfold Dataflow.key_by_platform. rewrite H1, H2. simpl.
    unfold Dataflow.calculate_platform_metrics. simpl.
    destruct (ratio_over_one
                (length (filter (fun e => Dataflow.truth
                   (default (Dataflow.SBool false)
                      (e !! "is_premium_platform")) = true) [x1])))
      as [q1 ->].
    { rewrite filter_cons, filter_nil. case_decide; simpl; lia. }
    destruct (ratio_over_one
                (length (filter (fun e => Dataflow.truth
                   (default (Dataflow.SBool false)
                      (e !! "is_premium_platform")) = true) [x2])))
      as [q2 ->].
    { rewrite filter_cons, filter_nil. case_decide; simpl; lia. }
    simpl. do 3 eexists. repeat split.
Qed.

Lemma platform_classification_and_grouping_witness :
  (exists d,
     Simple._calculate_derived_fields Sample.full_play = OK d
     /\ platform_category d = Some "premium"
     /\ platform_category d
        = Some (Spec.platform_category
                  (platform (streaming_event Sample.full_play))))
  /\ exists r1 r2 w',
       Dataflow.platform_metrics
         [Sample.element "spotify"; Sample.element "soundcloud"] Sample.world1
       = ([OK r1; OK r2], w')
       /\ Dataflow.platform r1 = Dataflow.SStr "spotify"
       /\ Dataflow.count r1 = 1
       /\ Dataflow.platform r2 = Dataflow.SStr "soundcloud"
       /\ Dataflow.count r2 = 1.
Proof.
  split.
  - eexists. split; [vm_compute; reflexivity|]. split; [reflexivity|].
    apply (proj1 (proj2 platform_classification_and_grouping)
             Sample.full_play).
    vm_compute. reflexivity.
  - apply (proj2 (proj2 (proj2 (proj2 platform_classification_and_grouping)))
             (Sample.element "spotify") (Sample.element "soundcloud")
             Sample.world1); vm_compute; reflexivity.
Defined.

(** ** Normalized names *)

Lemma lstrip_first (s : string) (c : ascii) :
  first_char (lstrip s) = Some c -> isspace c = false.
Proof.
  induction s as [|a s IH]; simpl; [discriminate|].
  destruct (isspace a) eqn:Ha; [assumption|].
  simpl. now intros [= <-].
Qed.

Lemma rstrip_first (s : string) (c : ascii) :
  first_char (rstrip s) = Some c -> first_char s = Some c.
Proof.
  destruct s as [|a s]; simpl; [discriminate|].
  destruct (rstrip s); [destruct (isspace a)|]; simpl; congruence.
Qed.

Lemma rstrip_last (s : string) (c : ascii) :
  last_char (rstrip s) = Some c -> isspace c = false.
Proof.
  induction s as [|a s IH]; simpl; [discriminate|].
  destruct (rstrip s) as [|b r] eqn:Hr.
  - destruct (isspace a) eqn:Ha; simpl; [discriminate|]. now intros [= <-].
  - simpl. exact IH.
Qed.

Lemma strip_trimmed (s : string) : trimmed (strip s).
Proof.
  unfold strip. split; intros c Hc.
  - apply rstrip_first in Hc. now apply lstrip_first in Hc.
  - now apply rstrip_last in Hc.
Qed.

(** What the validators of a [name] field accept. *)
Lemma name_field_accepts (data : gmap string pyval) (n : Z)
    (validate_name : string -> outcome string) (name : string) :
  (forall s r, validate_name s = Valid r -> r = strip s /\ r <> "") ->
  required data "name"
    (fun x => str_validator x >>> min_length 1 >>> max_length n
                >>> validate_name) = Valid name ->
  name <> "" /\ trimmed name
  /\ (forall s, data !! "name" = Some (PStr s) -> name = strip s).
Proof.
  intros Hv. unfold required.
  destruct (data !! "name") as [x|]; [|discriminate].
  destruct x as [| | | |s0| | |]; try discriminate.
  simpl. unfold min_length, max_length.
  destruct (1 <=? len s0); simpl; [|discriminate].
  destruct (len s0 <=? n); simpl; [|discriminate].
  destruct (validate_name s0) as [r|] eqn:Hr; simpl; [|discriminate].
  intros [= <-]. destruct (Hv s0 r Hr) as [-> Hne].
  split; [assumption|]. split; [apply strip_trimmed|].
  now intros s [= <-].
Qed.

Lemma validate_name_accepts (what : string) (s r : string) :
  (if decide (strip s = "") then fail what else Valid (strip s)) = Valid r ->
  r = strip s /\ r <> "".
Proof. case_decide; [discriminate|]. now intros [= <-]. Qed.

(** C10. Every Track, Artist and Album that validation accepts stores a
    normalized name.  Each [validate_name] returns the whitespace-trimmed
    form of the string it is given, and accepts it only if it is not
    empty; so the name of an accepted entity is not empty, it neither
    starts nor ends with whitespace, and it is the whitespace-trimmed form
    of the string that the record gives as name. *)
Theorem accepted_names_are_normalized :
  (forall v r,
     Track_validate_name v = Valid r \/ Artist_validate_name v = Valid r
     \/ Album_validate_name v = Valid r ->
     r = strip v /\ r <> "" /\ trimmed r)
  /\ (forall data t,
        Track_new data = Valid t ->
        track_name t <> "" /\ trimmed (track_name t)
        /\ (forall s, data !! "name" = Some (PStr s) ->
                      track_name t = strip s))
  /\ (forall data a,
        Artist_new data = Valid a ->
        artist_name a <> "" /\ trimmed (artist_name a)
        /\ (forall s, data !! "name" = Some (PStr s) ->
                      artist_name a = strip s))
  /\ (forall parse_datetime data a,
        Album_new parse_datetime data = Valid a ->
        album_name a <> "" /\ trimmed (album_name a)
        /\ (forall s, data !! "name" = Some (PStr s) ->
                      album_name a = strip s)).
Proof.
  split; [|split; [|split]].
  - intros v r [H | [H | H]];
      apply validate_name_accepts in H as [-> Hne];
      (split; [reflexivity|]; split; [assumption|apply strip_trimmed]).
  - intros data t. unfold Track_new.
    destruct (required data "name" _) as [name|] eqn:Hname.
    2: { repeat case_match; discriminate. }
    apply name_field_accepts in Hname;
      [|apply (validate_name_accepts "Track name cannot be empty")].
    repeat case_match; try discriminate. now intros [= <-].
  - intros data a. unfold Artist_new.
    destruct (required data "name" _) as [name|] eqn:Hname.
    2: { repeat case_match; discriminate. }
    apply name_field_accepts in Hname;
      [|apply (validate_name_accepts "Artist name cannot be empty")].
    repeat case_match; try discriminate. now intros [= <-].
  - intros parse_datetime data a. unfold Album_new.
    destruct (required data "name" _) as [name|] eqn:Hname.
    2: { repeat case_match; discriminate. }
    apply name_field_accepts in Hname;
      [|apply (validate_name_accepts "Album name cannot be empty")].
    repeat case_match; try discriminate. now intros [= <-].
Qed.

Lemma accepted_names_are_normalized_witness :
  (Track_validate_name "  Test Song " = Valid "Test Song"
   /\ "Test Song" = strip "  Test Song " /\ "Test Song" <> ""
   /\ trimmed "Test Song")
  /\ (exists t,
        Track_new (Sample.track_fields 200000) = Valid t
        /\ Sample.track_fields 200000 !! "name" = Some (PStr "  Test Song ")
        /\ track_name t = "Test Song"
        /\ track_name t <> "" /\ trimmed (track_name t)
        /\ (forall s, Sample.track_fields 200000 !! "name" = Some (PStr s) ->
                      track_name t = strip s))
  /\ (exists a,
        Artist_new Sample.artist_fields = Valid a
        /\ Sample.artist_fields !! "name" = Some (PStr "Test Artist  ")
        /\ artist_name a = "Test Artist"
        /\ artist_name a <> "" /\ trimmed (artist_name a)
        /\ (forall s, Sample.artist_fields !! "name" = Some (PStr s) ->
                      artist_name a = strip s))
  /\ (exists a,
        Album_new Sample.only_datetimes Sample.album_fields = Valid a
        /\ Sample.album_fields !! "name" = Some (PStr " Test Album")
        /\ album_name a = "Test Album"
        /\ album_name a <> "" /\ trimmed (album_name a)
        /\ (forall s, Sample.album_fields !! "name" = Some (PStr s) ->
                      album_name a = strip s)).
Proof.
  split; [|split; [|split]].
  - split; [reflexivity|].
    apply (proj1 accepted_names_are_normalized "  Test Song " "Test Song").
    left. reflexivity.
  - eexists. split; [vm_compute; reflexivity|]. split; [reflexivity|].
    split; [reflexivity|].
    apply (proj1 (proj2 accepted_names_are_normalized)
             (Sample.track_fields 200000)).
    vm_compute. reflexivity.
  - eexists. split; [vm_compute; reflexivity|]. split; [reflexivity|].
    split; [reflexivity|].
    apply (proj1 (proj2 (proj2 accepted_names_are_normalized))
             Sample.artist_fields).
    vm_compute. reflexivity.
  - eexists. split; [vm_compute; reflexivity|]. split; [reflexivity|].
    split; [reflexivity|].
    apply (proj2 (proj2 (proj2 accepted_names_are_normalized))
             Sample.only_datetimes Sample.album_fields).
    vm_compute. reflexivity.
Defined.

(** ** Validation *)

Lemma required_ext {A : Type} (data data' : gmap string pyval) (k : string)
    (v : pyval -> outcome A) :
  data' !! k = data !! k -> required data' k v = required data k v.
Proof. unfold required. now intros ->. Qed.

Lemma optional_ext {A : Type} (data data' : gmap string pyval) (k : string)
    (v : pyval -> outcome A) :
  data' !! k = data !! k -> optional data' k v = optional data k v.
Proof. unfold optional. now intros ->. Qed.

Lemma produced_ext {A : Type} (data data' : gmap string pyval) (k : string)
    (factory : World -> A * World) (v : pyval -> outcome A) (w : World) :
  data' !! k = data !! k ->
  produced data' k factory v w = produced data k factory v w.
Proof. unfold produced. now intros ->. Qed.

Lemma event_type_by_value (kind : EventType) :
  enum_validator EventType_value EventType_members
    (PStr (EventType_value kind)) = Valid kind.
Proof. now destruct kind. Qed.

(** C6. Take any record that validation accepts, remove its play detail
    and give it any event kind.  If the kind is play the record is
    rejected, with the single reason "Play events must include play_event
    data"; for every other kind it is accepted. *)
Theorem play_detail_required_exactly_for_play
    (parse_datetime : pyval -> option datetime) (data : gmap string pyval)
    (w : World) (e : MusicEvent) (kind : EventType) :
  fst (MusicEvent_new parse_datetime data w) = Valid e ->
  (kind = PLAY ->
   fst (MusicEvent_new parse_datetime (without_play_detail kind data) w)
   = Invalid [([Key "__root__"], "Play events must include play_event data")])
  /\ (kind <> PLAY ->
      exists e',
        fst (MusicEvent_new parse_datetime (without_play_detail kind data) w)
        = Valid e'
        /\ event_type e' = kind /\ play_event e' = None).
Proof.
  unfold MusicEvent_new, without_play_detail.
  set (data' := <["event_type" := PStr (EventType_value kind)]>
                  (delete "play_event" data)).
  assert (Hother : forall k, k <> "event_type" -> k <> "play_event" ->
                             data' !! k = data !! k).
  { intros k H1 H2. unfold data'.
    rewrite lookup_insert_ne by congruence.
    now rewrite lookup_delete_ne by congruence. }
  replace (required data' "event_type"
             (enum_validator EventType_value EventType_members))
    with (Valid kind : outcome EventType)
    by (unfold required, data'; rewrite lookup_insert_eq; cbv beta iota;
        now rewrite event_type_by_value).
  replace (optional data' "play_event" (model_validator PlayEvent_new))
    with (Valid None : outcome (option PlayEvent))
    by (unfold optional, data';
        rewrite lookup_insert_ne by done; now rewrite lookup_delete_eq).
  rewrite !(required_ext data data') by (now apply Hother).
  rewrite !(optional_ext data data') by (now apply Hother).
  rewrite (produced_ext data data' "event_id") by (now apply Hother).
  destruct (produced data "event_id" uuid4 str_validator w) as [o1 w1].
  rewrite (produced_ext data data' "timestamp") by (now apply Hother).
  destruct (produced data "timestamp" utcnow _ w1) as [o2 w2].
  rewrite (produced_ext data data' "processing_timestamp")
    by (now apply Hother).
  destruct (produced data "processing_timestamp" utcnow _ w2) as [o3 w3].
  cbn [fst].
  destruct o1 as [v_event_id|]; [|discriminate].
  destruct (required data "event_type" _) as [v_event_type|]; [|discriminate].
  destruct o2 as [v_timestamp|]; [|discriminate].
  destruct (required data "track" _) as [v_track|]; [|discriminate].
  destruct (required data "artist" _) as [v_artist|]; [|discriminate].
  destruct (optional data "album" _) as [v_album|]; [|discriminate].
  destruct (required data "user_interaction" _) as [v_user|]; [|discriminate].
  destruct (optional data "play_event" _) as [v_play|]; [|discriminate].
  destruct (required data "streaming_event" _) as [v_streaming|];
    [|discriminate].
  destruct (optional data "raw_data" _) as [v_raw|]; [|discriminate].
  destruct o3 as [v_processing|]; [|discriminate].
  cbn [value_of].
  unfold validate_event_consistency.
  destruct (bool_decide (Some v_event_type = Some PLAY)
            && negb (bool_decide (is_Some (mjoin (Some v_play)))));
    [discriminate|].
  destruct (negb (String.eqb (track_artist_id v_track) (artist_id v_artist)));
    [discriminate|].
  intros _. split.
  - intros ->. reflexivity.
  - intros Hkind.
    rewrite bool_decide_eq_false_2 by congruence. simpl.
    eexists. repeat split.
Qed.

Lemma play_detail_required_exactly_for_play_witness :
  fst (MusicEvent_new Sample.only_datetimes
         (without_play_detail PLAY
            (Sample.raw_event "like" 200000 (Some (Sample.raw_play 1000))))
         Sample.world1)
  = Invalid [([Key "__root__"], "Play events must include play_event data")]
  /\ exists e',
       fst (MusicEvent_new Sample.only_datetimes
              (without_play_detail SKIP
                 (Sample.raw_event "like" 200000 (Some (Sample.raw_play 1000))))
              Sample.world1)
       = Valid e'
       /\ event_type e' = SKIP /\ play_event e' = None.
Proof.
  assert (Hvalid :
    fst (MusicEvent_new Sample.only_datetimes
           (Sample.raw_event "like" 200000 (Some (Sample.raw_play 1000)))
           Sample.world1)
    = Valid Sample.liked_while_playing) by (vm_compute; reflexivity).
  split.
  - apply (proj1 (play_detail_required_exactly_for_play
                    _ _ _ _ PLAY Hvalid)).
    reflexivity.
  - apply (proj2 (play_detail_required_exactly_for_play
                    _ _ _ _ SKIP Hvalid)).
    discriminate.
Defined.

(** ** Determinism of validation *)

Lemma produced_supplied {A : Type} (data : gmap string pyval) (k : string)
    (factory : World -> A * World) (v : pyval -> outcome A) (w : World) :
  is_Some (data !! k) ->
  produced data k factory v w = (required data k v, w).
Proof. intros [x Hx]. unfold produced, required. rewrite Hx. now destruct x. Qed.

Lemma produced_missing {A : Type} (data : gmap string pyval) (k : string)
    (factory : World -> A * World) (v : pyval -> outcome A) (w : World) :
  data !! k = None ->
  produced data k factory v w = (Valid (fst (factory w)), snd (factory w)).
Proof. intros Hk. unfold produced. rewrite Hk. now destruct (factory w). Qed.

(** C2 (as amended). Validation is a function of the raw record and of
    the identifier and clock readings it draws.  Two runs on the same
    record report the same failures, or build two events that are equal in
    every field other than [event_id], [timestamp] and
    [processing_timestamp] where the record omits them; those hold a fresh
    [uuid4()] and the current time of the run.  On a record that supplies
    all three, the two runs yield the same outcome. *)
Theorem validation_deterministic_up_to_generated_fields
    (parse_datetime : pyval -> option datetime) (data : gmap string pyval)
    (w1 w2 : World) :
  forget_generated data <$> fst (MusicEvent_new parse_datetime data w1)
  = forget_generated data <$> fst (MusicEvent_new parse_datetime data w2)
  /\ (is_Some (data !! "event_id") ->
      is_Some (data !! "timestamp") ->
      is_Some (data !! "processing_timestamp") ->
      fst (MusicEvent_new parse_datetime data w1)
      = fst (MusicEvent_new parse_datetime data w2)).
Proof.
  split.
  - unfold MusicEvent_new, forget_generated.
    destruct (data !! "event_id") as [x1|] eqn:H1;
      [rewrite !(produced_supplied data "event_id") by (rewrite H1; eauto)
      |rewrite !(produced_missing data "event_id") by exact H1];
      cbv beta iota;
      (destruct (data !! "timestamp") as [x2|] eqn:H2;
       [rewrite !(produced_supplied data "timestamp") by (rewrite H2; eauto)
       |rewrite !(produced_missing data "timestamp") by exact H2]);
      cbv beta iota;
      (destruct (data !! "processing_timestamp") as [x3|] eqn:H3;
       [rewrite !(produced_supplied data "processing_timestamp")
          by (rewrite H3; eauto)
       |rewrite !(produced_missing data "processing_timestamp") by exact H3]);
      cbn [fst];
      try (destruct (required data "event_id" _); [|reflexivity]);
      (destruct (required data "event_type" _); [|reflexivity]);
      try (destruct (required data "timestamp" _); [|reflexivity]);
      (destruct (required data "track" _); [|reflexivity]);
      (destruct (required data "artist" _); [|reflexivity]);
      (destruct (optional data "album" _); [|reflexivity]);
      (destruct (required data "user_interaction" _); [|reflexivity]);
      (destruct (optional data "play_event" _); [|reflexivity]);
      (destruct (required data "streaming_event" _); [|reflexivity]);
      (destruct (optional data "raw_data" _); [|reflexivity]);
      try (destruct (required data "processing_timestamp" _); [|reflexivity]);
      cbn [value_of];
      (destruct (validate_event_consistency _ _ _ _); reflexivity).
  - intros H1 H2 H3. unfold MusicEvent_new.
    rewrite !(produced_supplied data "event_id") by assumption.
    cbv beta iota.
    rewrite !(produced_supplied data "timestamp") by assumption.
    cbv beta iota.
    rewrite !(produced_supplied data "processing_timestamp") by assumption.
    reflexivity.
Qed.

(** C2 (counterexample). A record without [event_id], validated in two
    worlds whose [uuid4()] differ, gives two different events. *)
Lemma validation_differs_between_runs :
  Sample.raw_event "like" 200000 None !! "event_id" = None
  /\ fst (MusicEvent_new Sample.only_datetimes
            (Sample.raw_event "like" 200000 None) Sample.world1)
     <> fst (MusicEvent_new Sample.only_datetimes
               (Sample.raw_event "like" 200000 None) Sample.world2).
Proof. split; [vm_compute; reflexivity|]. vm_compute. discriminate. Qed.

Lemma validation_deterministic_up_to_generated_fields_witness :
  fst (MusicEvent_new Sample.only_datetimes Sample.complete_record
         Sample.world1)
  = fst (MusicEvent_new Sample.only_datetimes Sample.complete_record
           Sample.world2).
Proof.
  apply (proj2 (validation_deterministic_up_to_generated_fields
                  Sample.only_datetimes Sample.complete_record
                  Sample.world1 Sample.world2));
    vm_compute; eauto.
Defined.

(** ** Failures of validation in the pipeline *)

(** C5 (as amended). On every message that fails to decode, to parse or
    to validate, [ParseMusicEvent.process] returns normally and yields no
    element: the failure is not handed to the caller.  It is counted in
    [events_parsed_error] and logged, a [ValidationError] with the field
    paths and reasons it carries; the success counter and the earlier log
    records are left as they were. *)
Theorem failed_validation_is_logged_and_dropped
    (decode_utf8 : list Byte.byte -> option string)
    (json_loads : string -> option pyval)
    (parse_datetime : pyval -> option datetime)
    (message : list Byte.byte) (st : ParseState) (w w' : World)
    (f : parse_failure) :
  parse decode_utf8 json_loads parse_datetime message w = (inl f, w') ->
  exists sample,
    ParseMusicEvent_process decode_utf8 json_loads parse_datetime message st w
    = ([],
       {| events_parsed_success := events_parsed_success st;
          events_parsed_error := S (events_parsed_error st);
          log := log st ++ [{| cause := f; message_sample := sample |}] |},
       w').
Proof.
  intros Hparse. unfold ParseMusicEvent_process. rewrite Hparse.
  destruct f; eexists; reflexivity.
Qed.

Lemma failed_validation_is_logged_and_dropped_witness :
  exists sample,
    ParseMusicEvent_process Sample.decode_ascii Sample.loads_sample
      Sample.only_datetimes Sample.empty_object Sample.fresh_parse_state
      Sample.world1
    = ([],
       {| events_parsed_success := 0; events_parsed_error := 1;
          log := [{| cause := Rejected Sample.missing_fields;
                     message_sample := sample |}] |},
       Sample.world1_after).
Proof.
  apply (failed_validation_is_logged_and_dropped
           Sample.decode_ascii Sample.loads_sample Sample.only_datetimes
           Sample.empty_object Sample.fresh_parse_state Sample.world1
           Sample.world1_after (Rejected Sample.missing_fields)).
  vm_compute. reflexivity.
Defined.

(** C5 (counterexample). The message [b"{}"] fails validation with five
    missing required fields, and [ParseMusicEvent.process] yields nothing
    for it: its caller receives no failure value. *)
Lemma rejected_message_yields_nothing :
  parse Sample.decode_ascii Sample.loads_sample Sample.only_datetimes
    Sample.empty_object Sample.world1
  = (inl (Rejected Sample.missing_fields), Sample.world1_after)
  /\ fst (fst (ParseMusicEvent_process Sample.decode_ascii
                 Sample.loads_sample Sample.only_datetimes
                 Sample.empty_object Sample.fresh_parse_state Sample.world1))
     = [].
Proof. split; vm_compute; reflexivity. Qed.

(** ** Order of strings *)

Lemma ascii_compare_trans (a b c : ascii) :
  Ascii.compare a b = Lt -> Ascii.compare b c = Lt -> Ascii.compare a c = Lt.
Proof.
  unfold Ascii.compare. rewrite !N.compare_lt_iff. apply N.lt_trans.
Qed.

Lemma string_compare_trans (s1 s2 s3 : string) :
  String.compare s1 s2 = Lt -> String.compare s2 s3 = Lt ->
  String.compare s1 s3 = Lt.
Proof.
  revert s2 s3. induction s1 as [|a s1 IH]; intros [|b s2] [|c s3]; simpl;
    try congruence.
  destruct (Ascii.compare a b) eqn:Hab; try discriminate;
    destruct (Ascii.compare b c) eqn:Hbc; try discriminate.
  - apply Ascii.compare_eq_iff in Hab, Hbc. subst.
    assert (Hcc : Ascii.compare c c = Eq) by apply N.compare_refl.
    rewrite Hcc. apply IH.
  - apply Ascii.compare_eq_iff in Hab. subst. now rewrite Hbc.
  - apply Ascii.compare_eq_iff in Hbc. subst. now rewrite Hab.
  - now rewrite (ascii_compare_trans a b c).
Qed.

Lemma string_ltb_trans (s1 s2 s3 : string) :
  String.ltb s1 s2 = true -> String.ltb s2 s3 = true ->
  String.ltb s1 s3 = true.
Proof.
  unfold String.ltb. intros H12 H23.
  rewrite (string_compare_trans s1 s2 s3); [reflexivity| |].
  - now destruct (String.compare s1 s2).
  - now destruct (String.compare s2 s3).
Qed.

Lemma string_ltb_irrefl (s : string) : String.ltb s s = false.
Proof.
  unfold String.ltb. pose proof (String.compare_antisym s s) as H.
  now destruct (String.compare s s).
Qed.

(** Neither below the other: the same string. *)
Lemma string_not_ltb_antisym (s1 s2 : string) :
  String.ltb s1 s2 = false -> String.ltb s2 s1 = false -> s1 = s2.
Proof.
  unfold String.ltb. rewrite (String.compare_antisym s2 s1).
  destruct (String.compare s1 s2) eqn:H; simpl; try discriminate.
  intros _ _. now apply String.compare_eq_iff.
Qed.

(** [a <= b < c] gives [a < c], and [a < b <= c] too. *)
Lemma string_le_lt_trans (a b c : string) :
  String.ltb b a = false -> String.ltb b c = true -> String.ltb a c = true.
Proof.
  intros Hab Hbc. destruct (String.ltb a b) eqn:Hlt.
  - now apply (string_ltb_trans a b c).
  - now rewrite (string_not_ltb_antisym a b Hlt Hab).
Qed.

Lemma string_lt_le_trans (a b c : string) :
  String.ltb a b = true -> String.ltb c b = false -> String.ltb a c = true.
Proof.
  intros Hab Hcb. destruct (String.ltb b c) eqn:Hlt.
  - now apply (string_ltb_trans a b c).
  - now rewrite <- (string_not_ltb_antisym b c Hlt Hcb).
Qed.

(** ** The aggregates *)

(** [min] gives an item of the list below which there is none. *)
Lemma str_min_spec (first : string) (rest : list string) :
  str_min first rest ∈ first :: rest
  /\ forall x, x ∈ first :: rest -> String.ltb x (str_min first rest) = false.
Proof.
  unfold str_min. revert first.
  induction rest as [|y rest IH]; intros first; simpl.
  - split; [apply list_elem_of_here|].
    intros x ->%list_elem_of_singleton. apply string_ltb_irrefl.
  - destruct (IH (if String.ltb y first then y else first)) as [Hin Hlow].
    set (m := fold_left _ rest _) in *.
    split.
    + apply elem_of_cons in Hin as [->|Hin].
      * destruct (String.ltb y first);
          [apply list_elem_of_further, list_elem_of_here|apply list_elem_of_here].
      * now do 2 apply list_elem_of_further.
    + intros x Hx.
      destruct (String.ltb y first) eqn:Hy.
      * apply elem_of_cons in Hx as [->|Hx]; [|now apply Hlow].
        destruct (String.ltb first m) eqn:Hfm; [|reflexivity].
        rewrite <- (Hlow y (list_elem_of_here _ _)).
        symmetry. now apply (string_ltb_trans y first m).
      * apply elem_of_cons in Hx as [->|Hx].
        { apply Hlow, list_elem_of_here. }
        apply elem_of_cons in Hx as [->|Hx].
        { destruct (String.ltb y m) eqn:Hym; [|reflexivity].
          rewrite <- Hy. symmetry.
          apply (string_lt_le_trans y m first Hym).
          apply Hlow, list_elem_of_here. }
        now apply Hlow, list_elem_of_further.
Qed.

(** [max] gives an item of the list above which there is none. *)
Lemma str_max_spec (first : string) (rest : list string) :
  str_max first rest ∈ first :: rest
  /\ forall x, x ∈ first :: rest -> String.ltb (str_max first rest) x = false.
Proof.
  unfold str_max. revert first.
  induction rest as [|y rest IH]; intros first; simpl.
  - split; [apply list_elem_of_here|].
    intros x ->%list_elem_of_singleton. apply string_ltb_irrefl.
  - destruct (IH (if String.ltb first y then y else first)) as [Hin Hup].
    set (m := fold_left _ rest _) in *.
    split.
    + apply elem_of_cons in Hin as [->|Hin].
      * destruct (String.ltb first y);
          [apply list_elem_of_further, list_elem_of_here|apply list_elem_of_here].
      * now do 2 apply list_elem_of_further.
    + intros x Hx.
      destruct (String.ltb first y) eqn:Hy.
      * apply elem_of_cons in Hx as [->|Hx]; [|now apply Hup].
        destruct (String.ltb m first) eqn:Hmf; [|reflexivity].
        rewrite <- (Hup y (list_elem_of_here _ _)).
        symmetry. now apply (string_ltb_trans m first y).
      * apply elem_of_cons in Hx as [->|Hx].
        { apply Hup, list_elem_of_here. }
        apply elem_of_cons in Hx as [->|Hx].
        { destruct (String.ltb m y) eqn:Hmy; [|reflexivity].
          rewrite <- Hy. symmetry.
          apply (string_le_lt_trans first m y); [|exact Hmy].
          apply Hup, list_elem_of_here. }
        now apply Hup, list_elem_of_further.
Qed.

Lemma str_min_permutation (a b : string) (l k : list string) :
  a :: l ≡ₚ b :: k -> str_min a l = str_min b k.
Proof.
  intros Hperm.
  destruct (str_min_spec a l) as [Hin1 Hlow1].
  destruct (str_min_spec b k) as [Hin2 Hlow2].
  apply string_not_ltb_antisym.
  - apply Hlow2. now rewrite <- Hperm.
  - apply Hlow1. now rewrite Hperm.
Qed.

Lemma str_max_permutation (a b : string) (l k : list string) :
  a :: l ≡ₚ b :: k -> str_max a l = str_max b k.
Proof.
  intros Hperm.
  destruct (str_max_spec a l) as [Hin1 Hup1].
  destruct (str_max_spec b k) as [Hin2 Hup2].
  apply string_not_ltb_antisym.
  - apply Hup1. now rewrite Hperm.
  - apply Hup2. now rewrite <- Hperm.
Qed.

Lemma count_step_commute (counts : gmap string Z) (x y : string) :
  <[y := default 0 (<[x := default 0 (counts !! x) + 1]> counts !! y) + 1]>
    (<[x := default 0 (counts !! x) + 1]> counts)
  = <[x := default 0 (<[y := default 0 (counts !! y) + 1]> counts !! x) + 1]>
      (<[y := default 0 (counts !! y) + 1]> counts).
Proof.
  destruct (decide (x = y)) as [->|Hxy]; [reflexivity|].
  rewrite !lookup_insert_ne by congruence.
  now apply insert_insert_ne.
Qed.

Lemma count_by_permutation (l k : list string) :
  l ≡ₚ k -> count_by l = count_by k.
Proof.
  unfold count_by. generalize (∅ : gmap string Z).
  intros counts Hperm. revert counts.
  induction Hperm as [|x l k _ IH|x y l|l1 l2 l3 _ IH1 _ IH2];
    intros counts; simpl.
  - reflexivity.
  - apply IH.
  - now rewrite count_step_commute.
  - now rewrite IH1.
Qed.

Lemma count_distinct_permutation (l k : list string) :
  l ≡ₚ k -> count_distinct l = count_distinct k.
Proof. unfold count_distinct. now intros ->. Qed.

(** C3 (as amended). Aggregating the same window twice yields two
    aggregates that are equal in every field except
    [aggregation_timestamp], which holds the time that each run reads from
    the clock; if the two runs read the same time the outputs are
    identical. *)
Theorem aggregation_reproducible_up_to_its_timestamp
    (events : list Row.t) (w1 w2 : World) :
  map without_stamp (fst (AggregateEventMetrics_process events w1))
  = map without_stamp (fst (AggregateEventMetrics_process events w2))
  /\ (forall a, a ∈ fst (AggregateEventMetrics_process events w1) ->
                aggregation_timestamp a = isoformat (fst (utcnow w1)))
  /\ (fst (utcnow w1) = fst (utcnow w2) ->
      fst (AggregateEventMetrics_process events w1)
      = fst (AggregateEventMetrics_process events w2)).
Proof.
  unfold AggregateEventMetrics_process.
  destruct events as [|first rest]; simpl.
  - repeat split; try reflexivity. intros a Ha. inversion Ha.
  - repeat split.
    + intros a ->%list_elem_of_singleton. reflexivity.
    + intros Hclock. now rewrite Hclock.
Qed.

Lemma aggregation_reproducible_up_to_its_timestamp_witness :
  fst (AggregateEventMetrics_process Sample.window_download_like_skip
         Sample.world1)
  = fst (AggregateEventMetrics_process Sample.window_download_like_skip
           Sample.world1_again).
Proof.
  apply (proj2 (proj2 (aggregation_reproducible_up_to_its_timestamp
                         Sample.window_download_like_skip Sample.world1
                         Sample.world1_again))).
  reflexivity.
Defined.

(** C3 (counterexample). The same window aggregated at two different
    times: the two aggregates differ. *)
Lemma aggregation_differs_between_runs :
  fst (AggregateEventMetrics_process Sample.window_download_like_skip
         Sample.world1)
  <> fst (AggregateEventMetrics_process Sample.window_download_like_skip
            Sample.world2)
  /\ map aggregation_timestamp
       (fst (AggregateEventMetrics_process Sample.window_download_like_skip
               Sample.world1)) = ["2024-01-15T10:30:00"]
  /\ map aggregation_timestamp
       (fst (AggregateEventMetrics_process Sample.window_download_like_skip
               Sample.world2)) = ["2024-01-15T10:30:30"].
Proof.
  assert (H1 : map aggregation_timestamp
       (fst (AggregateEventMetrics_process Sample.window_download_like_skip
               Sample.world1)) = ["2024-01-15T10:30:00"])
    by (vm_compute; reflexivity).
  assert (H2 : map aggregation_timestamp
       (fst (AggregateEventMetrics_process Sample.window_download_like_skip
               Sample.world2)) = ["2024-01-15T10:30:30"])
    by (vm_compute; reflexivity).
  split; [|split; assumption].
  intros Heq. rewrite Heq in H1. rewrite H1 in H2. discriminate H2.
Qed.

(** What a non-empty window is aggregated to. *)
Lemma aggregate_of_window (first : Row.t) (rest : list Row.t) (w : World) :
  fst (AggregateEventMetrics_process (first :: rest) w)
  = [{| window_start :=
          str_min (Row.timestamp first) (map Row.timestamp rest);
        window_end :=
          str_max (Row.timestamp first) (map Row.timestamp rest);
        total_events := Z.of_nat (length (first :: rest));
        unique_users := count_distinct (map Row.user_id (first :: rest));
        unique_tracks := count_distinct (map Row.track_id (first :: rest));
        platform_distribution := count_by (map Row.platform (first :: rest));
        event_type_distribution :=
          count_by (map Row.event_type (first :: rest));
        average_engagement_score := average (scores_of (first :: rest));
        aggregation_timestamp := isoformat (fst (utcnow w)) |}].
Proof. reflexivity. Qed.

(** C4 (as amended). For every permutation of the records of a window the
    aggregation produces the same count, distinct-user count,
    distinct-track count, platform and event-type distributions (as
    mappings) and window start and end.  The mean engagement is the
    left-to-right binary64 sum of the same scores, in their arrival order,
    divided by their number. *)
Theorem aggregation_order_independent_but_for_the_mean
    (events events' : list Row.t) (w : World) :
  events ≡ₚ events' ->
  map without_average (fst (AggregateEventMetrics_process events w))
  = map without_average (fst (AggregateEventMetrics_process events' w))
  /\ scores_of events ≡ₚ scores_of events'
  /\ (forall a, a ∈ fst (AggregateEventMetrics_process events w) ->
                average_engagement_score a = average (scores_of events)).
Proof.
  intros Hperm. split; [|split].
  - destruct events as [|first rest], events' as [|first' rest'].
    + reflexivity.
    + now apply Permutation_nil_cons in Hperm.
    + symmetry in Hperm. now apply Permutation_nil_cons in Hperm.
    + rewrite !aggregate_of_window.
      rewrite (str_min_permutation (Row.timestamp first)
                 (Row.timestamp first') (map Row.timestamp rest)
                 (map Row.timestamp rest'))
        by (apply (Permutation_map Row.timestamp) in Hperm; exact Hperm).
      rewrite (str_max_permutation (Row.timestamp first)
                 (Row.timestamp first') (map Row.timestamp rest)
                 (map Row.timestamp rest'))
        by (apply (Permutation_map Row.timestamp) in Hperm; exact Hperm).
      rewrite (Permutation_length Hperm).
      rewrite (count_distinct_permutation _ _
                 (Permutation_map Row.user_id Hperm)).
      rewrite (count_distinct_permutation _ _
                 (Permutation_map Row.track_id Hperm)).
      rewrite (count_by_permutation _ _ (Permutation_map Row.platform Hperm)).
      rewrite (count_by_permutation _ _
                 (Permutation_map Row.event_type Hperm)).
      reflexivity.
  - unfold scores_of. now rewrite Hperm.
  - destruct events as [|first rest]; intros a Ha.
    + inversion Ha.
    + rewrite aggregate_of_window in Ha.
      apply list_elem_of_singleton in Ha. now subst a.
Qed.

Lemma aggregation_order_independent_but_for_the_mean_witness :
  Sample.window_download_like_skip ≡ₚ Sample.window_download_skip_like
  /\ map without_average
       (fst (AggregateEventMetrics_process Sample.window_download_like_skip
               Sample.world1))
     = map without_average
         (fst (AggregateEventMetrics_process Sample.window_download_skip_like
                 Sample.world1)).
Proof.
  assert (Hperm : Sample.window_download_like_skip
                  ≡ₚ Sample.window_download_skip_like).
  { unfold Sample.window_download_like_skip, Sample.window_download_skip_like.
    apply perm_skip, perm_swap. }
  split; [exact Hperm|].
  exact (proj1 (aggregation_order_independent_but_for_the_mean
                  Sample.window_download_like_skip
                  Sample.window_download_skip_like Sample.world1 Hperm)).
Defined.

(** C4 (counterexample). Three rows of one window, a download, a like and
    a skip, with the engagement scores 0.5, 0.9 and 0.3.  Aggregated in
    this order their mean is 0.5666666666666667; with the like and the skip
    swapped it is 0.5666666666666668, the next binary64 up. *)
Lemma mean_engagement_depends_on_arrival_order :
  scores_of Sample.window_download_like_skip
  = [f0_5; Analytics.f0_9; f0_3]
  /\ scores_of Sample.window_download_skip_like
     = [f0_5; f0_3; Analytics.f0_9]
  /\ Sample.window_download_like_skip ≡ₚ Sample.window_download_skip_like
  /\ map average_engagement_score
       (fst (AggregateEventMetrics_process Sample.window_download_like_skip
               Sample.world1))
     = [S754_finite false 5104079577686562 (-53)]
  /\ map average_engagement_score
       (fst (AggregateEventMetrics_process Sample.window_download_skip_like
               Sample.world1))
     = [S754_finite false 5104079577686563 (-53)]
  /\ fst (AggregateEventMetrics_process Sample.window_download_like_skip
            Sample.world1)
     <> fst (AggregateEventMetrics_process Sample.window_download_skip_like
               Sample.world1).
Proof.
  assert (H1 : map average_engagement_score
       (fst (AggregateEventMetrics_process Sample.window_download_like_skip
               Sample.world1))
     = [S754_finite false 5104079577686562 (-53)])
    by (vm_compute; reflexivity).
  assert (H2 : map average_engagement_score
       (fst (AggregateEventMetrics_process Sample.window_download_skip_like
               Sample.world1))
     = [S754_finite false 5104079577686563 (-53)])
    by (vm_compute; reflexivity).
  split; [vm_compute; reflexivity|].
  split; [vm_compute; reflexivity|].
  split.
  { unfold Sample.window_download_like_skip, Sample.window_download_skip_like.
    apply perm_skip, perm_swap. }
  split; [exact H1|]. split; [exact H2|].
  intros Heq. rewrite Heq in H1. rewrite H1 in H2. discriminate H2.
Qed.

(* ===================================================================== *)
(** * Further properties of the schema                                    *)
(* ===================================================================== *)

(** ** What a field validator accepted *)

Lemma under_valid {A : Type} (i : loc_item) (o : outcome A) (a : A) :
  under i o = Valid a -> o = Valid a.
Proof. destruct o; simpl; congruence. Qed.

Lemma required_valid {A : Type} (data : gmap string pyval) (k : string)
    (v : pyval -> outcome A) (a : A) :
  required data k v = Valid a ->
  exists x, data !! k = Some x /\ v x = Valid a.
Proof.
  unfold required. destruct (data !! k) as [x|]; [|discriminate].
  intros H. exists x. split; [reflexivity|].
  destruct x; try discriminate; now apply under_valid in H.
Qed.

Lemma optional_valid_some {A : Type} (data : gmap string pyval) (k : string)
    (v : pyval -> outcome A) (a : A) :
  optional data k v = Valid (Some a) ->
  exists x, data !! k = Some x /\ v x = Valid a.
Proof.
  unfold optional. destruct (data !! k) as [x|]; [|discriminate].
  intros H. exists x. split; [reflexivity|].
  destruct x; try discriminate; apply under_valid in H;
    (destruct (v _) as [a'|]; simpl in H; [now injection H as ->|discriminate]).
Qed.

Lemma optional_missing {A : Type} (data : gmap string pyval) (k : string)
    (v : pyval -> outcome A) :
  data !! k = None -> optional data k v = Valid None.
Proof. unfold optional. now intros ->. Qed.

Lemma defaulted_missing {A : Type} (data : gmap string pyval) (k : string)
    (d : A) (v : pyval -> outcome A) :
  data !! k = None -> defaulted data k d v = Valid d.
Proof. unfold defaulted. now intros ->. Qed.

Lemma defaulted_valid {A : Type} (data : gmap string pyval) (k : string)
    (d : A) (v : pyval -> outcome A) (a : A) :
  defaulted data k d v = Valid a ->
  (data !! k = None /\ a = d) \/ exists x, data !! k = Some x /\ v x = Valid a.
Proof.
  unfold defaulted. destruct (data !! k) as [x|].
  - intros H. right. exists x. split; [reflexivity|].
    destruct x; try discriminate; now apply under_valid in H.
  - intros [= <-]. now left.
Qed.

Lemma ge_valid (bound z r : Z) : ge bound z = Valid r -> r = z /\ bound <= z.
Proof.
  unfold ge. destruct (Z.leb_spec bound z); [|discriminate].
  now intros [= <-].
Qed.

Lemma le_valid (bound z r : Z) : le bound z = Valid r -> r = z /\ z <= bound.
Proof.
  unfold le. destruct (Z.leb_spec z bound); [|discriminate].
  now intros [= <-].
Qed.

Lemma int_ge_valid (bound : Z) (x : pyval) (r : Z) :
  int_validator x >>> ge bound = Valid r -> bound <= r.
Proof.
  destruct (int_validator x) as [z|]; simpl; [|discriminate].
  intros H. now apply ge_valid in H as [-> ?].
Qed.

Lemma fge_valid (bound : float) (text : string) (f r : float) :
  fge bound text f = Valid r -> r = f /\ fle bound f = true.
Proof.
  unfold fge. destruct (fle bound f) eqn:H; [|discriminate].
  now intros [= <-].
Qed.

Lemma fle_valid (bound : float) (text : string) (f r : float) :
  fle_ bound text f = Valid r -> r = f /\ fle f bound = true.
Proof.
  unfold fle_. destruct (fle f bound) eqn:H; [|discriminate].
  now intros [= <-].
Qed.

Lemma unit_interval_valid (x : pyval) (r : float) :
  unit_interval x = Valid r -> fle f0_0 r = true /\ fle r f1_0 = true.
Proof.
  unfold unit_interval.
  destruct (float_validator x) as [f|]; simpl; [|discriminate].
  destruct (fge f0_0 "0.0" f) as [f'|] eqn:Hge; simpl; [|discriminate].
  apply fge_valid in Hge as [-> Hge].
  intros Hle. now apply fle_valid in Hle as [-> Hle].
Qed.

Lemma max_length_valid (n : Z) (s r : string) :
  max_length n s = Valid r -> r = s /\ len s <= n.
Proof.
  unfold max_length. destruct (Z.leb_spec (len s) n); [|discriminate].
  now intros [= <-].
Qed.

Lemma str_max_length_valid (n : Z) (x : pyval) (r : string) :
  str_validator x >>> max_length n = Valid r -> len r <= n.
Proof.
  destruct (str_validator x) as [s|]; simpl; [|discriminate].
  intros H. now apply max_length_valid in H as [-> ?].
Qed.

(** Stripping never lengthens a string. *)
Lemma lstrip_length (s : string) :
  (String.length (lstrip s) <= String.length s)%nat.
Proof.
  induction s as [|c s IH]; simpl; [lia|].
  destruct (isspace c); simpl; lia.
Qed.

Lemma rstrip_length (s : string) :
  (String.length (rstrip s) <= String.length s)%nat.
Proof.
  induction s as [|c s IH]; simpl; [lia|].
  destruct (rstrip s); [destruct (isspace c)|]; simpl in *; lia.
Qed.

Lemma strip_length (s : string) : len (strip s) <= len s.
Proof.
  unfold len, strip.
  pose proof (rstrip_length (lstrip s)). pose proof (lstrip_length s). lia.
Qed.

Lemma nonempty_length (s : string) : s <> "" -> 1 <= len s.
Proof. destruct s; [congruence|]. unfold len. simpl. lia. Qed.

(** ** Invariants of the accepted entities *)

(** X1. Every event that validation accepts is consistent: its track's
    artist identifier is the artist's identifier, and a play event carries
    a play detail. *)
Theorem accepted_event_is_consistent
    (parse_datetime : pyval -> option datetime) (data : gmap string pyval)
    (w : World) (e : MusicEvent) :
  fst (MusicEvent_new parse_datetime data w) = Valid e ->
  track_artist_id (track e) = artist_id (artist e)
  /\ (event_type e = PLAY -> is_Some (play_event e)).
Proof.
  unfold MusicEvent_new.
  destruct (produced data "event_id" uuid4 str_validator w) as [o1 w1].
  destruct (produced data "timestamp" utcnow _ w1) as [o2 w2].
  destruct (produced data "processing_timestamp" utcnow _ w2) as [o3 w3].
  cbn [fst].
  destruct o1 as [v_event_id|]; [|discriminate].
  destruct (required data "event_type" _) as [v_event_type|]; [|discriminate].
  destruct o2 as [v_timestamp|]; [|discriminate].
  destruct (required data "track" _) as [v_track|]; [|discriminate].
  destruct (required data "artist" _) as [v_artist|]; [|discriminate].
  destruct (optional data "album" _) as [v_album|]; [|discriminate].
  destruct (required data "user_interaction" _) as [v_user|]; [|discriminate].
  destruct (optional data "play_event" _) as [v_play|]; [|discriminate].
  destruct (required data "streaming_event" _) as [v_streaming|];
    [|discriminate].
  destruct (optional data "raw_data" _) as [v_raw|]; [|discriminate].
  destruct o3 as [v_processing|]; [|discriminate].
  cbn [value_of]. unfold validate_event_consistency.
  destruct (bool_decide (Some v_event_type = Some PLAY)
            && negb (bool_decide (is_Some (mjoin (Some v_play))))) eqn:Hplay;
    [discriminate|].
  destruct (String.eqb_spec (track_artist_id v_track) (artist_id v_artist))
    as [Hid|Hid]; simpl; [|discriminate].
  intros [= <-]. simpl. split; [exact Hid|].
  intros ->. rewrite bool_decide_eq_true_2 in Hplay by reflexivity.
  simpl in Hplay. apply negb_false_iff, bool_decide_eq_true in Hplay.
  exact Hplay.
Qed.

Lemma accepted_event_is_consistent_witness :
  track_artist_id (track Sample.full_play)
  = artist_id (artist Sample.full_play)
  /\ (event_type Sample.full_play = PLAY ->
      is_Some (play_event Sample.full_play)).
Proof.
  apply (accepted_event_is_consistent Sample.only_datetimes
           (Sample.raw_event "play" 354000 (Some (Sample.raw_play 354000)))
           Sample.world1 Sample.full_play).
  vm_compute. reflexivity.
Defined.

(** X2. Every track that validation accepts is within the declared
    bounds: a duration that is not negative, a popularity between 0 and
    100, an energy and a valence between 0.0 and 1.0, a tempo that is not
    below 0.0, and a name of 1 to 300 characters. *)
Theorem accepted_track_is_within_bounds (data : gmap string pyval)
    (t : Track) :
  Track_new data = Valid t ->
  (forall d, track_duration_ms t = Some d -> 0 <= d)
  /\ (forall p, track_popularity t = Some p -> 0 <= p <= 100)
  /\ (forall f, track_energy t = Some f ->
                fle f0_0 f = true /\ fle f f1_0 = true)
  /\ (forall f, track_valence t = Some f ->
                fle f0_0 f = true /\ fle f f1_0 = true)
  /\ (forall f, track_tempo t = Some f -> fle f0_0 f = true)
  /\ 1 <= len (track_name t) <= 300.
Proof.
  unfold Track_new.
  destruct (required data "id" _) as [v_id|]; [|discriminate].
  destruct (required data "name" _) as [v_name|] eqn:Hname; [|discriminate].
  destruct (required data "artist_id" _) as [v_artist|]; [|discriminate].
  destruct (optional data "album_id" _) as [v_album|]; [|discriminate].
  destruct (optional data "duration_ms" _) as [v_duration|] eqn:Hduration;
    [|discriminate].
  destruct (defaulted data "explicit" _ _) as [v_explicit|]; [|discriminate].
  destruct (optional data "popularity" _) as [v_popularity|] eqn:Hpopularity;
    [|discriminate].
  destruct (optional data "energy" _) as [v_energy|] eqn:Henergy;
    [|discriminate].
  destruct (optional data "valence" _) as [v_valence|] eqn:Hvalence;
    [|discriminate].
  destruct (optional data "tempo" _) as [v_tempo|] eqn:Htempo;
    [|discriminate].
  destruct (defaulted data "genres" _ _) as [v_genres|]; [|discriminate].
  intros [= <-]. simpl. repeat split.
  - intros d ->. apply optional_valid_some in Hduration as (x & _ & Hx).
    now apply int_ge_valid in Hx.
  - subst v_popularity.
    apply optional_valid_some in Hpopularity as (x & _ & Hx).
    destruct (int_validator x >>> ge 0) as [z|] eqn:Hz; simpl in Hx;
      [|discriminate].
    apply int_ge_valid in Hz. now apply le_valid in Hx as [-> _].
  - subst v_popularity.
    apply optional_valid_some in Hpopularity as (x & _ & Hx).
    destruct (int_validator x >>> ge 0) as [z|] eqn:Hz; simpl in Hx;
      [|discriminate].
    now apply le_valid in Hx as [-> ?].
  - subst v_energy. apply optional_valid_some in Henergy as (x & _ & Hx).
    now apply unit_interval_valid in Hx.
  - subst v_energy. apply optional_valid_some in Henergy as (x & _ & Hx).
    now apply unit_interval_valid in Hx.
  - subst v_valence. apply optional_valid_some in Hvalence as (x & _ & Hx).
    now apply unit_interval_valid in Hx.
  - subst v_valence. apply optional_valid_some in Hvalence as (x & _ & Hx).
    now apply unit_interval_valid in Hx.
  - intros f ->. apply optional_valid_some in Htempo as (x & _ & Hx).
    destruct (float_validator x) as [f'|]; simpl in Hx; [|discriminate].
    now apply fge_valid in Hx as [-> ?].
  - apply name_field_accepts in Hname as (Hne & _ & _);
      [|apply (validate_name_accepts "Track name cannot be empty")].
    now apply nonempty_length.
  - apply required_valid in Hname as (x & _ & Hx).
    destruct (str_validator x) as [s|]; simpl in Hx; [|discriminate].
    destruct (min_length 1 s) as [s1|] eqn:H1; simpl in Hx; [|discriminate].
    destruct (max_length 300 s1) as [s2|] eqn:H2; simpl in Hx; [|discriminate].
    apply max_length_valid in H2 as [-> H2].
    unfold min_length in H1. destruct (1 <=? len s); [|discriminate].
    injection H1 as <-.
    apply validate_name_accepts in Hx as [-> _].
    pose proof (strip_length s). lia.
Qed.

Lemma accepted_track_is_within_bounds_witness :
  (forall d, track_duration_ms Fixtures.the_track = Some d -> 0 <= d)
  /\ (forall p, track_popularity Fixtures.the_track = Some p -> 0 <= p <= 100)
  /\ (forall f, track_energy Fixtures.the_track = Some f ->
                fle f0_0 f = true /\ fle f f1_0 = true)
  /\ (forall f, track_valence Fixtures.the_track = Some f ->
                fle f0_0 f = true /\ fle f f1_0 = true)
  /\ (forall f, track_tempo Fixtures.the_track = Some f -> fle f0_0 f = true)
  /\ 1 <= len (track_name Fixtures.the_track) <= 300.
Proof.
  apply (accepted_track_is_within_bounds Fixtures.track_fields
           Fixtures.the_track).
  vm_compute. reflexivity.
Defined.

Lemma accepted_name_length (msg : string) (n : Z) (data : gmap string pyval)
    (name : string) :
  required data "name" (fun x =>
    str_validator x >>> min_length 1 >>> max_length n
      >>> (fun v => if decide (strip v = "") then fail msg
                    else Valid (strip v))) = Valid name ->
  1 <= len name <= n.
Proof.
  intros Hname. split.
  - apply name_field_accepts in Hname as (Hne & _ & _);
      [|apply (validate_name_accepts msg)].
    now apply nonempty_length.
  - apply required_valid in Hname as (x & _ & Hx).
    destruct (str_validator x) as [s|]; simpl in Hx; [|discriminate].
    destruct (min_length 1 s) as [s1|] eqn:H1; simpl in Hx; [|discriminate].
    destruct (max_length n s1) as [s2|] eqn:H2; simpl in Hx; [|discriminate].
    apply max_length_valid in H2 as [-> H2].
    unfold min_length in H1. destruct (1 <=? len s); [|discriminate].
    injection H1 as <-.
    apply (validate_name_accepts msg) in Hx as [-> _].
    pose proof (strip_length s). lia.
Qed.

(** X3. Every artist that validation accepts has a number of followers that
    is not negative, a country code of at most two characters, and a name
    of 1 to 200 characters. *)
Theorem accepted_artist_is_within_bounds (data : gmap string pyval)
    (a : Artist) :
  Artist_new data = Valid a ->
  (forall n, artist_followers a = Some n -> 0 <= n)
  /\ (forall c, artist_country a = Some c -> len c <= 2)
  /\ 1 <= len (artist_name a) <= 200.
Proof.
  unfold Artist_new.
  destruct (required data "id" _) as [v_id|]; [|discriminate].
  destruct (required data "name" _) as [v_name|] eqn:Hname; [|discriminate].
  destruct (defaulted data "genres" _ _) as [v_genres|]; [|discriminate].
  destruct (optional data "followers" _) as [v_followers|] eqn:Hfollowers;
    [|discriminate].
  destruct (defaulted data "verified" _ _) as [v_verified|]; [|discriminate].
  destruct (optional data "country" _) as [v_country|] eqn:Hcountry;
    [|discriminate].
  intros [= <-]. simpl. split; [|split].
  - intros n ->. apply optional_valid_some in Hfollowers as (x & _ & Hx).
    now apply int_ge_valid in Hx.
  - intros c ->. apply optional_valid_some in Hcountry as (x & _ & Hx).
    now apply str_max_length_valid in Hx.
  - now apply (accepted_name_length "Artist name cannot be empty") in Hname.
Qed.

Lemma accepted_artist_is_within_bounds_witness :
  (forall n, artist_followers Fixtures.the_artist = Some n -> 0 <= n)
  /\ (forall c, artist_country Fixtures.the_artist = Some c -> len c <= 2)
  /\ 1 <= len (artist_name Fixtures.the_artist) <= 200.
Proof.
  apply (accepted_artist_is_within_bounds Fixtures.artist_fields
           Fixtures.the_artist).
  vm_compute. reflexivity.
Defined.

(** X4. Every album that validation accepts has at least one track, when
    it gives a track count, and a name of 1 to 300 characters. *)
Theorem accepted_album_is_within_bounds
    (parse_datetime : pyval -> option datetime) (data : gmap string pyval)
    (a : Album) :
  Album_new parse_datetime data = Valid a ->
  (forall n, album_track_count a = Some n -> 1 <= n)
  /\ 1 <= len (album_name a) <= 300.
Proof.
  unfold Album_new.
  destruct (required data "id" _) as [v_id|]; [|discriminate].
  destruct (required data "name" _) as [v_name|] eqn:Hname; [|discriminate].
  destruct (required data "artist_id" _) as [v_artist|]; [|discriminate].
  destruct (optional data "release_date" _) as [v_release|]; [|discriminate].
  destruct (optional data "track_count" _) as [v_count|] eqn:Hcount;
    [|discriminate].
  destruct (defaulted data "genres" _ _) as [v_genres|]; [|discriminate].
  intros [= <-]. simpl. split.
  - intros n ->. apply optional_valid_some in Hcount as (x & _ & Hx).
    now apply int_ge_valid in Hx.
  - now apply (accepted_name_length "Album name cannot be empty") in Hname.
Qed.

Lemma accepted_album_is_within_bounds_witness :
  (forall n, album_track_count Fixtures.the_album = Some n -> 1 <= n)
  /\ 1 <= len (album_name Fixtures.the_album) <= 300.
Proof.
  apply (accepted_album_is_within_bounds Sample.only_datetimes
           Fixtures.album_fields Fixtures.the_album).
  vm_compute. reflexivity.
Defined.

(** X5. Every play detail that validation accepts has a played duration
    that is not negative and one of the three repeat modes. *)
Theorem accepted_play_event_is_within_bounds (data : gmap string pyval)
    (pe : PlayEvent) :
  PlayEvent_new data = Valid pe ->
  0 <= played_duration_ms pe
  /\ repeat_mode pe ∈ ["off"; "track"; "context"].
Proof.
  unfold PlayEvent_new.
  destruct (required data "played_duration_ms" _) as [v_played|] eqn:Hplayed;
    [|discriminate].
  destruct (optional data "skip_reason" _) as [v_skip|]; [|discriminate].
  destruct (optional data "playlist_id" _) as [v_playlist|]; [|discriminate].
  destruct (defaulted data "shuffle_mode" _ _) as [v_shuffle|];
    [|discriminate].
  destruct (defaulted data "repeat_mode" _ _) as [v_repeat|] eqn:Hrepeat;
    [|discriminate].
  intros [= <-]. simpl. split.
  - apply required_valid in Hplayed as (x & _ & Hx).
    now apply int_ge_valid in Hx.
  - apply defaulted_valid in Hrepeat as [[_ ->]|(x & _ & Hx)];
      [apply list_elem_of_here|].
    destruct (str_validator x) as [s|]; simpl in Hx; [|discriminate].
    unfold validate_repeat_mode in Hx.
    destruct (str_in s valid_modes) eqn:Hin; simpl in Hx; [|discriminate].
    injection Hx as <-. unfold str_in, valid_modes in Hin. simpl in Hin.
    rewrite !elem_of_cons.
    destruct (String.eqb_spec s "off"); [now left|].
    destruct (String.eqb_spec s "track"); [right; now left|].
    destruct (String.eqb_spec s "context"); [right; right; now left|].
    discriminate.
Qed.

Lemma accepted_play_event_is_within_bounds_witness :
  0 <= played_duration_ms Fixtures.the_bare_play
  /\ repeat_mode Fixtures.the_bare_play ∈ ["off"; "track"; "context"].
Proof.
  apply (accepted_play_event_is_within_bounds Fixtures.bare_play_fields
           Fixtures.the_bare_play).
  vm_compute. reflexivity.
Defined.

(** X6. Every user context that validation accepts has a location code of
    at most two characters, and every streaming detail a bandwidth and a
    number of buffer events that are not negative. *)
Theorem accepted_context_is_within_bounds (user_data streaming_data
    : gmap string pyval) (u : UserInteraction) (s : StreamingEvent) :
  UserInteraction_new user_data = Valid u ->
  StreamingEvent_new streaming_data = Valid s ->
  (forall c, location u = Some c -> len c <= 2)
  /\ (forall n, bandwidth_kbps s = Some n -> 0 <= n)
  /\ (forall n, buffer_events s = Some n -> 0 <= n).
Proof.
  unfold UserInteraction_new, StreamingEvent_new.
  destruct (required user_data "user_id" _) as [v_user|]; [|discriminate].
  destruct (required user_data "session_id" _) as [v_session|];
    [|discriminate].
  destruct (optional user_data "device_type" _) as [v_device|];
    [|discriminate].
  destruct (optional user_data "location" _) as [v_location|] eqn:Hlocation;
    [|discriminate].
  destruct (optional user_data "subscription_type" _) as [v_subscription|];
    [|discriminate].
  destruct (optional user_data "user_age_group" _) as [v_age|];
    [|discriminate].
  intros [= <-].
  destruct (required streaming_data "platform" _) as [v_platform|];
    [|discriminate].
  destruct (optional streaming_data "stream_quality" _) as [v_quality|];
    [|discriminate].
  destruct (optional streaming_data "bandwidth_kbps" _) as [v_bandwidth|]
    eqn:Hbandwidth; [|discriminate].
  destruct (optional streaming_data "buffer_events" _) as [v_buffer|]
    eqn:Hbuffer; [|discriminate].
  intros [= <-]. simpl. split; [|split].
  - intros c ->. apply optional_valid_some in Hlocation as (x & _ & Hx).
    now apply str_max_length_valid in Hx.
  - intros n ->. apply optional_valid_some in Hbandwidth as (x & _ & Hx).
    now apply int_ge_valid in Hx.
  - intros n ->. apply optional_valid_some in Hbuffer as (x & _ & Hx).
    now apply int_ge_valid in Hx.
Qed.

Lemma accepted_context_is_within_bounds_witness :
  (forall c, location Fixtures.the_user = Some c -> len c <= 2)
  /\ (forall n, bandwidth_kbps Fixtures.the_streaming = Some n -> 0 <= n)
  /\ (forall n, buffer_events Fixtures.the_streaming = Some n -> 0 <= n).
Proof.
  apply (accepted_context_is_within_bounds Fixtures.user_fields
           Fixtures.streaming_fields Fixtures.the_user
           Fixtures.the_streaming); vm_compute; reflexivity.
Defined.

(** ** The enriched event *)

(** X9. An enriched event is accepted only from a record that [MusicEvent]
    accepts too, and then extends that very event; its description has at
    most 1000 characters and its confidence lies between 0.0 and 1.0. *)
Theorem accepted_enrichment_extends_an_accepted_event
    (parse_datetime : pyval -> option datetime) (data : gmap string pyval)
    (w : World) (e : Enriched.EnrichedMusicEvent) :
  fst (Enriched.EnrichedMusicEvent_new parse_datetime data w) = Valid e ->
  fst (MusicEvent_new parse_datetime data w) = Valid (Enriched.base e)
  /\ (forall d, Enriched.enhanced_description e = Some d -> len d <= 1000)
  /\ (forall c, Enriched.enrichment_confidence e = Some c ->
                fle f0_0 c = true /\ fle c f1_0 = true).
Proof.
  unfold Enriched.EnrichedMusicEvent_new, MusicEvent_new.
  destruct (produced data "event_id" uuid4 str_validator w) as [o1 w1].
  destruct (produced data "timestamp" utcnow _ w1) as [o2 w2].
  destruct (produced data "processing_timestamp" utcnow _ w2) as [o3 w3].
  destruct (produced data "enrichment_timestamp" utcnow _ w3) as [o4 w4].
  cbn [fst].
  destruct o1 as [v_event_id|]; [|discriminate].
  destruct (required data "event_type" _) as [v_event_type|]; [|discriminate].
  destruct o2 as [v_timestamp|]; [|discriminate].
  destruct (required data "track" _) as [v_track|]; [|discriminate].
  destruct (required data "artist" _) as [v_artist|]; [|discriminate].
  destruct (optional data "album" _) as [v_album|]; [|discriminate].
  destruct (required data "user_interaction" _) as [v_user|]; [|discriminate].
  destruct (optional data "play_event" _) as [v_play|]; [|discriminate].
  destruct (required data "streaming_event" _) as [v_streaming|];
    [|discriminate].
  destruct (optional data "raw_data" _) as [v_raw|]; [|discriminate].
  destruct o3 as [v_processing|]; [|discriminate].
  destruct (optional data "enhanced_description" _) as [v_description|]
    eqn:Hdescription; [|discriminate].
  destruct (optional data "mood_analysis" _) as [v_mood|]; [|discriminate].
  destruct (optional data "genre_prediction" _) as [v_prediction|];
    [|discriminate].
  destruct (optional data "similar_tracks" _) as [v_similar|];
    [|discriminate].
  destruct (optional data "listening_context" _) as [v_context|];
    [|discriminate].
  destruct o4 as [v_enrichment|]; [|discriminate].
  destruct (defaulted data "enrichment_model" _ _) as [v_model|];
    [|discriminate].
  destruct (optional data "enrichment_confidence" _) as [v_confidence|]
    eqn:Hconfidence; [|discriminate].
  destruct (validate_event_consistency _ _ _ _); [discriminate|].
  intros [= <-]. simpl. split; [reflexivity|]. split.
  - intros d ->. apply optional_valid_some in Hdescription as (x & _ & Hx).
    destruct (str_validator x) as [s|]; simpl in Hx; [|discriminate].
    unfold Enriched.validate_description_length in Hx.
    destruct (Z.ltb_spec 1000 (len s)) as [Hlong|Hshort].
    + destruct s; simpl in Hx; [|discriminate].
      injection Hx as <-. vm_compute. discriminate.
    + rewrite andb_false_r in Hx. now injection Hx as <-.
  - intros c ->. apply optional_valid_some in Hconfidence as (x & _ & Hx).
    now apply unit_interval_valid in Hx.
Qed.

Lemma accepted_enrichment_extends_an_accepted_event_witness :
  fst (MusicEvent_new Sample.only_datetimes Fixtures.enriched_event
         Sample.world1) = Valid (Enriched.base Fixtures.the_enriched)
  /\ (forall d, Enriched.enhanced_description Fixtures.the_enriched = Some d ->
                len d <= 1000)
  /\ (forall c, Enriched.enrichment_confidence Fixtures.the_enriched = Some c ->
                fle f0_0 c = true /\ fle c f1_0 = true).
Proof.
  apply (accepted_enrichment_extends_an_accepted_event Sample.only_datetimes
           Fixtures.enriched_event Sample.world1 Fixtures.the_enriched).
  vm_compute. reflexivity.
Defined.

(** ** Rejection by the root validator *)

Lemma holds_required {A : Type} (new : gmap string pyval -> outcome A)
    (data : gmap string pyval) (k : string) (a : A) :
  holds new data k a -> required data k (model_validator new) = Valid a.
Proof. intros (m & Hk & Hm). unfold required. rewrite Hk. simpl. now rewrite Hm. Qed.

(** X10. A record whose track names another artist than the record's
    artist is rejected, whatever its other fields hold, and the last
    failure reported is the one of the root validator. *)
Theorem mismatched_artist_is_rejected
    (parse_datetime : pyval -> option datetime) (data : gmap string pyval)
    (w : World) (t : Track) (a : Artist) :
  holds Track_new data "track" t ->
  holds Artist_new data "artist" a ->
  track_artist_id t <> artist_id a ->
  exists errors msg,
    fst (MusicEvent_new parse_datetime data w)
    = Invalid (errors ++ [([Key "__root__"], msg)]).
Proof.
  intros Ht Ha Hne. apply holds_required in Ht, Ha.
  unfold MusicEvent_new. rewrite Ht, Ha.
  destruct (produced data "event_id" uuid4 str_validator w) as [o1 w1].
  destruct (produced data "timestamp" utcnow _ w1) as [o2 w2].
  destruct (produced data "processing_timestamp" utcnow _ w2) as [o3 w3].
  cbn [fst value_of].
  assert (exists msg, validate_event_consistency
            (value_of (required data "event_type"
               (enum_validator EventType_value EventType_members)))
            (mjoin (value_of (optional data "play_event"
               (model_validator PlayEvent_new)))) (Some t) (Some a)
          = Some msg) as [msg ->].
  { unfold validate_event_consistency.
    destruct (_ && _); [eauto|].
    destruct (String.eqb_spec (track_artist_id t) (artist_id a));
      [contradiction|]. simpl. eauto. }
  destruct o1, (required data "event_type" _), o2, (optional data "album" _),
    (required data "user_interaction" _), (optional data "play_event" _),
    (required data "streaming_event" _), (optional data "raw_data" _), o3;
    cbn [errors_of root_errors app];
    eexists _, msg; rewrite ?app_assoc; try reflexivity;
    (change [([Key "__root__"], msg)] with ([] ++ [([Key "__root__"], msg)]) at 1;
     reflexivity).
Qed.

Lemma mismatched_artist_is_rejected_witness :
  exists errors msg,
    fst (MusicEvent_new Sample.only_datetimes Fixtures.mismatched_event
           Sample.world1)
    = Invalid (errors ++ [([Key "__root__"], msg)]).
Proof.
  apply (mismatched_artist_is_rejected Sample.only_datetimes
           Fixtures.mismatched_event Sample.world1 Fixtures.the_track
           Fixtures.the_other_artist).
  - exists Fixtures.track_fields. split; vm_compute; reflexivity.
  - exists Fixtures.other_artist_fields. split; vm_compute; reflexivity.
  - vm_compute. discriminate.
Defined.

(* ===================================================================== *)
(** * Further properties of the streaming pipeline                        *)
(* ===================================================================== *)

(** ** ParseMusicEvent *)

(** X11. [ParseMusicEvent.process] counts every message exactly once: it
    yields at most one event, the success counter grows by the number of
    events yielded, the error counter by one when none is yielded, and a
    log record is written exactly when the error counter grows. *)
Theorem every_message_is_counted_once
    (decode_utf8 : list Byte.byte -> option string)
    (json_loads : string -> option pyval)
    (parse_datetime : pyval -> option datetime)
    (message : list Byte.byte) (st : ParseState) (w : World) :
  let '(out, st', _) :=
    ParseMusicEvent_process decode_utf8 json_loads parse_datetime
      message st w in
  (length out <= 1)%nat
  /\ events_parsed_success st' = (events_parsed_success st + length out)%nat
  /\ (events_parsed_error st' + length out)%nat = S (events_parsed_error st)
  /\ (length (log st') + length out)%nat = S (length (log st)).
Proof.
  unfold ParseMusicEvent_process.
  destruct (parse decode_utf8 json_loads parse_datetime message w)
    as [[f|music_event] w']; [destruct f|]; simpl;
    rewrite ?length_app; simpl; lia.
Qed.

(** ** The derived fields, as [SimpleMusicProcessor] computes them *)

Lemma weekday_range (d : datetime) : 0 <= weekday d <= 6.
Proof. unfold weekday. pose proof (Z.mod_pos_bound (toordinal d + 6) 7). lia. Qed.

(** What [SimpleMusicProcessor._calculate_derived_fields] returns, field
    by field. *)
Lemma derived_fields_unfolded (event : MusicEvent) (d : derived_fields) :
  Simple._calculate_derived_fields event = OK d ->
  exists engagement,
    Simple._calculate_engagement_score event = OK engagement
    /\ hour_of_day d = Some (hour (timestamp event))
    /\ day_of_week d = Some (weekday (timestamp event))
    /\ is_weekend d = Some (5 <=? weekday (timestamp event))
    /\ Pipeline.month d = Some (Py.month (timestamp event))
    /\ Pipeline.year d = Some (Py.year (timestamp event))
    /\ engagement_score d = Some engagement
    /\ platform_category d
       = Some (_categorize_platform
                 (Platform_value (platform (streaming_event event))))
    /\ match truthy (track_duration_ms (track event)) with
       | Some duration_ms =>
           exists duration_seconds,
             int_truediv duration_ms 1000 = OK duration_seconds
             /\ track_duration_seconds d = Some duration_seconds
             /\ is_long_track d = Some (flt f300 duration_seconds)
             /\ is_short_track d = Some (flt duration_seconds f120)
       | None =>
           track_duration_seconds d = None /\ is_long_track d = None
           /\ is_short_track d = None
       end
    /\ match play_event event, truthy (track_duration_ms (track event)) with
       | Some pe, Some duration_ms =>
           exists play_ratio,
             int_truediv (played_duration_ms pe) duration_ms = OK play_ratio
             /\ play_completion_ratio d = Some (min2 play_ratio f1_0)
             /\ is_full_play d = Some (fle f0_8 play_ratio)
             /\ is_skip d = Some (flt play_ratio f0_3)
       | _, _ =>
           play_completion_ratio d = None /\ is_full_play d = None
           /\ is_skip d = None
       end.
Proof.
  unfold Simple._calculate_derived_fields.
  rewrite guarded_platform, simple_categorize_platform.
  remember (Simple._calculate_engagement_score event) as score eqn:Hscore.
  destruct (truthy (track_duration_ms (track event))) as [duration_ms|];
    [destruct (int_truediv duration_ms 1000) as [duration_seconds|];
       [|discriminate]|];
    (destruct (play_event event) as [pe|];
       [try (destruct (int_truediv (played_duration_ms pe) duration_ms)
               as [play_ratio|]; [|discriminate])|]);
    (destruct score as [engagement|]; [|discriminate]);
    intros [= <-]; exists engagement; simpl; repeat split; eauto 10.
Qed.

(** X12. The time fields of a record that [SimpleMusicProcessor] derives:
    the day of the week lies between 0 (Monday) and 6 (Sunday), and the
    weekend flag is set exactly on days 5 and 6. *)
Theorem weekend_is_saturday_and_sunday (event : MusicEvent)
    (d : derived_fields) :
  Simple._calculate_derived_fields event = OK d ->
  exists k,
    day_of_week d = Some k /\ 0 <= k <= 6
    /\ is_weekend d = Some (bool_decide (k = 5 \/ k = 6)).
Proof.
  intros H. apply derived_fields_unfolded in H
    as (engagement & _ & _ & Hday & Hweekend & _).
  exists (weekday (timestamp event)). split; [exact Hday|].
  pose proof (weekday_range (timestamp event)) as Hrange.
  split; [exact Hrange|]. rewrite Hweekend. f_equal.
  destruct (Z.leb_spec 5 (weekday (timestamp event))).
  - symmetry. apply bool_decide_eq_true_2. lia.
  - symmetry. apply bool_decide_eq_false_2. lia.
Qed.

Lemma weekend_is_saturday_and_sunday_witness :
  exists k,
    day_of_week Fixtures.the_derived = Some k /\ 0 <= k <= 6
    /\ is_weekend Fixtures.the_derived = Some (bool_decide (k = 5 \/ k = 6)).
Proof.
  apply (weekend_is_saturday_and_sunday Fixtures.the_event
           Fixtures.the_derived).
  vm_compute. reflexivity.
Defined.

Lemma min2_never_above (r bound : float) :
  flt bound bound = false -> flt bound (min2 r bound) = false.
Proof.
  intros Hbound. unfold min2. now destruct (flt bound r) eqn:H.
Qed.

Lemma full_play_excludes_skip (r : float) :
  fle f0_8 r = true -> flt r f0_3 = false.
Proof.
  unfold fle, flt, SFleb, SFltb, f0_8, f0_3.
  destruct r as [s|s| |s m e]; try (destruct s); cbn [SFcompare];
    try congruence.
  destruct (Z.compare_spec (-53) e), (Z.compare_spec e (-54));
    try lia; congruence.
Qed.

Lemma long_track_excludes_short (s : float) :
  flt f300 s = true -> flt s f120 = false.
Proof.
  unfold flt, SFltb, f300, f120.
  destruct s as [sg|sg| |sg m e]; try (destruct sg); cbn [SFcompare];
    try congruence.
  destruct (Z.compare_spec (-44) e), (Z.compare_spec e (-46));
    try lia; congruence.
Qed.

(** X13. The completion fields of a record that [SimpleMusicProcessor]
    derives are consistent: the completion ratio is never above 1.0, a
    record is never flagged both as a full play and as a skip, and never
    both as a long and as a short track. *)
Theorem completion_flags_are_consistent (event : MusicEvent)
    (d : derived_fields) :
  Simple._calculate_derived_fields event = OK d ->
  (forall r, play_completion_ratio d = Some r -> flt f1_0 r = false)
  /\ ~ (is_full_play d = Some true /\ is_skip d = Some true)
  /\ ~ (is_long_track d = Some true /\ is_short_track d = Some true).
Proof.
  intros H. apply derived_fields_unfolded in H
    as (engagement & _ & _ & _ & _ & _ & _ & _ & _ & Hduration & Hplay).
  split; [|split].
  - intros r Hr.
    destruct (play_event event) as [pe|],
      (truthy (track_duration_ms (track event))) as [duration_ms|];
      try (destruct Hplay as (Hnone & _); congruence).
    destruct Hplay as (play_ratio & _ & Hratio & _).
    rewrite Hratio in Hr. injection Hr as <-. now apply min2_never_above.
  - intros [Hfull Hskip].
    destruct (play_event event) as [pe|],
      (truthy (track_duration_ms (track event))) as [duration_ms|];
      try (destruct Hplay as (_ & Hnone & _); congruence).
    destruct Hplay as (play_ratio & _ & _ & Hf & Hs).
    rewrite Hf in Hfull. rewrite Hs in Hskip.
    injection Hfull as Hfull. injection Hskip as Hskip.
    apply full_play_excludes_skip in Hfull. congruence.
  - intros [Hlong Hshort].
    destruct (truthy (track_duration_ms (track event))) as [duration_ms|];
      [|destruct Hduration as (_ & Hnone & _); congruence].
    destruct Hduration as (duration_seconds & _ & _ & Hl & Hs).
    rewrite Hl in Hlong. rewrite Hs in Hshort.
    injection Hlong as Hlong. injection Hshort as Hshort.
    apply long_track_excludes_short in Hlong. congruence.
Qed.

Lemma completion_flags_are_consistent_witness :
  (forall r, play_completion_ratio Fixtures.the_derived = Some r ->
             flt f1_0 r = false)
  /\ ~ (is_full_play Fixtures.the_derived = Some true
        /\ is_skip Fixtures.the_derived = Some true)
  /\ ~ (is_long_track Fixtures.the_derived = Some true
        /\ is_short_track Fixtures.the_derived = Some true).
Proof.
  apply (completion_flags_are_consistent Fixtures.the_event
           Fixtures.the_derived).
  vm_compute. reflexivity.
Defined.

Lemma truthy_is_Some (o : option Z) :
  is_Some (truthy o) <-> exists z, o = Some z /\ z <> 0.
Proof.
  unfold truthy. destruct o as [z|].
  - destruct (Z.eqb_spec z 0) as [->|Hz]; split.
    + intros [? [=]].
    + intros (z & [= <-] & Hz). contradiction.
    + eauto.
    + eauto.
  - split; [intros [? [=]]|intros (z & [=] & _)].
Qed.

Lemma present_iff {A : Type} (x : A) (P : Prop) :
  P -> (is_Some (Some x) <-> P).
Proof. intros HP. split; [intros _; exact HP|intros _; eauto]. Qed.

Lemma absent_iff {A : Type} (P : Prop) :
  ~ P -> (is_Some (@None A) <-> P).
Proof. intros HP. split; [intros [? [=]]|intros ?; contradiction]. Qed.

(** X14. Which keys a record that [SimpleMusicProcessor] derives holds:
    the time fields, the engagement score and the platform category
    always; the three duration fields exactly when the track has a
    duration other than zero; the three completion fields exactly when,
    moreover, the event has a play detail. *)
Theorem derived_keys_follow_the_event (event : MusicEvent)
    (d : derived_fields) :
  Simple._calculate_derived_fields event = OK d ->
  let timed := exists z, track_duration_ms (track event) = Some z /\ z <> 0 in
  let played := is_Some (play_event event) /\ timed in
  (is_Some (hour_of_day d) /\ is_Some (day_of_week d)
   /\ is_Some (is_weekend d) /\ is_Some (Pipeline.month d)
   /\ is_Some (Pipeline.year d) /\ is_Some (engagement_score d)
   /\ is_Some (platform_category d))
  /\ ((is_Some (track_duration_seconds d) <-> timed)
      /\ (is_Some (is_long_track d) <-> timed)
      /\ (is_Some (is_short_track d) <-> timed))
  /\ ((is_Some (play_completion_ratio d) <-> played)
      /\ (is_Some (is_full_play d) <-> played)
      /\ (is_Some (is_skip d) <-> played)).
Proof.
  intros H timed played. apply derived_fields_unfolded in H
    as (engagement & _ & -> & -> & -> & -> & -> & -> & -> & Hduration & Hplay).
  split; [repeat split; eauto|].
  assert (Htimed : is_Some (truthy (track_duration_ms (track event)))
                   <-> timed) by apply truthy_is_Some.
  split.
  - destruct (truthy (track_duration_ms (track event))) as [duration_ms|].
    + destruct Hduration as (duration_seconds & _ & -> & -> & ->).
      assert timed by (apply Htimed; eauto).
      split; [|split]; now apply present_iff.
    + destruct Hduration as (-> & -> & ->).
      assert (~ timed) by (rewrite <- Htimed; now intros [? [=]]).
      split; [|split]; now apply absent_iff.
  - unfold played.
    destruct (play_event event) as [pe|],
      (truthy (track_duration_ms (track event))) as [duration_ms|].
    + destruct Hplay as (play_ratio & _ & -> & -> & ->).
      assert timed by (apply Htimed; eauto).
      split; [|split]; apply present_iff; eauto.
    + destruct Hplay as (-> & -> & ->).
      assert (~ timed) by (rewrite <- Htimed; now intros [? [=]]).
      split; [|split]; apply absent_iff; now intros [_ ?].
    + destruct Hplay as (-> & -> & ->).
      split; [|split]; apply absent_iff; now intros [[? [=]] _].
    + destruct Hplay as (-> & -> & ->).
      split; [|split]; apply absent_iff; now intros [[? [=]] _].
Qed.

Lemma derived_keys_follow_the_event_witness :
  is_Some (play_completion_ratio Fixtures.the_derived)
  <-> is_Some (play_event Fixtures.the_event)
      /\ exists z, track_duration_ms (track Fixtures.the_event) = Some z
                   /\ z <> 0.
Proof.
  apply (derived_keys_follow_the_event Fixtures.the_event
           Fixtures.the_derived).
  vm_compute. reflexivity.
Defined.

(** X15. Without play detail the engagement score that
    [SimpleMusicProcessor] computes takes one of three values: 0.9 for a
    like, a share or an addition to a playlist, 0.3 for a skip, and 0.5
    for every other kind of event. *)
Theorem engagement_score_without_play_detail (event : MusicEvent) :
  play_event event = None ->
  Simple._calculate_engagement_score event
  = OK match event_type event with
       | LIKE | SHARE | PLAYLIST_ADD => Analytics.f0_9
       | SKIP => f0_3
       | PLAY | DOWNLOAD | SEARCH => f0_5
       end.
Proof.
  intros Hplay.
  unfold Simple._calculate_engagement_score, Simple.value_or_str,
    event_type_attr.
  rewrite Hplay.
  destruct (event_type event); vm_compute; reflexivity.
Qed.

Lemma engagement_score_without_play_detail_witness :
  Simple._calculate_engagement_score Sample.a_like = OK Analytics.f0_9.
Proof.
  apply (engagement_score_without_play_detail Sample.a_like).
  vm_compute. reflexivity.
Defined.

(** ** EnrichEventMetadata *)

(** X16. [EnrichEventMetadata.process] yields no row, whatever the event
    that validation built: the derivation raises, the failure is logged
    once under the identifier of the event, the counter of enriched events
    is left alone, and the conversion in the [except] clause raises
    [AttributeError], which leaves the generator uncaught. *)
Theorem enrichment_yields_no_row (event : MusicEvent) (st : EnrichState) :
  exists e,
    (e = AttributeError \/ e = OverflowError)
    /\ _calculate_derived_fields event = Raise e
    /\ EnrichEventMetadata_process event st
       = (Raise AttributeError,
          {| events_enriched := events_enriched st;
             failed_to_enrich :=
               failed_to_enrich st ++ [(event_id event, e)] |}).
Proof.
  unfold EnrichEventMetadata_process.
  destruct (derived_fields_raise event) as [H | H]; rewrite H; simpl; eauto.
Qed.

(** ** AggregateEventMetrics *)

Lemma count_distinct_le_length (l : list string) :
  count_distinct l <= Z.of_nat (length l).
Proof.
  unfold count_distinct. apply inj_le.
  induction l as [|x l IH].
  - rewrite list_to_set_nil, size_empty. simpl. lia.
  - rewrite list_to_set_cons, size_union_alt, size_singleton.
    assert (size (list_to_set l ∖ {[x]} : gset string)
            <= size (list_to_set l : gset string))%nat as Hsub
      by (apply subseteq_size, subseteq_difference_l; reflexivity).
    simpl. lia.
Qed.

Lemma count_distinct_positive (x : string) (l : list string) :
  1 <= count_distinct (x :: l).
Proof.
  unfold count_distinct. rewrite list_to_set_cons.
  assert (size ({[x]} : gset string)
          <= size ({[x]} ∪ list_to_set l : gset string))%nat as H
    by (apply subseteq_size, union_subseteq_l).
  rewrite size_singleton in H. lia.
Qed.

(** X17. An empty window yields no aggregate and leaves the clock unread.
    A window that is not empty yields exactly one aggregate and reads the
    clock once.  The aggregate counts every row, and between one and that
    many distinct users and distinct tracks; its window bounds are
    timestamps of rows of the window, and every row's timestamp lies
    between them in the order of strings. *)
Theorem a_window_yields_one_aggregate (first : Row.t) (rest : list Row.t)
    (w : World) :
  AggregateEventMetrics_process [] w = ([], w)
  /\ exists a,
       AggregateEventMetrics_process (first :: rest) w = ([a], snd (utcnow w))
       /\ total_events a = Z.of_nat (length (first :: rest))
       /\ 1 <= unique_users a <= total_events a
       /\ 1 <= unique_tracks a <= total_events a
       /\ window_start a ∈ map Row.timestamp (first :: rest)
       /\ window_end a ∈ map Row.timestamp (first :: rest)
       /\ forall row, row ∈ first :: rest ->
            String.ltb (Row.timestamp row) (window_start a) = false
            /\ String.ltb (window_end a) (Row.timestamp row) = false.
Proof.
  split; [reflexivity|].
  eexists. split; [reflexivity|].
  cbn [total_events unique_users unique_tracks window_start window_end].
  split; [reflexivity|].
  split; [split|].
  { apply count_distinct_positive. }
  { rewrite <- (length_map Row.user_id (first :: rest)).
    apply count_distinct_le_length. }
  split; [split|].
  { apply count_distinct_positive. }
  { rewrite <- (length_map Row.track_id (first :: rest)).
    apply count_distinct_le_length. }
  destruct (str_min_spec (Row.timestamp first) (map Row.timestamp rest))
    as [Hmin_in Hmin].
  destruct (str_max_spec (Row.timestamp first) (map Row.timestamp rest))
    as [Hmax_in Hmax].
  split; [exact Hmin_in|]. split; [exact Hmax_in|].
  intros row Hrow.
  apply (list_elem_of_fmap_2 Row.timestamp) in Hrow.
  split; [now apply Hmin|now apply Hmax].
Qed.

Lemma occurrences_positive (k : string) (keys : list string) :
  k ∈ keys <-> 0 < occurrences k keys.
Proof.
  unfold occurrences. split.
  - intros Hin. assert (k ∈ filter (fun x => x = k) keys) as H
      by (apply list_elem_of_filter; auto).
    destruct (filter _ keys); [inversion H|simpl; lia].
  - intros H. destruct (filter (fun x => x = k) keys) as [|y l] eqn:Hf;
      [simpl in H; lia|].
    assert (y ∈ filter (fun x => x = k) keys) as Hy
      by (rewrite Hf; apply list_elem_of_here).
    apply list_elem_of_filter in Hy as [-> Hy]. exact Hy.
Qed.

(** The counts after the loop, from the counts before it. *)
Lemma count_loop_lookup (keys : list string) (counts : gmap string Z)
    (k : string) :
  fold_left (fun counts k => <[k := default 0 (counts !! k) + 1]> counts)
            keys counts !! k
  = if decide (k ∈ keys) then Some (default 0 (counts !! k) + occurrences k keys)
    else counts !! k.
Proof.
  revert counts. induction keys as [|x keys IH]; intros counts;
    cbn [fold_left].
  - destruct (decide (k ∈ [])) as [H|_]; [inversion H|reflexivity].
  - rewrite IH. unfold occurrences. rewrite filter_cons.
    destruct (decide (x = k)) as [->|Hx].
    + rewrite lookup_insert_eq. cbn [length]. rewrite Nat2Z.inj_succ.
      unfold default at 1. cbn [from_option id].
      destruct (decide (k ∈ k :: keys)) as [_|Hn];
        [|exfalso; apply Hn, list_elem_of_here].
      destruct (decide (k ∈ keys)) as [Hin|Hout]; f_equal.
      * lia.
      * pose proof (occurrences_positive k keys) as Hocc.
        unfold occurrences in Hocc.
        assert (~ 0 < Z.of_nat (length (filter (fun x => x = k) keys)))
          by (rewrite <- Hocc; exact Hout).
        lia.
    + rewrite lookup_insert_ne by exact Hx.
      destruct (decide (k ∈ keys)) as [Hin|Hout];
        destruct (decide (k ∈ x :: keys)) as [Hin'|Hout']; try reflexivity.
      * exfalso. apply Hout'. now apply list_elem_of_further.
      * exfalso. apply elem_of_cons in Hin' as [->|?]; contradiction.
Qed.

Lemma count_by_lookup (keys : list string) (k : string) :
  count_by keys !! k
  = if decide (k ∈ keys) then Some (occurrences k keys) else None.
Proof.
  unfold count_by. rewrite count_loop_lookup, lookup_empty. simpl.
  destruct (decide (k ∈ keys)); [f_equal; lia|reflexivity].
Qed.

Lemma sum_of_counts_insert (counts : gmap string Z) (k : string) (n : Z) :
  sum_of_counts (<[k := n]> counts)
  = sum_of_counts counts - default 0 (counts !! k) + n.
Proof.
  unfold sum_of_counts.
  assert (Hfresh : forall (m : gmap string Z) (x : Z),
            m !! k = None ->
            map_fold (fun _ n acc => n + acc) 0 (<[k := x]> m)
            = x + map_fold (fun _ n acc => n + acc) 0 m).
  { intros m x Hm. apply (map_fold_insert_L (fun _ n acc => n + acc));
      [intros; lia|exact Hm]. }
  destruct (counts !! k) as [v|] eqn:Hk; simpl.
  - rewrite <- (insert_delete_id counts k v Hk) at 2.
    rewrite <- (insert_delete_eq counts k n).
    rewrite !Hfresh by apply lookup_delete_eq. lia.
  - rewrite Hfresh by exact Hk. lia.
Qed.

Lemma count_loop_sum (keys : list string) (counts : gmap string Z) :
  sum_of_counts (fold_left (fun counts k => <[k := default 0 (counts !! k) + 1]> counts)
                   keys counts)
  = sum_of_counts counts + Z.of_nat (length keys).
Proof.
  revert counts. induction keys as [|x keys IH]; intros counts; simpl.
  - lia.
  - rewrite IH, sum_of_counts_insert. lia.
Qed.

Lemma count_by_sum (keys : list string) :
  sum_of_counts (count_by keys) = Z.of_nat (length keys).
Proof.
  unfold count_by. rewrite count_loop_sum. unfold sum_of_counts.
  now rewrite map_fold_empty.
Qed.

(** X18. The two distributions of an aggregate map each platform (resp.
    kind of event) of the window to the number of rows that carry it, hold
    no other key, and their counts add up to the number of rows. *)
Theorem distributions_count_the_rows (first : Row.t) (rest : list Row.t)
    (w : World) :
  exists a,
    fst (AggregateEventMetrics_process (first :: rest) w) = [a]
    /\ (forall k n, platform_distribution a !! k = Some n <->
          0 < n /\ n = occurrences k (map Row.platform (first :: rest)))
    /\ (forall k n, event_type_distribution a !! k = Some n <->
          0 < n /\ n = occurrences k (map Row.event_type (first :: rest)))
    /\ sum_of_counts (platform_distribution a) = total_events a
    /\ sum_of_counts (event_type_distribution a) = total_events a.
Proof.
  assert (Hlookup : forall keys k n,
            count_by keys !! k = Some n
            <-> 0 < n /\ n = occurrences k keys).
  { intros keys k n. rewrite count_by_lookup.
    destruct (decide (k ∈ keys)) as [Hin|Hout].
    - apply occurrences_positive in Hin. split.
      + intros [= <-]. auto.
      + intros [_ ->]. reflexivity.
    - split; [discriminate|]. intros [Hn ->].
      now apply occurrences_positive in Hn. }
  eexists. split; [apply aggregate_of_window|].
  cbn [platform_distribution event_type_distribution total_events].
  split; [apply Hlookup|]. split; [apply Hlookup|].
  rewrite !count_by_sum, !length_map. split; reflexivity.
Qed.

(* ===================================================================== *)
(** * Properties of the per-element transforms of the Dataflow pipeline   *)
(* ===================================================================== *)

(** ** MusicEventProcessor *)

Lemma extract_analytics_keys (event : pyval) (w : World)
    (analytics : gmap string pyval) (w' : World) :
  Analytics.extract_analytics event w = (Analytics.OK analytics, w') ->
  w' = snd (utcnow w)
  /\ exists m, event = PDict m
     /\ analytics !! "event_id" = Some (Analytics.get m "event_id")
     /\ analytics !! "event_type" = Some (Analytics.get m "event_type")
     /\ analytics !! "timestamp" = Some (Analytics.get m "timestamp")
     /\ Analytics.event_get2 event "track" "title"
        = Analytics.OK (default PNone (analytics !! "track_title"))
     /\ Analytics.event_get2 event "artist" "name"
        = Analytics.OK (default PNone (analytics !! "artist_name"))
     /\ Analytics.event_get2 event "track" "genre"
        = Analytics.OK (default PNone (analytics !! "genre"))
     /\ Analytics.event_get2 event "streaming_event" "platform"
        = Analytics.OK (default PNone (analytics !! "platform"))
     /\ Analytics.event_get2 event "user_interaction" "location"
        = Analytics.OK (default PNone (analytics !! "user_location"))
     /\ analytics !! "processing_time"
        = Some (PStr (isoformat (fst (utcnow w))))
     /\ dom analytics
        = list_to_set ["event_id"; "event_type"; "track_title"; "artist_name";
                       "genre"; "platform"; "user_location"; "timestamp";
                       "processing_time"].
Proof.
  unfold Analytics.extract_analytics.
  destruct event as [| | | | | | |m]; try discriminate.
  cbn [Analytics.event_get Analytics.bind].
  destruct (Analytics.event_get2 (PDict m) "track" "title")
    as [track_title|]; [|discriminate].
  destruct (Analytics.event_get2 (PDict m) "artist" "name")
    as [artist_name|]; [|discriminate].
  destruct (Analytics.event_get2 (PDict m) "track" "genre")
    as [genre|]; [|discriminate].
  destruct (Analytics.event_get2 (PDict m) "streaming_event" "platform")
    as [platform|]; [|discriminate].
  destruct (Analytics.event_get2 (PDict m) "user_interaction" "location")
    as [user_location|]; [|discriminate].
  cbn [Analytics.bind]. intros [= <- <-].
  split; [reflexivity|]. exists m. split; [reflexivity|].
  repeat split; try reflexivity.
Qed.

(** ** EngagementCalculator *)

Lemma engagement_base_cases (event_type : pyval) (base : float) :
  Analytics.table_get Analytics.engagement_scores event_type f1_0
  = Analytics.OK base ->
  base ∈ [f1_0; Analytics.f2_0; Analytics.f3_0; f0_5; f0_1]
  /\ Analytics.engagement_level base = level_of_kind event_type.
Proof.
  destruct event_type as [| | | |s| | |]; try discriminate;
    try (intros [= <-]; split; [apply list_elem_of_here|reflexivity]).
  unfold Analytics.table_get, Analytics.engagement_scores, level_of_kind,
    str_in. cbn [find existsb fst snd].
  rewrite !(String.eqb_sym s).
  destruct (String.eqb "play" s) eqn:Hplay;
    [apply String.eqb_eq in Hplay; subst s; intros [= <-];
     split; [set_solver|reflexivity]|].
  destruct (String.eqb "like" s) eqn:Hlike;
    [intros [= <-]; split; [set_solver|reflexivity]|].
  destruct (String.eqb "share" s) eqn:Hshare;
    [intros [= <-]; split; [set_solver|reflexivity]|].
  destruct (String.eqb "pause" s) eqn:Hpause;
    [intros [= <-]; split; [set_solver|reflexivity]|].
  destruct (String.eqb "skip" s) eqn:Hskip;
    intros [= <-]; (split; [set_solver|reflexivity]).
Qed.

Lemma engagement_level_scaled (base : float) :
  base ∈ [f1_0; Analytics.f2_0; Analytics.f3_0; f0_5; f0_1] ->
  Analytics.engagement_level (fmul base Analytics.f1_2)
  = Analytics.engagement_level base
  /\ Analytics.engagement_level (fmul base Analytics.f1_1)
     = Analytics.engagement_level base.
Proof.
  rewrite !elem_of_cons, elem_of_nil.
  intros [->|[->|[->|[->|[->|[]]]]]]; split; reflexivity.
Qed.

(** X19. The engagement level that [EngagementCalculator] assigns depends
    on the kind of event alone: high for a like or a share, low for a pause
    or a skip, medium for every other kind.  The location bonus scales the
    score by 1.2 or 1.1 but never moves it across a threshold. *)
Theorem location_bonus_never_changes_the_level
    (element : gmap string pyval) (out : list (gmap string pyval)) :
  Analytics.EngagementCalculator_process (Some element) = Analytics.OK out ->
  exists base score,
    Analytics.table_get Analytics.engagement_scores
      (Analytics.get_or element "event_type" (PStr "play")) f1_0
    = Analytics.OK base
    /\ score ∈ [base; fmul base Analytics.f1_2; fmul base Analytics.f1_1]
    /\ out = [<["engagement_level" :=
                  PStr (level_of_kind
                          (Analytics.get_or element "event_type"
                             (PStr "play")))]>
                (<["engagement_score" := PFloat score]> element)].
Proof.
  unfold Analytics.EngagementCalculator_process.
  destruct (Analytics.table_get _ _ _) as [base|] eqn:Hbase; [|discriminate].
  cbn [Analytics.bind].
  destruct (Analytics.lower_of _) as [location|]; [|discriminate].
  cbn [Analytics.bind].
  apply engagement_base_cases in Hbase as [Hbase Hlevel].
  rewrite <- Hlevel. intros [= <-]. exists base.
  apply engagement_level_scaled in Hbase as [Hlarge Hsmall].
  destruct (_ || _).
  - exists (fmul base Analytics.f1_2). split; [reflexivity|].
    split; [set_solver|]. now rewrite Hlarge.
  - destruct (_ || _).
    + exists (fmul base Analytics.f1_1). split; [reflexivity|].
      split; [set_solver|]. now rewrite Hsmall.
    + exists base. split; [reflexivity|]. split; [set_solver|reflexivity].
Qed.

Lemma location_bonus_never_changes_the_level_witness :
  exists base score,
    Analytics.table_get Analytics.engagement_scores
      (Analytics.get_or Fixtures.an_element "event_type" (PStr "play")) f1_0
    = Analytics.OK base
    /\ score ∈ [base; fmul base Analytics.f1_2; fmul base Analytics.f1_1]
    /\ Fixtures.scored
       = [<["engagement_level" :=
              PStr (level_of_kind
                      (Analytics.get_or Fixtures.an_element "event_type"
                         (PStr "play")))]>
            (<["engagement_score" := PFloat score]> Fixtures.an_element)].
Proof.
  apply (location_bonus_never_changes_the_level Fixtures.an_element
           Fixtures.scored).
  reflexivity.
Defined.

(** ** GenreAnalytics *)

Lemma genre_popularity_cases (genre : string) :
  exists popularity,
    Analytics.table_get Analytics.genre_popularity (PStr genre) f0_5
    = Analytics.OK popularity
    /\ flt Analytics.f0_7 popularity = str_in genre ["rock"; "pop"].
Proof.
  unfold Analytics.table_get, Analytics.genre_popularity, str_in.
  cbn [find existsb fst snd]. rewrite !(String.eqb_sym genre).
  destruct (String.eqb "rock" genre); [eexists; split; reflexivity|].
  destruct (String.eqb "pop" genre); [eexists; split; reflexivity|].
  destruct (String.eqb "hip_hop" genre); [eexists; split; reflexivity|].
  destruct (String.eqb "electronic" genre); [eexists; split; reflexivity|].
  destruct (String.eqb "jazz" genre); [eexists; split; reflexivity|].
  destruct (String.eqb "classical" genre); eexists; split; reflexivity.
Qed.

(** X20. [GenreAnalytics] yields an element only for a genre that is a
    text, and flags it as popular exactly when the text, in lower case, is
    rock or pop: hip_hop, whose popularity 0.7 is not above the threshold
    0.7, and every genre outside the table are not popular. *)
Theorem popular_genres_are_rock_and_pop
    (element : gmap string pyval) (out : list (gmap string pyval)) :
  Analytics.GenreAnalytics_process (Some element) = Analytics.OK out ->
  exists genre popularity,
    Analytics.get_or element "genre" (PStr "") = PStr genre
    /\ out = [<["is_popular_genre" :=
                  PBool (str_in (Analytics.lower genre) ["rock"; "pop"])]>
                (<["genre_popularity" := PFloat popularity]> element)].
Proof.
  unfold Analytics.GenreAnalytics_process.
  destruct (Analytics.get_or element "genre" (PStr ""))
    as [| | | |genre| | |]; try discriminate.
  cbn [Analytics.lower_of Analytics.bind].
  destruct (genre_popularity_cases (Analytics.lower genre))
    as (popularity & -> & Hpopular).
  cbn [Analytics.bind]. rewrite Hpopular. intros [= <-].
  exists genre, popularity. split; reflexivity.
Qed.

Lemma popular_genres_are_rock_and_pop_witness :
  exists genre popularity,
    Analytics.get_or Fixtures.an_element "genre" (PStr "") = PStr genre
    /\ Fixtures.genre_marked
       = [<["is_popular_genre" :=
              PBool (str_in (Analytics.lower genre) ["rock"; "pop"])]>
            (<["genre_popularity" := PFloat popularity]>
               Fixtures.an_element)].
Proof.
  apply (popular_genres_are_rock_and_pop Fixtures.an_element
           Fixtures.genre_marked).
  reflexivity.
Defined.

(** ** PlatformAnalytics *)

Lemma platform_quality_cases (platform : string) :
  exists quality,
    Analytics.table_get Analytics.platform_quality (PStr platform) "unknown"
    = Analytics.OK quality
    /\ (quality = "high"
        <-> str_in platform ["spotify"; "apple_music"] = true).
Proof.
  unfold Analytics.table_get, Analytics.platform_quality, str_in.
  cbn [find existsb fst snd]. rewrite !(String.eqb_sym platform).
  destruct (String.eqb "spotify" platform);
    [eexists; split; [reflexivity|split; reflexivity]|].
  destruct (String.eqb "apple_music" platform);
    [eexists; split; [reflexivity|split; reflexivity]|].
  destruct (String.eqb "youtube_music" platform);
    [eexists; split; [reflexivity|split; discriminate]|].
  destruct (String.eqb "soundcloud" platform);
    eexists; (split; [reflexivity|split; discriminate]).
Qed.

(** X21. [PlatformAnalytics] yields an element only for a platform that is
    a text, flags it as premium exactly when the text, in lower case, is
    spotify or apple_music, and rates its quality high exactly when it
    flags it as premium. *)
Theorem premium_platforms_are_spotify_and_apple_music
    (element : gmap string pyval) (out : list (gmap string pyval)) :
  Analytics.PlatformAnalytics_process (Some element) = Analytics.OK out ->
  exists platform quality,
    Analytics.get_or element "platform" (PStr "") = PStr platform
    /\ out = [<["is_premium_platform" :=
                  PBool (str_in (Analytics.lower platform)
                           ["spotify"; "apple_music"])]>
                (<["platform_quality" := PStr quality]> element)]
    /\ (quality = "high"
        <-> str_in (Analytics.lower platform) ["spotify"; "apple_music"]
            = true).
Proof.
  unfold Analytics.PlatformAnalytics_process.
  destruct (Analytics.get_or element "platform" (PStr ""))
    as [| | | |platform| | |]; try discriminate.
  cbn [Analytics.lower_of Analytics.bind].
  destruct (platform_quality_cases (Analytics.lower platform))
    as (quality & -> & Hquality).
  cbn [Analytics.bind]. intros [= <-].
  exists platform, quality. split; [reflexivity|]. split; [reflexivity|].
  exact Hquality.
Qed.

Lemma premium_platforms_are_spotify_and_apple_music_witness :
  exists platform quality,
    Analytics.get_or Fixtures.an_element "platform" (PStr "") = PStr platform
    /\ Fixtures.platform_marked
       = [<["is_premium_platform" :=
              PBool (str_in (Analytics.lower platform)
                       ["spotify"; "apple_music"])]>
            (<["platform_quality" := PStr quality]> Fixtures.an_element)]
    /\ (quality = "high"
        <-> str_in (Analytics.lower platform) ["spotify"; "apple_music"]
            = true).
Proof.
  apply (premium_platforms_are_spotify_and_apple_music Fixtures.an_element
           Fixtures.platform_marked).
  reflexivity.
Defined.

(** X22. The two classifications of platforms disagree on tidal alone: for
    a platform of the schema, [PlatformAnalytics] sets its premium flag
    exactly when [_categorize_platform] answers premium and the platform is
    not tidal. *)
Theorem premium_flag_and_premium_category_differ_on_tidal (p : Platform)
    (element : gmap string pyval) (out : list (gmap string pyval)) :
  element !! "platform" = Some (PStr (Platform_value p)) ->
  Analytics.PlatformAnalytics_process (Some element) = Analytics.OK out ->
  exists element',
    out = [element']
    /\ (element' !! "is_premium_platform" = Some (PBool true)
        <-> _categorize_platform (Platform_value p) = "premium"
            /\ p <> TIDAL).
Proof.
  intros Hplatform.
  unfold Analytics.PlatformAnalytics_process, Analytics.get_or.
  rewrite Hplatform.
  cbn [default from_option id Analytics.lower_of Analytics.bind
       Analytics.table_get].
  intros [= <-]. eexists. split; [reflexivity|].
  rewrite lookup_insert_eq.
  destruct p; vm_compute; split; try discriminate;
    try (intros [? ?]; congruence); try (intros _; split; congruence).
Qed.

Lemma premium_flag_and_premium_category_differ_on_tidal_witness :
  exists element',
    Fixtures.platform_marked = [element']
    /\ (element' !! "is_premium_platform" = Some (PBool true)
        <-> _categorize_platform (Platform_value TIDAL) = "premium"
            /\ TIDAL <> TIDAL).
Proof.
  apply (premium_flag_and_premium_category_differ_on_tidal TIDAL
           Fixtures.an_element Fixtures.platform_marked);
    reflexivity.
Defined.

(** ** TimeWindowAnalytics *)

Lemma time_context_cases (hour : Z) :
  Analytics.time_context_of hour
  ∈ [("morning_commute", Analytics.f1_3); ("lunch_break", Analytics.f1_1);
     ("evening_commute", Analytics.f1_4);
     ("evening_relaxation", Analytics.f1_2); ("other", f1_0)].
Proof.
  unfold Analytics.time_context_of.
  repeat (destruct (_ && _); [set_solver|]). set_solver.
Qed.

(** X23. [TimeWindowAnalytics] yields exactly one element for every
    element it is given, whatever the timestamp holds: the element with
    the three keys [time_context], [time_multiplier] and
    [adjusted_engagement] set.  The multiplier is the one of the context;
    when anything fails the context is unknown, the multiplier 1.0 and the
    adjusted engagement the engagement score as it was given. *)
Theorem time_step_always_yields_one_element
    (fromisoformat : string -> option datetime)
    (element : gmap string pyval) :
  exists context multiplier adjusted,
    Analytics.TimeWindowAnalytics_process fromisoformat (Some element)
    = [<["adjusted_engagement" := adjusted]>
         (<["time_multiplier" := PFloat multiplier]>
            (<["time_context" := PStr context]> element))]
    /\ (context, multiplier)
       ∈ [("morning_commute", Analytics.f1_3);
          ("lunch_break", Analytics.f1_1);
          ("evening_commute", Analytics.f1_4);
          ("evening_relaxation", Analytics.f1_2); ("other", f1_0);
          ("unknown", f1_0)]
    /\ (context = "unknown" ->
        adjusted = Analytics.get_or element "engagement_score" (PFloat f1_0))
    /\ (context <> "unknown" -> exists score, adjusted = PFloat score).
Proof.
  unfold Analytics.TimeWindowAnalytics_process, Analytics.time_analytics.
  assert (Hunknown : exists context multiplier adjusted,
    [<["adjusted_engagement" :=
         Analytics.get_or element "engagement_score" (PFloat f1_0)]>
       (<["time_multiplier" := PFloat f1_0]>
          (<["time_context" := PStr "unknown"]> element))]
    = [<["adjusted_engagement" := adjusted]>
         (<["time_multiplier" := PFloat multiplier]>
            (<["time_context" := PStr context]> element))]
    /\ (context, multiplier)
       ∈ [("morning_commute", Analytics.f1_3);
          ("lunch_break", Analytics.f1_1);
          ("evening_commute", Analytics.f1_4);
          ("evening_relaxation", Analytics.f1_2); ("other", f1_0);
          ("unknown", f1_0)]
    /\ (context = "unknown" ->
        adjusted = Analytics.get_or element "engagement_score" (PFloat f1_0))
    /\ (context <> "unknown" -> exists score, adjusted = PFloat score)).
  { exists "unknown", f1_0. eexists. split; [reflexivity|].
    split; [do 5 apply list_elem_of_further; apply list_elem_of_here|].
    split; [reflexivity|]. intros H. now destruct H. }
  destruct (Analytics.get_or element "timestamp" (PStr ""))
    as [| | | |text| | |]; try exact Hunknown.
  destruct (fromisoformat (Analytics.replace_Z text)) as [timestamp|];
    [|exact Hunknown].
  pose proof (time_context_cases (hour timestamp)) as Hcases.
  destruct (Analytics.time_context_of (hour timestamp))
    as [context multiplier].
  destruct (Analytics.times _ multiplier) as [e|adjusted];
    [exact Hunknown|].
  exists context, multiplier, (PFloat adjusted). split; [reflexivity|].
  rewrite !elem_of_cons, elem_of_nil in Hcases.
  split; [rewrite !elem_of_cons; tauto|]. split; [|eauto].
  intros ->. exfalso.
  destruct Hcases as [[=]|[[=]|[[=]|[[=]|[[=]|[]]]]]].
Qed.

(** ** MusicEventProcessor *)

(** X24. [MusicEventProcessor.process] yields exactly one item for every
    message: [None] when anything fails, and then the clock is not read;
    otherwise an element with exactly the nine keys of the dictionary
    literal, whichever of them the message holds, after one reading of the
    clock. *)
Theorem every_message_yields_one_item
    (decode_utf8 : list Byte.byte -> option string)
    (json_loads : string -> option pyval)
    (message : list Byte.byte) (w : World) :
  exists item,
    Analytics.MusicEventProcessor_process decode_utf8 json_loads message w
    = ([item], if item is Some _ then snd (utcnow w) else w)
    /\ forall analytics, item = Some analytics ->
         dom analytics
         = list_to_set ["event_id"; "event_type"; "track_title";
                        "artist_name"; "genre"; "platform"; "user_location";
                        "timestamp"; "processing_time"].
Proof.
  unfold Analytics.MusicEventProcessor_process.
  destruct (decode_utf8 message) as [data|];
    [|exists None; split; [reflexivity|discriminate]].
  destruct (json_loads data) as [event|];
    [|exists None; split; [reflexivity|discriminate]].
  destruct (Analytics.extract_analytics event w) as [[analytics|e] w1] eqn:H.
  - apply extract_analytics_keys in H as (-> & m & _ & H).
    exists (Some analytics). split; [reflexivity|].
    intros ? [= <-]. apply H.
  - exists None. split; [|discriminate].
    unfold Analytics.extract_analytics in H.
    destruct (Analytics.bind _ _); [|now injection H as _ <-].
    destruct (utcnow w). discriminate H.
Qed.

(** ** The chain of transforms *)

Lemma get_or_present (element : gmap string pyval) (k : string)
    (dflt : pyval) :
  k ∈ dom element -> Analytics.get_or element k dflt = Analytics.get element k.
Proof.
  intros [x Hx]%elem_of_dom. unfold Analytics.get_or, Analytics.get.
  now rewrite Hx.
Qed.

Lemma engagement_step (element : gmap string pyval)
    (out : list (gmap string pyval)) :
  Analytics.EngagementCalculator_process (Some element) = Analytics.OK out ->
  exists location score level,
    Analytics.get_or element "user_location" (PStr "") = PStr location
    /\ out = [<["engagement_level" := PStr level]>
                (<["engagement_score" := PFloat score]> element)].
Proof.
  unfold Analytics.EngagementCalculator_process.
  destruct (Analytics.table_get _ _ _) as [base|]; [|discriminate].
  cbn [Analytics.bind].
  destruct (Analytics.get_or element "user_location" (PStr ""))
    as [| | | |location| | |]; try discriminate.
  cbn [Analytics.lower_of Analytics.bind]. intros [= <-].
  exists location. eexists _, _. split; reflexivity.
Qed.

Lemma genre_step (element : gmap string pyval)
    (out : list (gmap string pyval)) :
  Analytics.GenreAnalytics_process (Some element) = Analytics.OK out ->
  exists genre popularity popular,
    Analytics.get_or element "genre" (PStr "") = PStr genre
    /\ out = [<["is_popular_genre" := PBool popular]>
                (<["genre_popularity" := PFloat popularity]> element)].
Proof.
  unfold Analytics.GenreAnalytics_process.
  destruct (Analytics.get_or element "genre" (PStr ""))
    as [| | | |genre| | |]; try discriminate.
  cbn [Analytics.lower_of Analytics.bind].
  destruct (genre_popularity_cases (Analytics.lower genre))
    as (popularity & -> & _).
  cbn [Analytics.bind]. intros [= <-].
  exists genre. eexists _, _. split; reflexivity.
Qed.

Lemma platform_step (element : gmap string pyval)
    (out : list (gmap string pyval)) :
  Analytics.PlatformAnalytics_process (Some element) = Analytics.OK out ->
  exists platform quality premium,
    Analytics.get_or element "platform" (PStr "") = PStr platform
    /\ out = [<["is_premium_platform" := PBool premium]>
                (<["platform_quality" := PStr quality]> element)].
Proof.
  unfold Analytics.PlatformAnalytics_process.
  destruct (Analytics.get_or element "platform" (PStr ""))
    as [| | | |platform| | |]; try discriminate.
  cbn [Analytics.lower_of Analytics.bind].
  destruct (platform_quality_cases (Analytics.lower platform))
    as (quality & -> & _).
  cbn [Analytics.bind]. intros [= <-].
  exists platform. eexists _, _. split; reflexivity.
Qed.

Lemma time_step (fromisoformat : string -> option datetime)
    (element : gmap string pyval) :
  exists context multiplier adjusted,
    Analytics.TimeWindowAnalytics_process fromisoformat (Some element)
    = [<["adjusted_engagement" := adjusted]>
         (<["time_multiplier" := PFloat multiplier]>
            (<["time_context" := PStr context]> element))].
Proof.
  unfold Analytics.TimeWindowAnalytics_process.
  destruct (Analytics.time_analytics fromisoformat element)
    as [e|[[context multiplier] adjusted]]; eexists _, _, _; reflexivity.
Qed.

Lemma ParDo_one (process : option (gmap string pyval)
                           -> Analytics.result (list (gmap string pyval)))
    (item : option (gmap string pyval)) :
  Analytics.ParDo process [item]
  = Analytics.bind (process item) (fun yielded =>
      Analytics.OK (map Some yielded)).
Proof.
  cbn [Analytics.ParDo]. destruct (process item) as [yielded|];
    cbn [Analytics.bind]; [|reflexivity]. now rewrite app_nil_r.
Qed.

Lemma lookup_of_get_or (element : gmap string pyval) (k : string)
    (dflt x : pyval) :
  k ∈ dom element -> Analytics.get_or element k dflt = x ->
  element !! k = Some x.
Proof.
  intros [y Hy]%elem_of_dom. unfold Analytics.get_or. rewrite Hy.
  now intros <-.
Qed.

(** X25. What [processed_events] holds for one message, when no transform
    raises: nothing, if the message could not be decoded into analytics;
    otherwise exactly one element, whose location, genre and platform are
    texts, and whose keys are exactly the eighteen columns of the
    [processed_events] table. *)
Theorem processed_events_of_a_message
    (decode_utf8 : list Byte.byte -> option string)
    (json_loads : string -> option pyval)
    (fromisoformat : string -> option datetime)
    (message : list Byte.byte) (w w' : World)
    (out : list (gmap string pyval)) :
  Analytics.processed_events decode_utf8 json_loads fromisoformat message w
  = (Analytics.OK out, w') ->
  (out = [] /\ w' = w)
  \/ exists element location genre platform,
       out = [element] /\ w' = snd (utcnow w)
       /\ element !! "user_location" = Some (PStr location)
       /\ element !! "genre" = Some (PStr genre)
       /\ element !! "platform" = Some (PStr platform)
       /\ dom element
          = list_to_set
              ["event_id"; "event_type"; "track_title"; "artist_name";
               "genre"; "platform"; "user_location"; "timestamp";
               "processing_time"; "engagement_score"; "engagement_level";
               "genre_popularity"; "is_popular_genre"; "platform_quality";
               "is_premium_platform"; "time_context"; "time_multiplier";
               "adjusted_engagement"].
Proof.
  unfold Analytics.processed_events, Analytics.MusicEventProcessor_process.
  destruct (decode_utf8 message) as [data|];
    [|intros [= <- <-]; now left].
  destruct (json_loads data) as [event|];
    [|intros [= <- <-]; now left].
  destruct (Analytics.extract_analytics event w) as [[analytics|e] w1] eqn:H.
  2:{ intros [= <- <-]. left. split; [reflexivity|].
      unfold Analytics.extract_analytics in H.
      destruct (Analytics.bind _ _); [|now injection H as _ <-].
      destruct (utcnow w). discriminate H. }
  apply extract_analytics_keys in H
    as (-> & m & _ & _ & _ & _ & _ & _ & _ & _ & _ & _ & Hdom).
  rewrite ParDo_one.
  destruct (Analytics.EngagementCalculator_process (Some analytics))
    as [out1|] eqn:H1; [|discriminate].
  apply engagement_step in H1 as (location & score & level & Hlocation & ->).
  cbn [Analytics.bind map]. rewrite ParDo_one.
  destruct (Analytics.GenreAnalytics_process _) as [out2|] eqn:H2;
    [|discriminate].
  apply genre_step in H2 as (genre & popularity & popular & Hgenre & ->).
  cbn [Analytics.bind map]. rewrite ParDo_one.
  destruct (Analytics.PlatformAnalytics_process _) as [out3|] eqn:H3;
    [|discriminate].
  apply platform_step in H3 as (platform & quality & premium & Hplatform & ->).
  cbn [Analytics.bind map flat_map].
  destruct (time_step fromisoformat
              (<["is_premium_platform" := PBool premium]>
                 (<["platform_quality" := PStr quality]>
                    (<["is_popular_genre" := PBool popular]>
                       (<["genre_popularity" := PFloat popularity]>
                          (<["engagement_level" := PStr level]>
                             (<["engagement_score" := PFloat score]>
                                analytics)))))))
    as (context & multiplier & adjusted & ->).
  rewrite app_nil_r. intros [= <- <-]. right.
  eexists. exists location, genre, platform.
  split; [reflexivity|]. split; [reflexivity|].
  apply lookup_of_get_or in Hlocation;
    [|rewrite Hdom; set_solver].
  apply lookup_of_get_or in Hgenre;
    [|rewrite !dom_insert_L, Hdom; set_solver].
  apply lookup_of_get_or in Hplatform;
    [|rewrite !dom_insert_L, Hdom; set_solver].
  rewrite !lookup_insert_ne in Hgenre by discriminate.
  rewrite !lookup_insert_ne in Hplatform by discriminate.
  rewrite !lookup_insert_ne by discriminate.
  split; [exact Hlocation|]. split; [exact Hgenre|].
  split; [exact Hplatform|].
  rewrite !dom_insert_L, Hdom. set_solver.
Qed.

Lemma processed_events_of_a_message_witness :
  (Fixtures.processed = [] /\ snd (utcnow Sample.world1) = Sample.world1)
  \/ exists element location genre platform,
       Fixtures.processed = [element]
       /\ snd (utcnow Sample.world1) = snd (utcnow Sample.world1)
       /\ element !! "user_location" = Some (PStr location)
       /\ element !! "genre" = Some (PStr genre)
       /\ element !! "platform" = Some (PStr platform)
       /\ dom element
          = list_to_set
              ["event_id"; "event_type"; "track_title"; "artist_name";
               "genre"; "platform"; "user_location"; "timestamp";
               "processing_time"; "engagement_score"; "engagement_level";
               "genre_popularity"; "is_popular_genre"; "platform_quality";
               "is_premium_platform"; "time_context"; "time_multiplier";
               "adjusted_engagement"].
Proof.
  apply (processed_events_of_a_message Sample.decode_ascii
           Fixtures.loads_message Fixtures.fromisoformat_sample
           Sample.empty_object Sample.world1 (snd (utcnow Sample.world1))
           Fixtures.processed).
  reflexivity.
Defined.

(* ===================================================================== *)
(** * Properties of the processor for local development                   *)
(* ===================================================================== *)

(** X26. [SimpleMusicProcessor] returns where [EnrichEventMetadata]
    raises.  The two copies of [_calculate_derived_fields] differ in the
    guard [hasattr(..., 'value')] alone: on every event for which the
    processor derives a record the pipeline's copy raises
    [AttributeError]; the processor's copy raises only where a quotient is
    beyond the binary64 range, never for a division by zero, and there the
    pipeline's copy raises the same [OverflowError]. *)
Theorem simple_processor_returns_where_the_pipeline_raises
    (event : MusicEvent) :
  match Simple._calculate_derived_fields event with
  | OK _ => _calculate_derived_fields event = Raise AttributeError
  | Raise e =>
      e = OverflowError
      /\ _calculate_derived_fields event = Raise OverflowError
  end.
Proof.
  unfold Simple._calculate_derived_fields, _calculate_derived_fields,
    Simple._calculate_engagement_score, _calculate_engagement_score.
  destruct (truthy (track_duration_ms (track event))) as [d|] eqn:Hd.
  - apply truthy_Some in Hd as [_ Hd].
    destruct (int_truediv d 1000) as [s|e] eqn:H1.
    2: { apply int_truediv_raises in H1 as ->; [|discriminate].
         split; reflexivity. }
    destruct (play_event event) as [pe|]; [|reflexivity].
    destruct (int_truediv (played_duration_ms pe) d) as [r|e] eqn:H2.
    2: { apply int_truediv_raises in H2 as ->; [|assumption].
         split; reflexivity. }
    reflexivity.
  - destruct (play_event event); reflexivity.
Qed.

(** X31. Every row that [SimpleMusicProcessor.process_event] returns
    carries an engagement score, and the score lies in the closed interval
    [0.0, 1.0]. *)
Theorem simple_rows_carry_a_score_in_the_unit_interval
    (parse_datetime : pyval -> option datetime)
    (event_data : gmap string pyval) (st : Simple.State) (w : World)
    (row : Row.t) :
  fst (fst (Simple.process_event parse_datetime event_data st w)) = Some row ->
  exists s,
    engagement_score (Row.enriched row) = Some s
    /\ fle f0_0 s = true /\ fle s f1_0 = true.
Proof.
  unfold Simple.process_event.
  destruct (MusicEvent_new parse_datetime event_data w)
    as [[music_event|errors] w']; [|discriminate].
  destruct (Simple._calculate_derived_fields music_event)
    as [enriched_data|e] eqn:Hd; [|discriminate].
  cbn [fst]. intros [= <-]. cbn [Simple._convert_to_bigquery_row Row.enriched].
  apply derived_fields_unfolded in Hd
    as (engagement & Hscore & _ & _ & _ & _ & _ & Hd & _).
  exists engagement. split; [exact Hd|].
  now apply (simple_score_in_unit_interval music_event).
Qed.

Lemma simple_rows_carry_a_score_in_the_unit_interval_witness :
  exists row,
    fst (fst (Simple.process_event Sample.only_datetimes
                Fixtures.sample_event
                {| Simple.processed_count := 0; Simple.error_count := 0;
                   Simple.failures := [] |} Sample.world1)) = Some row
    /\ exists s,
         engagement_score (Row.enriched row) = Some s
         /\ fle f0_0 s = true /\ fle s f1_0 = true.
Proof.
  eexists. split; [vm_compute; reflexivity|].
  apply (simple_rows_carry_a_score_in_the_unit_interval
           Sample.only_datetimes Fixtures.sample_event
           {| Simple.processed_count := 0; Simple.error_count := 0;
              Simple.failures := [] |} Sample.world1).
  vm_compute. reflexivity.
Defined.

(** X32. At a track duration of zero [SimpleMusicProcessor] skips both
    divisions: the derivation returns a record without duration and
    without completion fields, and the engagement score is computed
    without a quotient. *)
Theorem simple_derivation_at_zero_duration (event : MusicEvent) :
  track_duration_ms (track event) = Some 0 ->
  exists d,
    Simple._calculate_derived_fields event = OK d
    /\ track_duration_seconds d = None
    /\ is_long_track d = None /\ is_short_track d = None
    /\ play_completion_ratio d = None
    /\ is_full_play d = None /\ is_skip d = None
    /\ engagement_score d
       = Some (Spec.step4 None (event_type event) (play_event event)).
Proof.
  intros Hzero.
  pose proof (engagement_score_unfolded event) as Hscore.
  unfold Spec.played_fraction in Hscore. rewrite Hzero in Hscore.
  assert (Hs : Simple._calculate_engagement_score event
               = OK (Spec.step4 None (event_type event) (play_event event))).
  { rewrite Hscore. now destruct (play_event event). }
  unfold Simple._calculate_derived_fields.
  rewrite Hs, Hzero, truthy_zero.
  destruct (play_event event) as [pe|]; eexists; repeat split.
Qed.

Lemma simple_derivation_at_zero_duration_witness :
  track_duration_ms (track Sample.zero_duration) = Some 0
  /\ is_Some (play_event Sample.zero_duration)
  /\ exists d,
       Simple._calculate_derived_fields Sample.zero_duration = OK d
       /\ track_duration_seconds d = None
       /\ is_long_track d = None /\ is_short_track d = None
       /\ play_completion_ratio d = None
       /\ is_full_play d = None /\ is_skip d = None
       /\ engagement_score d
          = Some (Spec.step4 None (event_type Sample.zero_duration)
                    (play_event Sample.zero_duration)).
Proof.
  split; [reflexivity|]. split; [vm_compute; eauto|].
  apply (simple_derivation_at_zero_duration Sample.zero_duration).
  reflexivity.
Defined.

(** X27. [process_events_batch] counts every record of the batch exactly
    once: the rows it returns are as many as the processed counter grows,
    and the records without a row as many as the error counter grows. *)
Theorem a_batch_is_counted_record_by_record
    (parse_datetime : pyval -> option datetime)
    (events_data : list (gmap string pyval)) (st : Simple.State)
    (w : World) :
  let '(rows, st', _) :=
    Simple.process_events_batch parse_datetime events_data st w in
  (length rows <= length events_data)%nat
  /\ Simple.processed_count st'
     = (Simple.processed_count st + length rows)%nat
  /\ (Simple.error_count st' + length rows)%nat
     = (Simple.error_count st + length events_data)%nat
  /\ (length (Simple.failures st') + length rows)%nat
     = (length (Simple.failures st) + length events_data)%nat.
Proof.
  revert st w. induction events_data as [|event_data rest IH]; intros st w.
  - simpl. lia.
  - cbn [Simple.process_events_batch].
    destruct (Simple.process_event parse_datetime event_data st w)
      as [[processed_event st1] w1] eqn:Hone.
    specialize (IH st1 w1).
    destruct (Simple.process_events_batch parse_datetime rest st1 w1)
      as [[processed_events st2] w2].
    unfold Simple.process_event in Hone.
    destruct (MusicEvent_new parse_datetime event_data w)
      as [[music_event|errors] w'].
    + destruct (Simple._calculate_derived_fields music_event);
        injection Hone as <- <- <-; simpl in *;
        rewrite ?length_app in *; simpl in *; lia.
    + injection Hone as <- <- <-; simpl in *;
        rewrite ?length_app in *; simpl in *; lia.
Qed.

(* ===================================================================== *)
(** * Properties of the enrichment function                               *)
(* ===================================================================== *)

(** X28. The confidence of an enrichment lies between 0.0 and 1.0 on
    either interpreter, and the cap [min(..., 1.0)] never changes the sum.
    Under the [sum] of CPython up to 3.11 the eight factors add up, from
    left to right in binary64, to 0.9999999999999999 at most, so that 1.0
    is never reached; under the compensated [sum] of CPython from 3.12
    the eight factors of the sample event add up to 1.0. *)
Theorem enrichment_confidence_is_within_bounds (v : interpreter)
    (music_event : MusicEvent) :
  fle f0_0 (Enrichment.calculate_enrichment_confidence v music_event) = true
  /\ fle (Enrichment.calculate_enrichment_confidence v music_event) f1_0
     = true
  /\ Enrichment.calculate_enrichment_confidence v music_event
     = sum_on v (Enrichment.confidence_factors music_event)
  /\ flt (Enrichment.calculate_enrichment_confidence CPython_upto_3_11
             music_event) f1_0 = true
  /\ Enrichment.calculate_enrichment_confidence CPython_upto_3_11
       Fixtures.the_event = S754_finite false 9007199254740991 (-53)
  /\ Enrichment.calculate_enrichment_confidence CPython_from_3_12
       Fixtures.the_event = f1_0.
Proof.
  unfold Enrichment.calculate_enrichment_confidence.
  split; [|split; [|split; [|split; [|split; vm_compute; reflexivity]]]];
  unfold Enrichment.confidence_factors;
  destruct (negb (bool_decide (track_genres (track music_event) = [])));
  destruct (bool_decide (is_Some (track_energy (track music_event))));
  destruct (bool_decide (is_Some (track_valence (track music_event))));
  destruct (Enrichment.truthy_float (track_tempo (track music_event)));
  destruct (bool_decide (is_Some (track_popularity (track music_event))));
  destruct (Enrichment.truthy_str
              (device_type (user_interaction music_event)));
  destruct (Enrichment.truthy_str (location (user_interaction music_event)));
  destruct (bool_decide (is_Some (play_event music_event)));
  try destruct v; vm_compute; reflexivity.
Qed.

(* ===================================================================== *)
(** * A quotient of at most one is within the binary64 range              *)
(* ===================================================================== *)

(** The number of binary digits of a positive number. *)
Lemma digits2_pos_bounds (p : positive) :
  2 ^ (Zpos (digits2_pos p) - 1) <= Zpos p < 2 ^ Zpos (digits2_pos p).
Proof.
  induction p as [p IH|p IH|]; cbn [digits2_pos].
  - rewrite Pos2Z.inj_succ.
    replace (Z.succ (Zpos (digits2_pos p)) - 1) with (Zpos (digits2_pos p))
      by lia.
    rewrite Z.pow_succ_r by lia.
    assert (2 ^ Zpos (digits2_pos p)
            = 2 * 2 ^ (Zpos (digits2_pos p) - 1)) as Hpow.
    { rewrite <- Z.pow_succ_r by lia. f_equal. lia. }
    lia.
  - rewrite Pos2Z.inj_succ.
    replace (Z.succ (Zpos (digits2_pos p)) - 1) with (Zpos (digits2_pos p))
      by lia.
    rewrite Z.pow_succ_r by lia.
    assert (2 ^ Zpos (digits2_pos p)
            = 2 * 2 ^ (Zpos (digits2_pos p) - 1)) as Hpow.
    { rewrite <- Z.pow_succ_r by lia. f_equal. lia. }
    lia.
  - simpl. lia.
Qed.

Lemma Zdigits2_nonneg (m : Z) : 0 <= Zdigits2 m.
Proof. destruct m; simpl; lia. Qed.

Lemma Zdigits2_below (m k : Z) :
  0 <= k -> 0 <= m < 2 ^ k -> Zdigits2 m <= k.
Proof.
  intros Hk [Hm Hlt]. destruct m as [|p|p]; simpl; [lia| |lia].
  pose proof (digits2_pos_bounds p) as [Hlow _].
  destruct (Z.le_gt_cases (Zpos (digits2_pos p)) k) as [|Hgt]; [assumption|].
  assert (2 ^ k <= 2 ^ (Zpos (digits2_pos p) - 1))
    by (apply Z.pow_le_mono_r; lia).
  lia.
Qed.

Lemma Zdigits2_monotone (a b : positive) :
  (a <= b)%positive -> Zdigits2 (Zpos a) <= Zdigits2 (Zpos b).
Proof.
  intros Hab. apply Zdigits2_below; [apply Zdigits2_nonneg|].
  pose proof (digits2_pos_bounds b) as [_ Hb]. simpl. lia.
Qed.

(** Shifting to the right keeps a mantissa between zero and where it
    was. *)
Lemma shr_1_bounds (mrs : shr_record) (bound : Z) :
  0 <= shr_m mrs <= bound -> 0 <= shr_m (shr_1 mrs) <= bound.
Proof.
  destruct mrs as [m r s]. cbn [shr_m]. intros Hm.
  destruct m as [|[p|p|]|[p|p|]]; cbn [shr_1 shr_m]; lia.
Qed.

Lemma iter_pos_invariant {A : Type} (P : A -> Prop) (f : A -> A) :
  (forall x, P x -> P (f x)) ->
  forall (n : positive) (x : A), P x -> P (SpecFloat.iter_pos f n x).
Proof.
  intros Hf. induction n as [n IH|n IH|]; intros x Hx; cbn [SpecFloat.iter_pos].
  - apply IH, IH, Hf, Hx.
  - apply IH, IH, Hx.
  - apply Hf, Hx.
Qed.

Lemma shr_bounds (mrs : shr_record) (e n bound : Z) :
  0 <= shr_m mrs <= bound -> 0 <= shr_m (fst (shr mrs e n)) <= bound.
Proof.
  intros Hm. unfold shr. destruct n as [|p|p]; cbn [fst]; try exact Hm.
  apply (iter_pos_invariant (fun mrs => 0 <= shr_m mrs <= bound));
    [intros x; apply shr_1_bounds|exact Hm].
Qed.

Lemma shr_record_of_loc_m (m : Z) (l : SpecFloat.location) :
  shr_m (shr_record_of_loc m l) = m.
Proof. destruct l as [|[| |]]; reflexivity. Qed.

(** Where [shr_fexp] leaves the exponent. *)
Lemma shr_fexp_exponent (m e : Z) (l : SpecFloat.location) :
  snd (shr_fexp prec emax m e l)
  = Z.max e (fexp prec emax (Zdigits2 m + e)).
Proof.
  unfold shr_fexp, shr.
  destruct (fexp prec emax (Zdigits2 m + e) - e) as [|p|p] eqn:Hn;
    cbn [snd]; lia.
Qed.

Lemma shr_fexp_mantissa (m e bound : Z) (l : SpecFloat.location) :
  0 <= m <= bound ->
  0 <= shr_m (fst (shr_fexp prec emax m e l)) <= bound.
Proof.
  intros Hm. unfold shr_fexp. apply shr_bounds.
  now rewrite shr_record_of_loc_m.
Qed.

Lemma round_nearest_even_bounds (m : Z) (l : SpecFloat.location) :
  m <= round_nearest_even m l <= m + 1.
Proof.
  unfold round_nearest_even. destruct l as [|[| |]]; try lia.
  destruct (Z.even m); lia.
Qed.

(** What rounding makes of a mantissa below [2 ^ s] with the exponent
    [- s]: never an infinity. *)
Lemma binary_round_aux_small (sx : bool) (mx s : Z) (lx : SpecFloat.location) :
  53 <= s <= 1074 -> 0 <= mx <= 2 ^ s ->
  is_infinite (binary_round_aux prec emax sx mx (- s) lx) = false.
Proof.
  intros Hs Hmx. unfold binary_round_aux.
  pose proof (shr_fexp_exponent mx (- s) lx) as He1.
  pose proof (shr_fexp_mantissa mx (- s) (2 ^ s) lx Hmx) as Hm1.
  destruct (shr_fexp prec emax mx (- s) lx) as [mrs1 e1].
  cbn [fst snd] in He1, Hm1.
  set (m_r := round_nearest_even (shr_m mrs1) (loc_of_shr_record mrs1)).
  pose proof (round_nearest_even_bounds (shr_m mrs1)
                (loc_of_shr_record mrs1)) as Hr. fold m_r in Hr.
  pose proof (shr_fexp_exponent m_r e1 loc_Exact) as He2.
  destruct (shr_fexp prec emax m_r e1 loc_Exact) as [mrs2 e2].
  cbn [snd] in He2.
  destruct (shr_m mrs2) as [|m|m]; [reflexivity| |reflexivity].
  assert (Hpow : 2 ^ s + 1 < 2 ^ (s + 1)).
  { rewrite Z.pow_add_r by lia. change (2 ^ 1) with 2.
    assert (2 ^ 1 <= 2 ^ s) by (apply Z.pow_le_mono_r; lia).
    change (2 ^ 1) with 2 in *. lia. }
  assert (Hd1 : Zdigits2 mx <= s + 1)
    by (apply Zdigits2_below; lia).
  assert (Hdr : Zdigits2 m_r <= s + 1)
    by (apply Zdigits2_below; lia).
  assert (He : e2 <= emax - prec).
  { subst e2 e1. unfold fexp, emin, prec, emax in *. lia. }
  apply Z.leb_le in He. now rewrite He.
Qed.

(** The quotient of two positive integers, the first at most the second,
    rounds to a finite binary64. *)
Lemma quotient_is_finite (a b : positive) :
  (a <= b)%positive ->
  is_infinite (fdiv (S754_finite false a 0) (S754_finite false b 0)) = false.
Proof.
  intros Hab. unfold fdiv, SFdiv, SFdiv_core_binary.
  pose proof (Zdigits2_monotone a b Hab) as Hd.
  pose proof (Zdigits2_nonneg (Zpos a)) as Hda.
  set (d1 := Zdigits2 (Zpos a)) in *. set (d2 := Zdigits2 (Zpos b)) in *.
  set (e' := Z.min (fexp prec emax (d1 + 0 - (d2 + 0))) (0 - 0)).
  assert (He' : exists s, e' = - s /\ 53 <= s <= 1074).
  { exists (- e'). split; [lia|].
    subst e'. unfold fexp, emin, prec, emax. lia. }
  destruct He' as (s & He' & Hs).
  replace (0 - 0 - e') with s by lia. rewrite He'.
  destruct s as [|s|s]; try lia.
  rewrite Z.shiftl_mul_pow2 by lia.
  pose proof (Z.div_eucl_eq (Zpos a * 2 ^ Zpos s) (Zpos b)
                ltac:(discriminate)) as Heq.
  pose proof (Z.mod_pos_bound (Zpos a * 2 ^ Zpos s) (Zpos b)
                ltac:(reflexivity)) as Hmod.
  unfold Z.modulo in Hmod.
  destruct (Z.div_eucl (Zpos a * 2 ^ Zpos s) (Zpos b)) as [q r].
  apply binary_round_aux_small; [exact Hs|].
  assert (0 < 2 ^ Zpos s) by (apply Z.pow_pos_nonneg; lia).
  assert (Zpos a <= Zpos b) by exact Hab.
  split; nia.
Qed.

Lemma int_truediv_of_a_part (a b : Z) :
  0 <= a <= b -> 0 < b -> exists q, int_truediv a b = OK q.
Proof.
  intros Ha Hb. unfold int_truediv.
  destruct (Z.eqb_spec b 0); [lia|].
  destruct b as [|b|b]; try lia. destruct a as [|a|a]; try lia.
  - eexists. reflexivity.
  - cbn [exact_int]. rewrite quotient_is_finite by (apply Ha).
    eexists. reflexivity.
Qed.

(** X29. [get_stats] never raises: the success rate is the integer 0
    exactly when no record was counted, and otherwise a quotient that
    neither divides by zero nor leaves the binary64 range. *)
Theorem statistics_never_raise (st : Simple.State) :
  exists stats,
    Simple.get_stats st = OK stats
    /\ Simple.stats_processed_count stats
       = Z.of_nat (Simple.processed_count st)
    /\ Simple.stats_error_count stats = Z.of_nat (Simple.error_count st)
    /\ (Simple.success_rate stats = PInt 0
        <-> (Simple.processed_count st + Simple.error_count st = 0)%nat)
    /\ ((0 < Simple.processed_count st + Simple.error_count st)%nat ->
        exists rate, Simple.success_rate stats = PFloat rate).
Proof.
  unfold Simple.get_stats.
  destruct (Z.ltb_spec 0 (Z.of_nat (Simple.processed_count st)
                          + Z.of_nat (Simple.error_count st))) as [Hpos|Hzero].
  - destruct (int_truediv_of_a_part
                (Z.of_nat (Simple.processed_count st))
                (Z.of_nat (Simple.processed_count st)
                 + Z.of_nat (Simple.error_count st)))
      as [rate ->]; [lia|lia|].
    eexists. split; [reflexivity|]. cbn [Simple.stats_processed_count
      Simple.stats_error_count Simple.success_rate].
    split; [reflexivity|]. split; [reflexivity|]. split.
    + split; [discriminate|lia].
    + intros _. now exists rate.
  - eexists. split; [reflexivity|]. cbn [Simple.stats_processed_count
      Simple.stats_error_count Simple.success_rate].
    split; [reflexivity|]. split; [reflexivity|]. split.
    + split; [lia|reflexivity].
    + lia.
Qed.

(* ===================================================================== *)
(** * The per-platform metrics of the Dataflow pipeline                   *)
(* ===================================================================== *)

Lemma add_to_group_keys {V : Type} (k : Dataflow.scalar) (v : V)
    (groups : list (Dataflow.scalar * list V)) :
  map fst (Dataflow.add_to_group k v groups)
  = if decide (k ∈ map fst groups) then map fst groups
    else map fst groups ++ [k].
Proof.
  induction groups as [|[k' vs] groups IH]; cbn [Dataflow.add_to_group map fst].
  - destruct (decide (k ∈ [])) as [H|_]; [inversion H|reflexivity].
  - destruct (decide (k' = k)) as [->|Hne]; cbn [map fst].
    + destruct (decide (k ∈ k :: map fst groups)) as [_|Hout];
        [reflexivity|]. exfalso. apply Hout, list_elem_of_here.
    + rewrite IH.
      destruct (decide (k ∈ map fst groups)) as [Hin|Hout];
        destruct (decide (k ∈ k' :: map fst groups)) as [Hin'|Hout'];
        try reflexivity.
      * exfalso. apply Hout'. now apply list_elem_of_further.
      * exfalso. apply elem_of_cons in Hin' as [->|?]; contradiction.
Qed.

Lemma add_to_group_grouped {V : Type} (k : Dataflow.scalar) (v : V)
    (groups : list (Dataflow.scalar * list V)) (n : nat) :
  grouped groups n -> grouped (Dataflow.add_to_group k v groups) (S n).
Proof.
  intros (Hkeys & Hfull & Hsize). split; [|split].
  - rewrite add_to_group_keys.
    destruct (decide (k ∈ map fst groups)) as [Hin|Hout]; [exact Hkeys|].
    apply NoDup_app. split; [exact Hkeys|]. split.
    + intros x Hx ->%list_elem_of_singleton. contradiction.
    + apply NoDup_singleton.
  - clear Hkeys Hsize.
    induction groups as [|[k' vs] groups IH]; cbn [Dataflow.add_to_group].
    + constructor; [discriminate|constructor].
    + apply Forall_cons in Hfull as [Hvs Hfull].
      destruct (decide (k' = k)).
      * constructor; [|exact Hfull]. cbn [snd]. now destruct vs.
      * constructor; [exact Hvs|]. now apply IH.
  - subst n. clear Hkeys Hfull.
    induction groups as [|[k' vs] groups IH]; cbn [Dataflow.add_to_group].
    + reflexivity.
    + destruct (decide (k' = k)); cbn [map foldr snd].
      * rewrite length_app. simpl. lia.
      * rewrite IH. cbn [map foldr snd]. lia.
Qed.

Lemma GroupByKey_grouped {V : Type} (kvs : list (Dataflow.scalar * V)) :
  grouped (Dataflow.GroupByKey kvs) (length kvs).
Proof.
  unfold Dataflow.GroupByKey.
  assert (Hloop : forall groups n,
            grouped groups n ->
            grouped (fold_left (fun groups kv =>
                       Dataflow.add_to_group (fst kv) (snd kv) groups)
                     kvs groups) (n + length kvs)%nat).
  { induction kvs as [|kv kvs IH]; intros groups n Hg; cbn [fold_left length].
    - now rewrite Nat.add_0_r.
    - replace (n + S (length kvs))%nat with (S n + length kvs)%nat by lia.
      apply IH. now apply add_to_group_grouped. }
  apply (Hloop [] 0%nat). split; [constructor|]. split; [constructor|].
  reflexivity.
Qed.

Lemma calculate_platform_metrics_ok (k : Dataflow.scalar)
    (vs : list (gmap string Dataflow.scalar)) (w : World) :
  vs <> [] ->
  exists ratio,
    Dataflow.calculate_platform_metrics (k, vs) w
    = (OK {| Dataflow.platform := k;
             Dataflow.count := Z.of_nat (length vs);
             Dataflow.premium_ratio := ratio;
             Dataflow.window_start := isoformat (fst (utcnow w)) |},
       snd (utcnow w)).
Proof.
  intros Hvs. unfold Dataflow.calculate_platform_metrics. cbn [fst snd].
  destruct (int_truediv_of_a_part
              (Z.of_nat (length (filter
                 (fun e => Dataflow.truth
                    (default (Dataflow.SBool false)
                       (e !! "is_premium_platform")) = true) vs)))
              (Z.of_nat (length vs))) as [ratio ->].
  - split; [lia|]. apply inj_le, length_filter.
  - destruct vs; [contradiction|]. simpl. lia.
  - exists ratio. reflexivity.
Qed.

Lemma metrics_of_groups
    (groups : list (Dataflow.scalar * list (gmap string Dataflow.scalar)))
    (w : World) :
  Forall (fun g => snd g <> []) groups ->
  exists metrics,
    fst (Dataflow.map_in_world Dataflow.calculate_platform_metrics groups w)
    = map OK metrics
    /\ map Dataflow.platform metrics = map fst groups
    /\ map Dataflow.count metrics
       = map (fun g => Z.of_nat (length (snd g))) groups
    /\ clock_reads
         (snd (Dataflow.map_in_world Dataflow.calculate_platform_metrics
                 groups w))
       = (clock_reads w + length groups)%nat.
Proof.
  revert w. induction groups as [|[k vs] groups IH]; intros w Hfull.
  - exists []. cbn. repeat split; lia.
  - apply Forall_cons in Hfull as [Hvs Hfull]. cbn [snd] in Hvs.
    cbn [Dataflow.map_in_world].
    destruct (calculate_platform_metrics_ok k vs w Hvs) as [ratio ->].
    destruct (IH (snd (utcnow w)) Hfull)
      as (metrics & Hrows & Hkeys & Hcounts & Hclock).
    destruct (Dataflow.map_in_world Dataflow.calculate_platform_metrics
                groups (snd (utcnow w))) as [bs w2].
    cbn [fst snd] in *. eexists (_ :: metrics).
    split; [cbn [map]; rewrite Hrows; reflexivity|].
    cbn [map Dataflow.platform Dataflow.count fst snd length].
    rewrite Hkeys, Hcounts, Hclock. cbn [clock_reads].
    repeat split; try reflexivity. unfold utcnow. cbn [snd clock_reads].
    lia.
Qed.

(** X30. [platform_metrics] never raises: for every window it yields one
    row per distinct platform key, each with a count of at least one; the
    counts add up to the number of elements of the window; and the clock
    is read once per row. *)
Theorem platform_metrics_cover_the_window
    (window : list (gmap string Dataflow.scalar)) (w : World) :
  exists metrics,
    fst (Dataflow.platform_metrics window w) = map OK metrics
    /\ NoDup (map Dataflow.platform metrics)
    /\ Forall (fun m => 0 < Dataflow.count m) metrics
    /\ foldr Z.add 0 (map Dataflow.count metrics)
       = Z.of_nat (length window)
    /\ clock_reads (snd (Dataflow.platform_metrics window w))
       = (clock_reads w + length metrics)%nat.
Proof.
  unfold Dataflow.platform_metrics.
  destruct (GroupByKey_grouped (map Dataflow.key_by_platform window))
    as (Hkeys & Hfull & Hsize).
  rewrite length_map in Hsize.
  destruct (metrics_of_groups _ w Hfull)
    as (metrics & Hrows & Hplatforms & Hcounts & Hclock).
  exists metrics. split; [exact Hrows|].
  split; [now rewrite Hplatforms|]. split; [|split].
  - apply Forall_forall. intros m Hm.
    apply (list_elem_of_fmap_2 Dataflow.count) in Hm.
    change (Dataflow.count <$> metrics) with (map Dataflow.count metrics)
      in Hm.
    rewrite Hcounts in Hm.
    apply list_elem_of_fmap in Hm as ([k vs] & -> & Hg).
    rewrite Forall_forall in Hfull. specialize (Hfull _ Hg).
    cbn [snd] in *. destruct vs; [contradiction|]. simpl. lia.
  - rewrite Hcounts, <- Hsize.
    generalize (Dataflow.GroupByKey (map Dataflow.key_by_platform window)).
    intros groups. induction groups as [|g groups IH]; [reflexivity|].
    cbn [map foldr]. rewrite IH. lia.
  - rewrite Hclock. f_equal.
    rewrite <- (length_map Dataflow.platform metrics), Hplatforms.
    now rewrite length_map.
Qed.
